(** * The axon request pipeline: [_forward] and [_backward]

    A shallow embedding of [bittensor/_axon/axon_impl.py].  The two
    methods [Axon._forward] and [Axon._backward] are written in a small
    state-and-exception monad whose state holds the local variables of
    one call; the collaborators that live outside the file (the synapse
    codec, the clock, the priority pool, the callbacks) are fields of
    two records, [Bittensor] and [Axon]. *)

From stdpp Require Import base list strings pretty gmap.
From Stdlib Require Import ZArith Lia.

Set Default Proof Using "Type".
Open Scope Z_scope.
Open Scope nat_scope.

(** ** Wire and in-process data *)

(** [bittensor.proto.ReturnCode]: the codes the axon names, and
    [OtherCode] for any further code a callback may hand back. *)
Inductive ReturnCode :=
  | Success
  | Timeout
  | NotImplemented
  | EmptyRequest
  | EmptyResponse
  | InvalidRequest
  | RequestShapeException
  | ResponseShapeException
  | RequestDeserializationException
  | ResponseSerializationException
  | UnknownException
  | OtherCode (n : nat).

Global Instance ReturnCode_eq_dec : EqDecision ReturnCode.
Proof. solve_decision. Defined.

(** [bittensor.proto.RequestType] *)
Inductive RequestType := FORWARD | BACKWARD.

Global Instance RequestType_eq_dec : EqDecision RequestType.
Proof. solve_decision. Defined.

(** Python exceptions, as far as the [except] clauses of the file tell
    them apart: [ValueError], [concurrent.futures.TimeoutError], and the
    rest of [Exception].  [IndexError] and [UnboundLocalError] are the
    two the interpreter itself can raise in these methods. *)
Inductive exn :=
  | ValueError (msg : string)
  | FuturesTimeoutError
  | IndexError
  | UnboundLocalError (name : string)
  | OtherException (msg : string).

(** [str(e)] *)
Definition str (e : exn) : string :=
  match e with
  | ValueError msg => msg
  | FuturesTimeoutError => ""
  | IndexError => "list index out of range"
  | UnboundLocalError name =>
      "local variable '" +:+ name +:+ "' referenced before assignment"
  | OtherException msg => msg
  end.

Inductive result (A : Type) :=
  | Ok (a : A)
  | Raise (e : exn).
Arguments Ok {A} a.
Arguments Raise {A} e.

(** [bittensor.proto.Tensor] (a payload on the wire) and [torch.Tensor];
    both are opaque to the pipeline. *)
Record ProtoTensor := { pt_shape : list nat; pt_buffer : list Z }.
Record Tensor := { t_shape : list nat; t_data : list Z }.

(** An entry of [synapse_responses]: the tensor of [synapse.empty()]
    until the Encode stage stores a serialized response. *)
Inductive Response :=
  | Unserialized (t : Tensor)
  | Serialized (p : ProtoTensor).

(** [bittensor.Synapse] objects and their wire descriptors
    [bittensor.proto.Synapse]; the descriptor carries the mutable
    [return_code] and [message] slots. *)
Record Synapse := { synapse_type : nat; synapse_args : list Z }.

Record SynapseProto := {
  wire_synapse_type : nat;
  wire_args : list Z;
  return_code : ReturnCode;
  message : string }.

(** [bittensor.proto.TensorMessage] *)
Record TensorMessage := {
  tm_version : Z;
  tm_hotkey : string;
  tm_return_code : ReturnCode;
  tm_tensors : list Response;
  tm_requires_grad : bool;
  tm_synapses : list SynapseProto }.

(** The request: its payloads are wire tensors. *)
Record Request := {
  version : Z;
  hotkey : string;
  tensors : list ProtoTensor;
  requires_grad : bool;
  request_wire_synapses : list SynapseProto }.

(** What a compute callback hands back:
    [(response_tensors, response_codes, response_messages)]. *)
Definition CallbackResult : Type :=
  list (option Tensor) * list ReturnCode * list string.

(** A future of the priority pool, by what [future.result(timeout)]
    will do: hand over the callback's outcome, or run out of time. *)
Inductive Future := WillComplete | WillTimeOut.

(** ** Collaborators *)

(** The parts of the [bittensor] package the two methods call.  The
    four codec calls may raise: [bittensor.synapse.deserialize] on a
    wire descriptor that does not decode, the other three inside a
    [try] of the methods.  [synapse.empty],
    [synapse.serialize_to_wire_proto] and [clock.time] are total. *)
Record Bittensor := {
  synapse_deserialize : SynapseProto → result Synapse;
  deserialize_forward_request_tensor : Synapse → ProtoTensor → result Tensor;
  deserialize_backward_request_gradient :
    Synapse → option Tensor → ProtoTensor → result Tensor;
  serialize_forward_response_tensor :
    Synapse → option Tensor → option Tensor → result ProtoTensor;
  empty : Synapse → Tensor;
  serialize_to_wire_proto : Synapse → ReturnCode → string → SynapseProto;
  (** the n-th reading of [clock.time()] during the call *)
  clock_time : nat → Z;
  version_as_int : Z }.

(** [self]: the attributes of the axon the two methods read.
    [prometheus] is read as [self.prometheus] but assigned nowhere in
    the file, so it is a field here. *)
Record Axon := {
  wallet_hotkey : string;
  forward_callback :
    list (option Tensor) → list Synapse → string → result CallbackResult;
  backward_callback :
    list (option Tensor) → list (option Tensor) → list Synapse →
    result CallbackResult;
  priority :
    option (string → list (option Tensor) → RequestType → result Z);
  (** [self.priority_threadpool.submit(fn, ..., priority = p)] *)
  priority_threadpool_submit : Z → result Future;
  forward_timeout : option Z;
  backward_timeout : option Z;
  prometheus : bool }.

(** ** Calls observed from outside *)

Inductive event :=
  | EvDecodeInput (index : nat)
  | EvDecodeGradient (index : nat)
  | EvPriority (kind : RequestType)
  | EvSubmit (kind : RequestType)
  | EvFutureResult
  | EvFutureCancel
  | EvCallback (kind : RequestType)
  | EvSerializeResponse (index : nat)
  | EvToWire (index : nat)
  | EvMetrics (kind : RequestType) (latency : Z)
  | EvSynapseMetrics (kind : RequestType) (index : nat) (code : ReturnCode)
  | EvRpcLog (kind : RequestType) (index : nat) (is_response : bool)
      (code : ReturnCode) (call_time : Z) (msg : string).

(** The stages of the pipeline, and the per-synapse outcome lists as
    they stand when a stage ends. *)
Inductive Stage := Init | Validate | Decode | Compute | Encode | CallTimes.

Global Instance Stage_eq_dec : EqDecision Stage.
Proof. solve_decision. Defined.

Record Snapshot := {
  snap_codes : list ReturnCode;
  snap_messages : list string;
  snap_call_times : list Z;
  snap_is_response : list bool }.

(** ** Local state of one call *)

(** The local variables of [_forward] and [_backward], the wire
    descriptors [request.synapses] the methods write to, and three
    ghost fields: how often the clock was read, the calls made to
    collaborators, and the outcomes at the end of each stage. *)
Record Locals := {
  synapses : list Synapse;
  synapse_messages : list string;
  synapse_codes : list ReturnCode;
  synapse_responses : list Response;
  synapse_is_response : list bool;
  synapse_call_times : list Z;
  start_time : Z;
  deserialized_forward_tensors : list (option Tensor);
  deserialized_forward_gradients : list (option Tensor);
  future : option Future;
  response_synapses : list SynapseProto;
  request_synapses : list SynapseProto;
  clock_reads : nat;
  trace : list event;
  history : list (Stage * Snapshot) }.

Definition set_synapse_messages v (s : Locals) : Locals :=
  {| synapses := synapses s; synapse_messages := v; synapse_codes := synapse_codes s;
     synapse_responses := synapse_responses s; synapse_is_response := synapse_is_response s;
     synapse_call_times := synapse_call_times s; start_time := start_time s;
     deserialized_forward_tensors := deserialized_forward_tensors s;
     deserialized_forward_gradients := deserialized_forward_gradients s; future := future s;
     response_synapses := response_synapses s; request_synapses := request_synapses s;
     clock_reads := clock_reads s; trace := trace s; history := history s |}.

Definition set_synapse_codes v (s : Locals) : Locals :=
  {| synapses := synapses s; synapse_messages := synapse_messages s; synapse_codes := v;
     synapse_responses := synapse_responses s; synapse_is_response := synapse_is_response s;
     synapse_call_times := synapse_call_times s; start_time := start_time s;
     deserialized_forward_tensors := deserialized_forward_tensors s;
     deserialized_forward_gradients := deserialized_forward_gradients s; future := future s;
     response_synapses := response_synapses s; request_synapses := request_synapses s;
     clock_reads := clock_reads s; trace := trace s; history := history s |}.

Definition set_synapse_responses v (s : Locals) : Locals :=
  {| synapses := synapses s; synapse_messages := synapse_messages s; synapse_codes :=
     synapse_codes s; synapse_responses := v; synapse_is_response := synapse_is_response s;
     synapse_call_times := synapse_call_times s; start_time := start_time s;
     deserialized_forward_tensors := deserialized_forward_tensors s;
     deserialized_forward_gradients := deserialized_forward_gradients s; future := future s;
     response_synapses := response_synapses s; request_synapses := request_synapses s;
     clock_reads := clock_reads s; trace := trace s; history := history s |}.

Definition set_synapse_is_response v (s : Locals) : Locals :=
  {| synapses := synapses s; synapse_messages := synapse_messages s; synapse_codes :=
     synapse_codes s; synapse_responses := synapse_responses s; synapse_is_response := v;
     synapse_call_times := synapse_call_times s; start_time := start_time s;
     deserialized_forward_tensors := deserialized_forward_tensors s;
     deserialized_forward_gradients := deserialized_forward_gradients s; future := future s;
     response_synapses := response_synapses s; request_synapses := request_synapses s;
     clock_reads := clock_reads s; trace := trace s; history := history s |}.

Definition set_synapse_call_times v (s : Locals) : Locals :=
  {| synapses := synapses s; synapse_messages := synapse_messages s; synapse_codes :=
     synapse_codes s; synapse_responses := synapse_responses s; synapse_is_response :=
     synapse_is_response s; synapse_call_times := v; start_time := start_time s;
     deserialized_forward_tensors := deserialized_forward_tensors s;
     deserialized_forward_gradients := deserialized_forward_gradients s; future := future s;
     response_synapses := response_synapses s; request_synapses := request_synapses s;
     clock_reads := clock_reads s; trace := trace s; history := history s |}.

Definition set_deserialized_forward_tensors v (s : Locals) : Locals :=
  {| synapses := synapses s; synapse_messages := synapse_messages s; synapse_codes :=
     synapse_codes s; synapse_responses := synapse_responses s; synapse_is_response :=
     synapse_is_response s; synapse_call_times := synapse_call_times s; start_time := start_time
     s; deserialized_forward_tensors := v; deserialized_forward_gradients :=
     deserialized_forward_gradients s; future := future s; response_synapses :=
     response_synapses s; request_synapses := request_synapses s; clock_reads := clock_reads s;
     trace := trace s; history := history s |}.

Definition set_deserialized_forward_gradients v (s : Locals) : Locals :=
  {| synapses := synapses s; synapse_messages := synapse_messages s; synapse_codes :=
     synapse_codes s; synapse_responses := synapse_responses s; synapse_is_response :=
     synapse_is_response s; synapse_call_times := synapse_call_times s; start_time := start_time
     s; deserialized_forward_tensors := deserialized_forward_tensors s;
     deserialized_forward_gradients := v; future := future s; response_synapses :=
     response_synapses s; request_synapses := request_synapses s; clock_reads := clock_reads s;
     trace := trace s; history := history s |}.

Definition set_future v (s : Locals) : Locals :=
  {| synapses := synapses s; synapse_messages := synapse_messages s; synapse_codes :=
     synapse_codes s; synapse_responses := synapse_responses s; synapse_is_response :=
     synapse_is_response s; synapse_call_times := synapse_call_times s; start_time := start_time
     s; deserialized_forward_tensors := deserialized_forward_tensors s;
     deserialized_forward_gradients := deserialized_forward_gradients s; future := v;
     response_synapses := response_synapses s; request_synapses := request_synapses s;
     clock_reads := clock_reads s; trace := trace s; history := history s |}.

Definition set_response_synapses v (s : Locals) : Locals :=
  {| synapses := synapses s; synapse_messages := synapse_messages s; synapse_codes :=
     synapse_codes s; synapse_responses := synapse_responses s; synapse_is_response :=
     synapse_is_response s; synapse_call_times := synapse_call_times s; start_time := start_time
     s; deserialized_forward_tensors := deserialized_forward_tensors s;
     deserialized_forward_gradients := deserialized_forward_gradients s; future := future s;
     response_synapses := v; request_synapses := request_synapses s; clock_reads := clock_reads
     s; trace := trace s; history := history s |}.

Definition set_request_synapses v (s : Locals) : Locals :=
  {| synapses := synapses s; synapse_messages := synapse_messages s; synapse_codes :=
     synapse_codes s; synapse_responses := synapse_responses s; synapse_is_response :=
     synapse_is_response s; synapse_call_times := synapse_call_times s; start_time := start_time
     s; deserialized_forward_tensors := deserialized_forward_tensors s;
     deserialized_forward_gradients := deserialized_forward_gradients s; future := future s;
     response_synapses := response_synapses s; request_synapses := v; clock_reads := clock_reads
     s; trace := trace s; history := history s |}.

Definition set_clock_reads v (s : Locals) : Locals :=
  {| synapses := synapses s; synapse_messages := synapse_messages s; synapse_codes :=
     synapse_codes s; synapse_responses := synapse_responses s; synapse_is_response :=
     synapse_is_response s; synapse_call_times := synapse_call_times s; start_time := start_time
     s; deserialized_forward_tensors := deserialized_forward_tensors s;
     deserialized_forward_gradients := deserialized_forward_gradients s; future := future s;
     response_synapses := response_synapses s; request_synapses := request_synapses s;
     clock_reads := v; trace := trace s; history := history s |}.

Definition set_trace v (s : Locals) : Locals :=
  {| synapses := synapses s; synapse_messages := synapse_messages s; synapse_codes :=
     synapse_codes s; synapse_responses := synapse_responses s; synapse_is_response :=
     synapse_is_response s; synapse_call_times := synapse_call_times s; start_time := start_time
     s; deserialized_forward_tensors := deserialized_forward_tensors s;
     deserialized_forward_gradients := deserialized_forward_gradients s; future := future s;
     response_synapses := response_synapses s; request_synapses := request_synapses s;
     clock_reads := clock_reads s; trace := v; history := history s |}.

Definition set_history v (s : Locals) : Locals :=
  {| synapses := synapses s; synapse_messages := synapse_messages s; synapse_codes :=
     synapse_codes s; synapse_responses := synapse_responses s; synapse_is_response :=
     synapse_is_response s; synapse_call_times := synapse_call_times s; start_time := start_time
     s; deserialized_forward_tensors := deserialized_forward_tensors s;
     deserialized_forward_gradients := deserialized_forward_gradients s; future := future s;
     response_synapses := response_synapses s; request_synapses := request_synapses s;
     clock_reads := clock_reads s; trace := trace s; history := v |}.

Definition snapshot (s : Locals) : Snapshot :=
  {| snap_codes := synapse_codes s;
     snap_messages := synapse_messages s;
     snap_call_times := synapse_call_times s;
     snap_is_response := synapse_is_response s |}.

(** ** The monad of a call: state that survives a raised exception *)

Definition M (A : Type) : Type := Locals → Locals * result A.

Global Instance M_ret : MRet M := λ A a s, (s, Ok a).

Global Instance M_bind : MBind M := λ A B f m s,
  match m s with
  | (s', Ok a) => f a s'
  | (s', Raise e) => (s', Raise e)
  end.

Definition gets {A} (f : Locals → A) : M A := λ s, (s, Ok (f s)).
Definition modify (f : Locals → Locals) : M unit := λ s, (f s, Ok tt).
Definition raise {A} (e : exn) : M A := λ s, (s, Raise e).

(** The outcome of a call to a collaborator. *)
Definition call {A} (r : result A) : M A := λ s, (s, r).

(** [try: body / except Exception as e: handler e] *)
Definition try_except {A} (body : M A) (handler : exn → M A) : M A := λ s,
  match body s with
  | (s', Ok a) => (s', Ok a)
  | (s', Raise e) => handler e s'
  end.

Definition emit (ev : event) : M unit :=
  modify (λ s, set_trace (trace s ++ [ev]) s).

(** Ghost: the outcome lists as a stage leaves them. *)
Definition checkpoint (stage : Stage) : M unit :=
  modify (λ s, set_history (history s ++ [(stage, snapshot s)]) s).

(** [l[index]]: an index out of range raises [IndexError]. *)
Definition getitem {A} (l : list A) (index : nat) : M A :=
  match l !! index with
  | Some x => mret x
  | None => raise IndexError
  end.

(** [l[index] = v] on the local list read by [get] and stored by [set]. *)
Definition setitem {A} (get : Locals → list A) (set : list A → Locals → Locals)
    (index : nat) (v : A) : M unit := λ s,
  if decide (index < length (get s))
  then (set (<[index := v]> (get s)) s, Ok tt)
  else (s, Raise IndexError).

(** [for index, x in enumerate(l): body index x] *)
Fixpoint for_enumerate_from {A} (start : nat) (l : list A)
    (body : nat → A → M unit) : M unit :=
  match l with
  | [] => mret tt
  | x :: l' => body start x ;; for_enumerate_from (S start) l' body
  end.

Definition for_enumerate {A} (l : list A) (body : nat → A → M unit) : M unit :=
  for_enumerate_from 0 l body.

(** [check_if_should_return]: true when no code is [Success]. *)
Fixpoint all_codes_non_success (codes : list ReturnCode) : bool :=
  match codes with
  | [] => true
  | code :: rest =>
      if decide (code = Success) then false else all_codes_non_success rest
  end.

Definition with_return_code (code : ReturnCode) (w : SynapseProto) : SynapseProto :=
  {| wire_synapse_type := wire_synapse_type w; wire_args := wire_args w;
     return_code := code; message := message w |}.

Definition with_message (msg : string) (w : SynapseProto) : SynapseProto :=
  {| wire_synapse_type := wire_synapse_type w; wire_args := wire_args w;
     return_code := return_code w; message := msg |}.

(** What the three-tuple of a [return] holds. *)
Definition Return : Type := list Response * ReturnCode * list SynapseProto.

(** ** The two methods *)

Section Axon.

Variable bt : Bittensor.
Variable self : Axon.
Variable request : Request.

(** [clock.time() - start_time] *)
Definition elapsed : M Z :=
  λ s, (set_clock_reads (S (clock_reads s)) s,
        Ok (clock_time bt (clock_reads s) - start_time s)%Z).

(** Lines 202-204 and 431-433: the wire descriptors of the request
    are decoded one after the other, outside every [try]; what
    [bittensor.synapse.deserialize] raises on one of them leaves the
    loop, and the method. *)
Fixpoint deserialize_synapses (wires : list SynapseProto)
    : result (list Synapse) :=
  match wires with
  | [] => Ok []
  | synapse_wire_proto :: rest =>
      match synapse_deserialize bt synapse_wire_proto with
      | Raise e => Raise e
      | Ok synapse =>
          match deserialize_synapses rest with
          | Raise e => Raise e
          | Ok syns => Ok (synapse :: syns)
          end
      end
  end.

(** The locals when a method is entered: only [request] is bound. *)
Definition no_locals : Locals :=
  {| synapses := [];
     synapse_messages := [];
     synapse_codes := [];
     synapse_responses := [];
     synapse_is_response := [];
     synapse_call_times := [];
     start_time := 0%Z;
     deserialized_forward_tensors := [];
     deserialized_forward_gradients := [];
     future := None;
     response_synapses := [];
     request_synapses := request_wire_synapses request;
     clock_reads := 0;
     trace := [];
     history := [] |}.

(** Lines 212-218 and 440-446: the outcome lists of the decoded
    synapses [syns] before any stage has run.  [_forward] binds
    [deserialized_forward_tensors] only after validation; [_backward]
    binds both input lists here. *)
Definition init_locals (kind : RequestType) (syns : list Synapse) : Locals :=
  {| synapses := syns;
     synapse_messages := (λ _, "Success") <$> syns;
     synapse_codes := (λ _, Success) <$> syns;
     synapse_responses :=
       match kind with
       | FORWARD => (λ synapse, Unserialized (empty bt synapse)) <$> syns
       | BACKWARD => []
       end;
     synapse_is_response := (λ _, false) <$> syns;
     synapse_call_times := (λ _, 0%Z) <$> syns;
     start_time := clock_time bt 0;
     deserialized_forward_tensors :=
       match kind with FORWARD => [] | BACKWARD => (λ _, None) <$> syns end;
     deserialized_forward_gradients :=
       match kind with FORWARD => [] | BACKWARD => (λ _, None) <$> syns end;
     future := None;
     response_synapses := [];
     request_synapses := request_wire_synapses request;
     clock_reads := 1;
     trace := [];
     history := [] |}.

Definition check_if_should_return : M bool :=
  gets (λ s, all_codes_non_success (synapse_codes s)).

(** [finalize_codes_stats_and_logs], of [_forward] and of [_backward]:
    metrics when [self.prometheus], then per synapse the write-back of
    code and message into [request.synapses] and the log record. *)
Definition finalize_codes_stats_and_logs (kind : RequestType) : M unit :=
  (if prometheus self
   then latency ← elapsed; emit (EvMetrics kind latency)
   else mret tt) ;;
  syns ← gets synapses;
  for_enumerate syns (λ index synapse,
    (if prometheus self
     then codes ← gets synapse_codes; code ← getitem codes index;
          emit (EvSynapseMetrics kind index code)
     else mret tt) ;;
    codes ← gets synapse_codes; code ← getitem codes index;
    wires ← gets request_synapses; w ← getitem wires index;
    setitem request_synapses set_request_synapses index (with_return_code code w) ;;
    messages ← gets synapse_messages; msg ← getitem messages index;
    wires ← gets request_synapses; w ← getitem wires index;
    setitem request_synapses set_request_synapses index (with_message msg w) ;;
    flags ← gets synapse_is_response; is_response ← getitem flags index;
    codes ← gets synapse_codes; code ← getitem codes index;
    times ← gets synapse_call_times; call_time ← getitem times index;
    match kind with
    | FORWARD =>
        responses ← gets synapse_responses; _ ← getitem responses index; mret tt
    | BACKWARD =>
        grads ← gets deserialized_forward_gradients; _ ← getitem grads index;
        mret tt
    end ;;
    messages ← gets synapse_messages; msg ← getitem messages index;
    emit (EvRpcLog kind index is_response code call_time msg)).

(** The block every call-wide failure repeats: one elapsed time, then
    the three outcome lists rebuilt with one code and one message. *)
Definition set_every_outcome (code : ReturnCode) (msg : string) : M unit :=
  call_time ← elapsed;
  syns ← gets synapses;
  modify (set_synapse_codes ((λ _, code) <$> syns)) ;;
  modify (set_synapse_call_times ((λ _, call_time) <$> syns)) ;;
  modify (set_synapse_messages ((λ _, msg) <$> syns)).

(** [return [], code, request.synapses] *)
Definition return_empty (code : ReturnCode) : M Return :=
  wires ← gets request_synapses; mret ([], code, wires).

(** [return [], synapse_codes[0], request.synapses] *)
Definition return_first_code : M Return :=
  codes ← gets synapse_codes; code ← getitem codes 0; return_empty code.

(** The two handlers every Decode loop ends with. *)
Definition decode_handler (index : nat) (e : exn) : M unit :=
  match e with
  | ValueError _ =>
      setitem synapse_codes set_synapse_codes index RequestShapeException ;;
      call_time ← elapsed;
      setitem synapse_call_times set_synapse_call_times index call_time ;;
      setitem synapse_messages set_synapse_messages index
        ("Input shape exception with error:" +:+ str e)
  | _ =>
      setitem synapse_codes set_synapse_codes index RequestDeserializationException ;;
      call_time ← elapsed;
      setitem synapse_call_times set_synapse_call_times index call_time ;;
      setitem synapse_messages set_synapse_messages index
        ("Input deserialization exception with error:" +:+ str e)
  end.

(** Lines 290-303. *)
Definition forward_decode : M unit :=
  syns ← gets synapses;
  modify (set_deserialized_forward_tensors ((λ _, None) <$> syns)) ;;
  for_enumerate syns (λ index synapse,
    try_except
      (payload ← getitem (tensors request) index;
       emit (EvDecodeInput index) ;;
       x ← call (deserialize_forward_request_tensor bt synapse payload);
       setitem deserialized_forward_tensors set_deserialized_forward_tensors
         index (Some x))
      (decode_handler index)).

(** Lines 336-338 and 572-574: the codes and messages of the callback
    replace those of every synapse. *)
Definition fill_codes (codes : list ReturnCode) (messages : list string) : M unit :=
  syns ← gets synapses;
  for_enumerate syns (λ index _,
    code ← getitem codes index;
    setitem synapse_codes set_synapse_codes index code ;;
    msg ← getitem messages index;
    setitem synapse_messages set_synapse_messages index msg).

(** The two handlers of the compute stage.  The timeout handler of
    [_forward] reads the local [future], bound only once [submit] has
    returned. *)
Definition timeout_handler {A} (kind : RequestType) : M (Return + A) :=
  match kind with
  | FORWARD =>
      if decide (priority self ≠ None)
      then fut ← gets future;
           match fut with
           | Some _ => emit EvFutureCancel
           | None => raise (UnboundLocalError "future")
           end
      else mret tt
  | BACKWARD => mret tt
  end ;;
  set_every_outcome Timeout "Request reached timeout" ;;
  checkpoint Compute ;;
  finalize_codes_stats_and_logs kind ;;
  r ← return_empty Timeout; mret (inl r).

Definition exception_handler {A} (kind : RequestType) (e : exn) : M (Return + A) :=
  set_every_outcome UnknownException (str e) ;;
  checkpoint Compute ;;
  finalize_codes_stats_and_logs kind ;;
  r ← return_empty UnknownException; mret (inl r).

Definition compute_handler {A} (kind : RequestType) (e : exn) : M (Return + A) :=
  match e with
  | FuturesTimeoutError => timeout_handler kind
  | _ => exception_handler kind e
  end.

(** Lines 313-365: either a [return] from a handler (left) or the
    response tensors of the callback (right). *)
Definition forward_compute : M (Return + list (option Tensor)) :=
  try_except
    (finalize_codes_stats_and_logs FORWARD ;;
     syns ← gets synapses;
     inputs_x ← gets deserialized_forward_tensors;
     '(forward_response_tensors, forward_codes, forward_messages) ←
       match priority self with
       | Some priority_fn =>
           emit (EvPriority FORWARD) ;;
           p ← call (priority_fn (hotkey request) inputs_x FORWARD);
           emit (EvSubmit FORWARD) ;;
           fut ← call (priority_threadpool_submit self p);
           modify (set_future (Some fut)) ;;
           emit EvFutureResult ;;
           match fut with
           | WillComplete =>
               call (forward_callback self inputs_x syns (hotkey request))
           | WillTimeOut => raise FuturesTimeoutError
           end
       | None =>
           emit (EvCallback FORWARD) ;;
           call (forward_callback self inputs_x syns (hotkey request))
       end;
     modify (set_synapse_is_response ((λ _, true) <$> syns)) ;;
     fill_codes forward_codes forward_messages ;;
     checkpoint Compute ;;
     mret (inr forward_response_tensors))
    (compute_handler FORWARD).

(** The two handlers of the Encode loop. *)
Definition encode_handler (index : nat) (synapse : Synapse) (e : exn) : M unit :=
  match e with
  | ValueError _ =>
      (if String.eqb (str e) "Empty Response"
       then setitem synapse_codes set_synapse_codes index EmptyResponse
       else setitem synapse_codes set_synapse_codes index ResponseShapeException) ;;
      call_time ← elapsed;
      setitem synapse_call_times set_synapse_call_times index call_time ;;
      setitem synapse_messages set_synapse_messages index
        ("Synapse response shape exception with error: " +:+ str e) ;;
      setitem synapse_responses set_synapse_responses index
        (Unserialized (empty bt synapse))
  | _ =>
      setitem synapse_codes set_synapse_codes index ResponseSerializationException ;;
      call_time ← elapsed;
      setitem synapse_call_times set_synapse_call_times index call_time ;;
      setitem synapse_messages set_synapse_messages index
        ("Synapse response serialization exception with error: " +:+ str e) ;;
      setitem synapse_responses set_synapse_responses index
        (Unserialized (empty bt synapse))
  end.

(** Lines 370-394. *)
Definition forward_encode (forward_response_tensors : list (option Tensor)) : M unit :=
  modify (set_response_synapses []) ;;
  syns ← gets synapses;
  for_enumerate syns (λ index synapse,
    try_except
      (codes ← gets synapse_codes; code ← getitem codes index;
       if decide (code = Success)
       then inputs_x ← gets deserialized_forward_tensors;
            x ← getitem inputs_x index;
            y ← getitem forward_response_tensors index;
            emit (EvSerializeResponse index) ;;
            r ← call (serialize_forward_response_tensor bt synapse x y);
            setitem synapse_responses set_synapse_responses index (Serialized r)
       else setitem synapse_responses set_synapse_responses index
              (Unserialized (empty bt synapse)))
      (encode_handler index synapse) ;;
    codes ← gets synapse_codes; code ← getitem codes index;
    messages ← gets synapse_messages; msg ← getitem messages index;
    emit (EvToWire index) ;;
    modify (λ s, set_response_synapses
                   (response_synapses s ++ [serialize_to_wire_proto bt synapse code msg]) s)).

(** Lines 405-407 and 610-612. *)
Definition set_return_times : M unit :=
  syns ← gets synapses;
  for_enumerate syns (λ index _,
    codes ← gets synapse_codes; code ← getitem codes index;
    if decide (code = Success)
    then call_time ← elapsed;
         setitem synapse_call_times set_synapse_call_times index call_time
    else mret tt).

(** [Axon._forward], run from [no_locals]. *)
Definition _forward : M Return :=
  syns ← call (deserialize_synapses (request_wire_synapses request));
  modify (λ _, init_locals FORWARD syns) ;;
  checkpoint Init ;;
  if decide (length (tensors request) = 0) then
    set_every_outcome EmptyRequest
      ("Forward request contains " +:+ pretty (length (tensors request))
         +:+ " tensors, expected 1 tensor in the forward call") ;;
    checkpoint Validate ;;
    finalize_codes_stats_and_logs FORWARD ;;
    return_empty EmptyRequest
  else
  syns ← gets synapses;
  if decide (length (tensors request) ≠ length syns) then
    set_every_outcome RequestShapeException
      "Request length doesn't match synape length." ;;
    checkpoint Validate ;;
    finalize_codes_stats_and_logs FORWARD ;;
    return_empty RequestShapeException
  else
  checkpoint Validate ;;
  forward_decode ;;
  checkpoint Decode ;;
  stop ← check_if_should_return;
  if stop : bool then
    finalize_codes_stats_and_logs FORWARD ;;
    return_first_code
  else
  computed ← forward_compute;
  match computed with
  | inl early => mret early
  | inr forward_response_tensors =>
      forward_encode forward_response_tensors ;;
      checkpoint Encode ;;
      stop ← check_if_should_return;
      if stop : bool then
        finalize_codes_stats_and_logs FORWARD ;;
        return_first_code
      else
      set_return_times ;;
      checkpoint CallTimes ;;
      finalize_codes_stats_and_logs FORWARD ;;
      responses ← gets synapse_responses;
      wires ← gets response_synapses;
      mret (responses, Success, wires)
  end.

(** Lines 528-541: the input payload of synapse [index] is
    [request.tensors[index]], its gradient payload
    [request.tensors[len(synapses) + index]]. *)
Definition backward_decode : M unit :=
  syns ← gets synapses;
  for_enumerate syns (λ index synapse,
    try_except
      (payload ← getitem (tensors request) index;
       emit (EvDecodeInput index) ;;
       x ← call (deserialize_forward_request_tensor bt synapse payload);
       setitem deserialized_forward_tensors set_deserialized_forward_tensors
         index (Some x) ;;
       inputs_x ← gets deserialized_forward_tensors;
       x ← getitem inputs_x index;
       grad_payload ← getitem (tensors request) (length syns + index);
       emit (EvDecodeGradient index) ;;
       dy ← call (deserialize_backward_request_gradient bt synapse x grad_payload);
       setitem deserialized_forward_gradients set_deserialized_forward_gradients
         index (Some dy))
      (decode_handler index)).

(** Lines 551-600.  With a priority function the callback is handed to
    the pool and the future is dropped: [backward_callback] is not
    applied here.  Without one the callback runs in place and its codes
    and messages are filled in. *)
Definition backward_compute : M (Return + unit) :=
  try_except
    (finalize_codes_stats_and_logs BACKWARD ;;
     syns ← gets synapses;
     modify (set_synapse_is_response ((λ _, true) <$> syns)) ;;
     inputs_x ← gets deserialized_forward_tensors;
     grads_dy ← gets deserialized_forward_gradients;
     match priority self with
     | Some priority_fn =>
         emit (EvPriority BACKWARD) ;;
         p ← call (priority_fn (hotkey request) inputs_x BACKWARD);
         emit (EvSubmit BACKWARD) ;;
         _ ← call (priority_threadpool_submit self p);
         mret tt
     | None =>
         emit (EvCallback BACKWARD) ;;
         '(backward_response_tensors, backward_codes, backward_messages) ←
           call (backward_callback self inputs_x grads_dy syns);
         fill_codes backward_codes backward_messages
     end ;;
     checkpoint Compute ;;
     mret (inr tt))
    (compute_handler BACKWARD).

(** [Axon._backward], run from [no_locals]. *)
Definition _backward : M Return :=
  syns ← call (deserialize_synapses (request_wire_synapses request));
  modify (λ _, init_locals BACKWARD syns) ;;
  checkpoint Init ;;
  if decide (length (tensors request) = 0) then
    set_every_outcome EmptyRequest "Empty Request" ;;
    checkpoint Validate ;;
    finalize_codes_stats_and_logs BACKWARD ;;
    return_empty EmptyRequest
  else
  if decide (length (tensors request) < 2) then
    set_every_outcome InvalidRequest
      ("Backward request contains " +:+ pretty (length (tensors request))
         +:+ " tensors, expected atleast 2 tensor in the backward call") ;;
    checkpoint Validate ;;
    finalize_codes_stats_and_logs BACKWARD ;;
    return_empty InvalidRequest
  else
  syns ← gets synapses;
  if decide (length (tensors request) ≠ 2 * length syns) then
    set_every_outcome RequestShapeException
      "Request length doesn't match synape length." ;;
    checkpoint Validate ;;
    finalize_codes_stats_and_logs BACKWARD ;;
    return_empty RequestShapeException
  else
  checkpoint Validate ;;
  backward_decode ;;
  checkpoint Decode ;;
  stop ← check_if_should_return;
  if stop : bool then
    finalize_codes_stats_and_logs BACKWARD ;;
    return_first_code
  else
  computed ← backward_compute;
  match computed with
  | inl early => mret early
  | inr _ =>
      stop ← check_if_should_return;
      if stop : bool then
        finalize_codes_stats_and_logs BACKWARD ;;
        return_first_code
      else
      set_return_times ;;
      checkpoint CallTimes ;;
      finalize_codes_stats_and_logs BACKWARD ;;
      return_empty Success
  end.

(** The response message both servicer methods build from a [return]. *)
Definition response_of (r : Return) : TensorMessage :=
  let '(response_tensors, code, syns) := r in
  {| tm_version := version_as_int bt;
     tm_hotkey := wallet_hotkey self;
     tm_return_code := code;
     tm_tensors := response_tensors;
     tm_requires_grad := requires_grad request;
     tm_synapses := syns |}.

(** [Axon.Forward] and [Axon.Backward]: an exception that leaves
    [_forward] or [_backward] leaves the servicer method as well. *)
Definition Forward : result TensorMessage :=
  match _forward no_locals with
  | (_, Ok r) => Ok (response_of r)
  | (_, Raise e) => Raise e
  end.

Definition Backward : result TensorMessage :=
  match _backward no_locals with
  | (_, Ok r) => Ok (response_of r)
  | (_, Raise e) => Raise e
  end.

(** The locals as the call leaves them. *)
Definition forward_final : Locals := (_forward no_locals).1.
Definition backward_final : Locals := (_backward no_locals).1.

End Axon.

(** One call of either method, with the locals it ends in and what it
    hands back (or the exception that leaves it). *)
Definition run (bt : Bittensor) (self : Axon) (request : Request)
    (kind : RequestType) : Locals * result Return :=
  match kind with
  | FORWARD => _forward bt self request (no_locals request)
  | BACKWARD => _backward bt self request (no_locals request)
  end.

(** * Vocabulary of the proofs *)

(** ** Weakest preconditions *)

(** [wp m Q E s]: run from [s], [m] either returns [a] in a state with
    [Q a], or raises [e] in a state with [E e]. *)
Definition wp {A} (m : M A) (Q : A → Locals → Prop) (E : exn → Locals → Prop)
    (s : Locals) : Prop :=
  match m s with
  | (s', Ok a) => Q a s'
  | (s', Raise e) => E e s'
  end.

(** No exception leaves the computation. *)
Definition never : exn → Locals → Prop := λ _ _, False.

(** ** The length invariant *)

Definition snap_ok (n : nat) (p : Snapshot) : Prop :=
  length (snap_codes p) = n ∧ length (snap_messages p) = n ∧
  length (snap_call_times p) = n ∧ length (snap_is_response p) = n.

(** Every outcome list, and [request.synapses], is as long as the list
    of synapses; so was every recorded snapshot. *)
Definition wf (kind : RequestType) (n : nat) (s : Locals) : Prop :=
  length (synapses s) = n ∧
  length (synapse_codes s) = n ∧
  length (synapse_messages s) = n ∧
  length (synapse_call_times s) = n ∧
  length (synapse_is_response s) = n ∧
  length (request_synapses s) = n ∧
  match kind with
  | FORWARD => length (synapse_responses s) = n
  | BACKWARD => length (deserialized_forward_gradients s) = n
  end ∧
  Forall (λ p, snap_ok n p.2) (history s).

(** ** What a stage leaves alone *)

(** The calls in the trace fall into five kinds. *)
Inductive EventKind := Log | DecodeCall | ComputeCall | SerializeCall | WireCall.

Global Instance EventKind_eq_dec : EqDecision EventKind.
Proof. solve_decision. Defined.

Definition event_kind (ev : event) : EventKind :=
  match ev with
  | EvDecodeInput _ | EvDecodeGradient _ => DecodeCall
  | EvPriority _ | EvSubmit _ | EvFutureResult | EvFutureCancel
  | EvCallback _ => ComputeCall
  | EvSerializeResponse _ => SerializeCall
  | EvToWire _ => WireCall
  | EvMetrics _ _ | EvSynapseMetrics _ _ _ | EvRpcLog _ _ _ _ _ _ => Log
  end.

(** Every call in the list is of one of the kinds [K]. *)
Definition only (K : list EventKind) (evs : list event) : Prop :=
  Forall (λ ev, event_kind ev ∈ K) evs.

(** From [s] to [s'] the trace grew by calls of the kinds [K]. *)
Definition emitted (K : list EventKind) (s s' : Locals) : Prop :=
  ∃ evs, trace s' = trace s ++ evs ∧ only K evs.

Definition same_outcomes (s s' : Locals) : Prop :=
  synapse_codes s' = synapse_codes s ∧
  synapse_messages s' = synapse_messages s ∧
  synapse_call_times s' = synapse_call_times s ∧
  synapse_is_response s' = synapse_is_response s.

(** A synapse whose code is still [Success] still has the message
    ["Success"]. *)
Definition success_msg (s : Locals) : Prop :=
  ∀ i, synapse_codes s !! i = Some Success →
       synapse_messages s !! i = Some "Success".

(** Every synapse carries the same code, message and elapsed time. *)
Definition uniform (code : ReturnCode) (s : Locals) : Prop :=
  ∃ msg call_time,
    synapse_codes s = (λ _, code) <$> synapses s ∧
    synapse_messages s = (λ _, msg) <$> synapses s ∧
    synapse_call_times s = (λ _, call_time) <$> synapses s.

(** What every later step keeps of a state [s]. *)
Definition kept kind n K (s s' : Locals) : Prop :=
  wf kind n s' ∧ synapses s' = synapses s ∧ history s' = history s ∧
  future s' = future s ∧ emitted K s s'.

(** What a Decode loop establishes. *)
Definition decode_post kind n K (s s' : Locals) : Prop :=
  wf kind n s' ∧ history s' = history s ∧ future s' = future s ∧
  synapse_is_response s' = synapse_is_response s ∧
  emitted K s s' ∧ success_msg s'.

(** What a call-wide failure leaves behind: one code on every synapse,
    the stage recorded, the write-back done. *)
Definition failed_with (kind : RequestType) n K (stage : Stage) (code : ReturnCode)
    (s s' : Locals) : Prop :=
  wf kind n s' ∧ uniform code s' ∧
  synapses s' = synapses s ∧
  history s' = history s ++ [(stage, snapshot s')] ∧
  synapse_is_response s' = synapse_is_response s ∧
  future s' = future s ∧
  emitted K s s'.

(** The state in which the compute stage ends. *)
Definition computed kind n K (s s' : Locals) : Prop :=
  wf kind n s' ∧ synapses s' = synapses s ∧
  history s' = history s ++ [(Compute, snapshot s')] ∧ emitted K s s'.

(** The priority function of [_backward], applied to the inputs
    [inputs_x], or the submission of its priority to the pool raised. *)
Definition priority_path_raised (self : Axon) (request : Request)
    (inputs_x : list (option Tensor)) : Prop :=
  ∀ priority_fn, priority self = Some priority_fn →
    (∃ e, priority_fn (hotkey request) inputs_x BACKWARD = Raise e) ∨
    (∃ p e, priority_fn (hotkey request) inputs_x BACKWARD = Ok p ∧
            priority_threadpool_submit self p = Raise e).

(** The Encode loop of [_forward].  When no code is [Success] on entry
    it changes no outcome and serializes no response: it only builds
    the status descriptors. *)
Definition encoded n K (s s' : Locals) : Prop :=
  kept FORWARD n K s s' ∧
  synapse_is_response s' = synapse_is_response s ∧
  (all_codes_non_success (synapse_codes s) = true →
   same_outcomes s s' ∧ emitted [WireCall] s s').

(** The aggregate rule: the overall code is [Success] exactly when
    some synapse has [Success]; when none has, it is the code of the
    first synapse. *)
Definition aggregate_rule (codes : list ReturnCode) (code : ReturnCode) : Prop :=
  (code = Success ↔ Exists (λ c, c = Success) codes) ∧
  (Forall (λ c, c ≠ Success) codes →
   ∀ first, codes !! 0 = Some first → code = first).

(** ** The runs of the two methods *)

Section runs.
Variable self : Axon.
Variable request : Request.
(** the outcomes before any stage has run *)
Variable p0 : Snapshot.

Let n := length (request_wire_synapses request).

(** Every way a call of [_forward] can end, with the stages it went
    through (the outcomes as each stage left them), the calls it made
    and what it hands back.  [s] is the state the call ends in. *)
Inductive forward_run (s : Locals) : result Return → Prop :=
  | forward_empty p1 :
      length (tensors request) = 0 →
      history s = [(Init, p0); (Validate, p1)] → snapshot s = p1 →
      uniform EmptyRequest s → only [Log] (trace s) →
      forward_run s (Ok ([], EmptyRequest, request_synapses s))
  | forward_shape p1 :
      length (tensors request) ≠ 0 → length (tensors request) ≠ n →
      history s = [(Init, p0); (Validate, p1)] → snapshot s = p1 →
      uniform RequestShapeException s → only [Log] (trace s) →
      forward_run s (Ok ([], RequestShapeException, request_synapses s))
  | forward_decode_failed pd code :
      length (tensors request) ≠ 0 → length (tensors request) = n →
      history s = [(Init, p0); (Validate, p0); (Decode, pd)] →
      snapshot s = pd →
      all_codes_non_success (snap_codes pd) = true →
      snap_codes pd !! 0 = Some code →
      only [Log; DecodeCall] (trace s) →
      forward_run s (Ok ([], code, request_synapses s))
  | forward_compute_failed pd pc code :
      length (tensors request) ≠ 0 → length (tensors request) = n →
      history s = [(Init, p0); (Validate, p0); (Decode, pd); (Compute, pc)] →
      snapshot s = pc →
      all_codes_non_success (snap_codes pd) = false →
      code = Timeout ∨ code = UnknownException →
      uniform code s →
      only [Log; DecodeCall; ComputeCall] (trace s) →
      forward_run s (Ok ([], code, request_synapses s))
  | forward_escaped pd :
      length (tensors request) ≠ 0 → length (tensors request) = n →
      history s = [(Init, p0); (Validate, p0); (Decode, pd)] →
      snapshot s = pd →
      all_codes_non_success (snap_codes pd) = false →
      priority self ≠ None →
      only [Log; DecodeCall; ComputeCall] (trace s) →
      forward_run s (Raise (UnboundLocalError "future"))
  | forward_encode_failed pd pc pe code :
      length (tensors request) ≠ 0 → length (tensors request) = n →
      history s = [(Init, p0); (Validate, p0); (Decode, pd); (Compute, pc);
                   (Encode, pe)] →
      snapshot s = pe →
      all_codes_non_success (snap_codes pd) = false →
      (all_codes_non_success (snap_codes pc) = true →
       pe = pc ∧ only [Log; DecodeCall; ComputeCall; WireCall] (trace s)) →
      all_codes_non_success (snap_codes pe) = true →
      snap_codes pe !! 0 = Some code →
      forward_run s (Ok ([], code, request_synapses s))
  | forward_success pd pc pe pt :
      length (tensors request) ≠ 0 → length (tensors request) = n →
      history s = [(Init, p0); (Validate, p0); (Decode, pd); (Compute, pc);
                   (Encode, pe); (CallTimes, pt)] →
      snapshot s = pt →
      all_codes_non_success (snap_codes pd) = false →
      all_codes_non_success (snap_codes pc) = false →
      all_codes_non_success (snap_codes pe) = false →
      snap_codes pt = snap_codes pe → snap_messages pt = snap_messages pe →
      forward_run s (Ok (synapse_responses s, Success, response_synapses s)).

(** Every way a call of [_backward] can end.  Each one hands back an
    empty payload list and [request.synapses]. *)
Inductive backward_run (s : Locals) : ReturnCode → Prop :=
  | backward_empty p1 :
      length (tensors request) = 0 →
      history s = [(Init, p0); (Validate, p1)] → snapshot s = p1 →
      uniform EmptyRequest s → only [Log] (trace s) →
      backward_run s EmptyRequest
  | backward_invalid p1 :
      length (tensors request) ≠ 0 → length (tensors request) < 2 →
      history s = [(Init, p0); (Validate, p1)] → snapshot s = p1 →
      uniform InvalidRequest s → only [Log] (trace s) →
      backward_run s InvalidRequest
  | backward_shape p1 :
      2 ≤ length (tensors request) → length (tensors request) ≠ 2 * n →
      history s = [(Init, p0); (Validate, p1)] → snapshot s = p1 →
      uniform RequestShapeException s → only [Log] (trace s) →
      backward_run s RequestShapeException
  | backward_decode_failed pd code :
      2 ≤ length (tensors request) → length (tensors request) = 2 * n →
      history s = [(Init, p0); (Validate, p0); (Decode, pd)] →
      snapshot s = pd →
      all_codes_non_success (snap_codes pd) = true →
      snap_codes pd !! 0 = Some code →
      only [Log; DecodeCall] (trace s) →
      backward_run s code
  | backward_compute_raised pd pc code :
      2 ≤ length (tensors request) → length (tensors request) = 2 * n →
      history s = [(Init, p0); (Validate, p0); (Decode, pd); (Compute, pc)] →
      snapshot s = pc →
      all_codes_non_success (snap_codes pd) = false →
      code = Timeout ∨ code = UnknownException →
      uniform code s →
      priority_path_raised self request (deserialized_forward_tensors s) →
      only [Log; DecodeCall; ComputeCall] (trace s) →
      backward_run s code
  | backward_compute_failed pd pc code :
      2 ≤ length (tensors request) → length (tensors request) = 2 * n →
      history s = [(Init, p0); (Validate, p0); (Decode, pd); (Compute, pc)] →
      snapshot s = pc →
      all_codes_non_success (snap_codes pd) = false →
      priority self = None →
      all_codes_non_success (snap_codes pc) = true →
      snap_codes pc !! 0 = Some code →
      only [Log; DecodeCall; ComputeCall] (trace s) →
      backward_run s code
  | backward_success pd pc pt :
      2 ≤ length (tensors request) → length (tensors request) = 2 * n →
      history s = [(Init, p0); (Validate, p0); (Decode, pd); (Compute, pc);
                   (CallTimes, pt)] →
      snapshot s = pt →
      all_codes_non_success (snap_codes pd) = false →
      all_codes_non_success (snap_codes pc) = false →
      (∀ i, snap_codes pd !! i = Some Success →
            snap_messages pd !! i = Some "Success") →
      (priority self ≠ None →
       snap_codes pc = snap_codes pd ∧ snap_messages pc = snap_messages pd) →
      snap_codes pt = snap_codes pc → snap_messages pt = snap_messages pc →
      only [Log; DecodeCall; ComputeCall] (trace s) →
      backward_run s Success.

End runs.

(** ** Two more definitions the statements use *)

(** The code [_backward] gives to a payload count that fails
    validation. *)
Definition backward_validation_code (payloads : nat) : ReturnCode :=
  if decide (payloads < 2) then InvalidRequest else RequestShapeException.

(** [self] with another backward callback attached. *)
Definition with_backward_callback
    (callback : list (option Tensor) → list (option Tensor) → list Synapse →
                result CallbackResult)
    (self : Axon) : Axon :=
  {| wallet_hotkey := wallet_hotkey self;
     forward_callback := forward_callback self;
     backward_callback := callback;
     priority := priority self;
     priority_threadpool_submit := priority_threadpool_submit self;
     forward_timeout := forward_timeout self;
     backward_timeout := backward_timeout self;
     prometheus := prometheus self |}.

(** * A small instance

    One concrete codec, clock and set of callbacks, to run the two
    methods on explicit requests. *)

Module Demo.

Definition bt : Bittensor :=
  {| synapse_deserialize w :=
       match wire_synapse_type w with
       | 0 => Raise (OtherException "unknown synapse type")
       | ty => Ok {| synapse_type := ty; synapse_args := wire_args w |}
       end;
     deserialize_forward_request_tensor _ p :=
       match pt_shape p, pt_buffer p with
       | [], _ => Raise (ValueError "bad shape")
       | _, [] => Raise (OtherException "no data")
       | sh, b => Ok {| t_shape := sh; t_data := b |}
       end;
     deserialize_backward_request_gradient _ _ p :=
       match pt_shape p with
       | [] => Raise (ValueError "bad gradient shape")
       | sh => Ok {| t_shape := sh; t_data := pt_buffer p |}
       end;
     serialize_forward_response_tensor _ _ y :=
       match y with
       | Some t => Ok {| pt_shape := t_shape t; pt_buffer := t_data t |}
       | None => Raise (ValueError "Empty Response")
       end;
     empty _ := {| t_shape := [0]; t_data := [] |};
     serialize_to_wire_proto synapse code msg :=
       {| wire_synapse_type := synapse_type synapse;
          wire_args := synapse_args synapse;
          return_code := code; message := msg |};
     clock_time k := Z.of_nat k;
     version_as_int := 340 |}.

Definition wire (ty : nat) : SynapseProto :=
  {| wire_synapse_type := ty; wire_args := [];
     return_code := Success; message := "" |}.

(** A payload that decodes, and one whose shape does not. *)
Definition good : ProtoTensor := {| pt_shape := [1]; pt_buffer := [7%Z] |}.
Definition bad : ProtoTensor := {| pt_shape := []; pt_buffer := [] |}.

Definition req (payloads : list ProtoTensor) (wires : list SynapseProto) : Request :=
  {| version := 340; hotkey := "caller"; tensors := payloads;
     requires_grad := false; request_wire_synapses := wires |}.

(** A forward callback that hands its inputs back with [Success], and
    one that reports [code] for every synapse. *)
Definition echo_forward
    : list (option Tensor) → list Synapse → string → result CallbackResult :=
  λ inputs_x syns _,
    Ok (inputs_x, (λ _, Success) <$> syns, (λ _, "Success") <$> syns).

Definition failing_forward (code : ReturnCode)
    : list (option Tensor) → list Synapse → string → result CallbackResult :=
  λ inputs_x syns _,
    Ok (inputs_x, (λ _, code) <$> syns, (λ _, "no") <$> syns).

Definition ok_backward
    : list (option Tensor) → list (option Tensor) → list Synapse →
      result CallbackResult :=
  λ _ _ syns,
    Ok ((λ _, None) <$> syns, (λ _, Success) <$> syns, (λ _, "Success") <$> syns).

(** An axon without a priority function. *)
Definition direct_axon forward : Axon :=
  {| wallet_hotkey := "me";
     forward_callback := forward;
     backward_callback := ok_backward;
     priority := None;
     priority_threadpool_submit _ := Ok WillComplete;
     forward_timeout := None; backward_timeout := None;
     prometheus := false |}.

(** An axon whose priority function answers [p] and whose pool answers
    [submitted] to a submission. *)
Definition priority_axon (p : result Z) (submitted : result Future) : Axon :=
  {| wallet_hotkey := "me";
     forward_callback := echo_forward;
     backward_callback := ok_backward;
     priority := Some (λ _ _ _, p);
     priority_threadpool_submit _ := submitted;
     forward_timeout := Some 10%Z; backward_timeout := None;
     prometheus := true |}.

End Demo.

(** * The two methods in more detail *)

(** [request.synapses] carries, at every index, the code and the
    message of that synapse. *)
Definition written_back (s : Locals) : Prop :=
  ∀ i w, request_synapses s !! i = Some w →
    synapse_codes s !! i = Some (return_code w) ∧
    synapse_messages s !! i = Some (message w).

(** The inputs both callbacks are given stay as they are. *)
Definition same_inputs (s s' : Locals) : Prop :=
  deserialized_forward_tensors s' = deserialized_forward_tensors s ∧
  deserialized_forward_gradients s' = deserialized_forward_gradients s.

(** The code and the message the Decode stage gives to a synapse, by
    what decoding its payloads did. *)
Definition decode_code {A} (r : result A) : ReturnCode :=
  match r with
  | Ok _ => Success
  | Raise (ValueError _) => RequestShapeException
  | Raise _ => RequestDeserializationException
  end.

Definition decode_message {A} (r : result A) : string :=
  match r with
  | Ok _ => "Success"
  | Raise (ValueError msg) => "Input shape exception with error:" +:+ msg
  | Raise e => "Input deserialization exception with error:" +:+ str e
  end.

(** Decoding the payload of synapse [index] of a forward request. *)
Definition forward_decoded (bt : Bittensor) (request : Request)
    (index : nat) (synapse : Synapse) : result Tensor :=
  match tensors request !! index with
  | Some payload => deserialize_forward_request_tensor bt synapse payload
  | None => Raise IndexError
  end.

(** Decoding the input payload and the gradient payload of synapse
    [index] of a backward request with [n] synapses. *)
Definition backward_decoded (bt : Bittensor) (request : Request) (n : nat)
    (index : nat) (synapse : Synapse) : result (Tensor * Tensor) :=
  match forward_decoded bt request index synapse with
  | Raise e => Raise e
  | Ok x =>
      match tensors request !! (n + index) with
      | None => Raise IndexError
      | Some grad_payload =>
          match deserialize_backward_request_gradient bt synapse (Some x)
                  grad_payload with
          | Raise e => Raise e
          | Ok dy => Ok (x, dy)
          end
      end
  end.

(** [Some] of a decoded value, [None] where decoding raised. *)
Definition decoded_or_none {A} (r : result A) : option A :=
  match r with Ok a => Some a | Raise _ => None end.

(** The code and the message the handlers of the compute stage give to
    every synapse when the stage raised [e]. *)
Definition handler_code (e : exn) : ReturnCode :=
  match e with FuturesTimeoutError => Timeout | _ => UnknownException end.

Definition handler_message (e : exn) : string :=
  match e with FuturesTimeoutError => "Request reached timeout" | _ => str e end.

(** The inputs the Decode stage hands to the callbacks: the decoded
    tensor of each synapse, [None] where decoding raised. *)
Definition forward_inputs (bt : Bittensor) (request : Request)
    (syns : list Synapse) : list (option Tensor) :=
  imap (λ index synapse,
          decoded_or_none (forward_decoded bt request index synapse)) syns.

(** The gradients the Decode stage of [_backward] hands to the
    callback. *)
Definition backward_gradients (bt : Bittensor) (request : Request)
    (syns : list Synapse) : list (option Tensor) :=
  imap (λ index synapse,
          snd <$> decoded_or_none
                    (backward_decoded bt request (length syns) index synapse))
       syns.

(** What the compute stage of [_forward] gets for the inputs
    [inputs_x]: the result of the callback, run in place or through
    the pool. *)
Definition forward_call (self : Axon) (request : Request)
    (inputs_x : list (option Tensor)) (syns : list Synapse)
    : result CallbackResult :=
  match priority self with
  | Some priority_fn =>
      match priority_fn (hotkey request) inputs_x FORWARD with
      | Raise e => Raise e
      | Ok p =>
          match priority_threadpool_submit self p with
          | Raise e => Raise e
          | Ok WillComplete =>
              forward_callback self inputs_x syns (hotkey request)
          | Ok WillTimeOut => Raise FuturesTimeoutError
          end
      end
  | None => forward_callback self inputs_x syns (hotkey request)
  end.

(** The codes and the messages of [n] synapses after the compute
    stage, by what the callback gave: its first [n] codes and messages
    when it returned at least [n] of each, else one code and one
    message for every synapse. *)
Definition filled (n : nat) (r : result CallbackResult)
    : list ReturnCode * list string :=
  match r with
  | Ok (_, codes, messages) =>
      if decide (n ≤ length codes ∧ n ≤ length messages)
      then (take n codes, take n messages)
      else (replicate n (handler_code IndexError),
            replicate n (handler_message IndexError))
  | Raise e =>
      (replicate n (handler_code e), replicate n (handler_message e))
  end.

(** The priority function, or the submission to the pool, raises a
    timeout error: the timeout handler of [_forward] then runs while
    the local [future] is still unbound. *)
Definition timeout_before_future (self : Axon) (request : Request)
    (inputs_x : list (option Tensor)) : Prop :=
  ∃ priority_fn, priority self = Some priority_fn ∧
    (priority_fn (hotkey request) inputs_x FORWARD = Raise FuturesTimeoutError ∨
     ∃ p, priority_fn (hotkey request) inputs_x FORWARD = Ok p ∧
          priority_threadpool_submit self p = Raise FuturesTimeoutError).

(** The codes and the messages the Decode stage of [_forward] leaves. *)
Definition forward_decode_codes (bt : Bittensor) (request : Request)
    (syns : list Synapse) : list ReturnCode :=
  imap (λ index synapse,
          decode_code (forward_decoded bt request index synapse)) syns.

Definition forward_decode_messages (bt : Bittensor) (request : Request)
    (syns : list Synapse) : list string :=
  imap (λ index synapse,
          decode_message (forward_decoded bt request index synapse)) syns.

(** The same for [_backward]. *)
Definition backward_decode_codes (bt : Bittensor) (request : Request)
    (syns : list Synapse) : list ReturnCode :=
  imap (λ index synapse,
          decode_code (backward_decoded bt request (length syns) index synapse))
       syns.

Definition backward_decode_messages (bt : Bittensor) (request : Request)
    (syns : list Synapse) : list string :=
  imap (λ index synapse,
          decode_message
            (backward_decoded bt request (length syns) index synapse))
       syns.

(** What the stages of a call of [_forward] on the synapses [syns]
    that ended in [s] left: Decode the codes and messages of the
    payloads, Compute the ones of the callback applied to the decoded
    inputs. *)
Definition forward_detail (bt : Bittensor) (self : Axon) (request : Request)
    (syns : list Synapse) (s : Locals) : Prop :=
  (∀ pd, (Decode, pd) ∈ history s →
     snap_codes pd = forward_decode_codes bt request syns ∧
     snap_messages pd = forward_decode_messages bt request syns) ∧
  (∀ pc, (Compute, pc) ∈ history s →
     (snap_codes pc, snap_messages pc) =
       filled (length syns)
         (forward_call self request (forward_inputs bt request syns) syns)).

(** The same for [_backward], the compute stage without a priority
    function. *)
Definition backward_detail (bt : Bittensor) (self : Axon) (request : Request)
    (syns : list Synapse) (s : Locals) : Prop :=
  (∀ pd, (Decode, pd) ∈ history s →
     snap_codes pd = backward_decode_codes bt request syns ∧
     snap_messages pd = backward_decode_messages bt request syns) ∧
  (priority self = None →
   ∀ pc, (Compute, pc) ∈ history s →
     (snap_codes pc, snap_messages pc) =
       filled (length syns)
         (backward_callback self (forward_inputs bt request syns)
            (backward_gradients bt request syns) syns)).

(** The requests with synapses [syns] on which an exception leaves
    the stages of [_forward]: validation passes, some payload decodes,
    and the timeout error comes before [future] is bound. *)
Definition forward_escapes (bt : Bittensor) (self : Axon) (request : Request)
    (syns : list Synapse) : Prop :=
  length (tensors request) = length syns ∧ length syns ≠ 0 ∧
  all_codes_non_success (forward_decode_codes bt request syns) = false ∧
  timeout_before_future self request (forward_inputs bt request syns).

(** What the Decode loop of [_forward] has done for the synapses
    before index [k], and not yet for the others. *)
Definition forward_decoding (bt : Bittensor) (request : Request)
    (n : nat) (s : Locals) (k : nat) (s' : Locals) : Prop :=
  wf FORWARD n s' ∧ synapses s' = synapses s ∧
  length (deserialized_forward_tensors s') = n ∧
  (∀ i synapse, i < k → synapses s !! i = Some synapse →
     synapse_codes s' !! i =
       Some (decode_code (forward_decoded bt request i synapse)) ∧
     synapse_messages s' !! i =
       Some (decode_message (forward_decoded bt request i synapse)) ∧
     deserialized_forward_tensors s' !! i =
       Some (decoded_or_none (forward_decoded bt request i synapse))) ∧
  (∀ i, k ≤ i → i < n →
     synapse_codes s' !! i = Some Success ∧
     synapse_messages s' !! i = Some "Success" ∧
     deserialized_forward_tensors s' !! i = Some None).


(** The same for the Decode loop of [_backward]; the input of a
    synapse is kept also when its gradient does not decode. *)
Definition backward_decoding (bt : Bittensor) (request : Request)
    (n : nat) (s : Locals) (k : nat) (s' : Locals) : Prop :=
  wf BACKWARD n s' ∧ synapses s' = synapses s ∧
  length (deserialized_forward_tensors s') = n ∧
  (∀ i synapse, i < k → synapses s !! i = Some synapse →
     synapse_codes s' !! i =
       Some (decode_code (backward_decoded bt request n i synapse)) ∧
     synapse_messages s' !! i =
       Some (decode_message (backward_decoded bt request n i synapse)) ∧
     deserialized_forward_tensors s' !! i =
       Some (decoded_or_none (forward_decoded bt request i synapse)) ∧
     deserialized_forward_gradients s' !! i =
       Some (snd <$> decoded_or_none (backward_decoded bt request n i synapse))) ∧
  (∀ i, k ≤ i → i < n →
     synapse_codes s' !! i = Some Success ∧
     synapse_messages s' !! i = Some "Success" ∧
     deserialized_forward_tensors s' !! i = Some None ∧
     deserialized_forward_gradients s' !! i = Some None).



(** * The default callbacks

    [Axon.default_forward_callback] and [Axon.default_backward_callback]
    (lines 617-722), used when no callback is given to [__init__]. *)

(** What a synapse function hands to the next one as [model_output]. *)
Record ModelOutput := { hidden_states : list Z }.

(** [(message, model_output, response_tensor)] *)
Definition SynapseResult : Type :=
  option string * option ModelOutput * option Tensor.

(** A function attached to a synapse type.  The forward default calls
    it with three arguments, [f(inputs_x[index], synapse, model_output)],
    the backward default with two, [f(inputs_x[index], synapse)]; the
    two fields say what the function does on each kind of call. *)
Record SynapseCallback := {
  call_with_model_output :
    option Tensor → Synapse → option ModelOutput → result SynapseResult;
  call_without_model_output :
    option Tensor → Synapse → result SynapseResult }.

(** The attributes of [self] the default callbacks read, and
    [torch.autograd.backward]. *)
Record SynapseTable := {
  synapse_callbacks : gmap nat (option SynapseCallback);
  synapse_checks : Synapse → string → result bool;
  optimizer_step : option (result ());
  autograd_backward : option Tensor → option Tensor → result () }.

(** The three lists a default callback fills. *)
Record Responses := {
  response_tensors : list (option Tensor);
  response_codes : list ReturnCode;
  response_messages : list string }.

(** One [append] on each list. *)
Definition append_response (tensor : option Tensor) (code : ReturnCode)
    (msg : string) (r : Responses) : Responses :=
  {| response_tensors := response_tensors r ++ [tensor];
     response_codes := response_codes r ++ [code];
     response_messages := response_messages r ++ [msg] |}.

(** [for index, x in enumerate(l)] over a state that no exception
    leaves. *)
Fixpoint fold_enumerate {A State} (body : nat → A → State → State) (start : nat)
    (l : list A) (s : State) : State :=
  match l with
  | [] => s
  | x :: l' => fold_enumerate body (S start) l' (body start x s)
  end.

(** [synapse.synapse_type in self.synapse_callbacks and
     self.synapse_callbacks[synapse.synapse_type] != None] *)
Definition attached (table : SynapseTable) (synapse : Synapse)
    : option SynapseCallback :=
  match synapse_callbacks table !! synapse_type synapse with
  | Some (Some callback) => Some callback
  | _ => None
  end.

(** The body of the loop of [default_forward_callback], lines 647-667;
    the state is the three lists and [model_output]. *)
Definition default_forward_step (table : SynapseTable)
    (inputs_x : list (option Tensor)) (hotkey : string)
    (index : nat) (synapse : Synapse)
    (st : Responses * option ModelOutput) : Responses * option ModelOutput :=
  let '(r, model_output) := st in
  match synapse_checks table synapse hotkey with
  | Raise e => (append_response None UnknownException (str e) r, model_output)
  | Ok synapse_check =>
      match attached table synapse with
      | Some callback =>
          if synapse_check then
            match inputs_x !! index with
            | None =>
                (append_response None UnknownException (str IndexError) r,
                 model_output)
            | Some x =>
                match call_with_model_output callback x synapse model_output with
                | Ok (message, model_output', response_tensor) =>
                    (append_response response_tensor Success
                       (default "Success" message) r,
                     model_output')
                | Raise e =>
                    (append_response None UnknownException (str e) r,
                     model_output)
                end
            end
          else
            (append_response None UnknownException "Synapse Check Failed" r,
             model_output)
      | None =>
          if synapse_check then
            (append_response None NotImplemented "Not Implemented" r,
             model_output)
          else
            (append_response None UnknownException "Synapse Check Failed" r,
             model_output)
      end
  end.

Definition no_responses : Responses :=
  {| response_tensors := []; response_codes := []; response_messages := [] |}.

Definition default_forward_callback (table : SynapseTable)
    (inputs_x : list (option Tensor)) (synapses : list Synapse)
    (hotkey : string) : result CallbackResult :=
  let '(r, _) :=
    fold_enumerate (default_forward_step table inputs_x hotkey) 0 synapses
      (no_responses, None) in
  Ok (response_tensors r, response_codes r, response_messages r).

(** The body of the loop of [default_backward_callback], lines 697-716. *)
Definition default_backward_step (table : SynapseTable)
    (inputs_x grads_dy : list (option Tensor))
    (index : nat) (synapse : Synapse) (r : Responses) : Responses :=
  match attached table synapse with
  | Some callback =>
      match inputs_x !! index with
      | None => append_response None UnknownException (str IndexError) r
      | Some x =>
          match call_without_model_output callback x synapse with
          | Raise e => append_response None UnknownException (str e) r
          | Ok (message, model_output, response_tensor) =>
              match grads_dy !! index with
              | None => append_response None UnknownException (str IndexError) r
              | Some dy =>
                  match autograd_backward table response_tensor dy with
                  | Raise e => append_response None UnknownException (str e) r
                  | Ok _ => append_response None Success "Success" r
                  end
              end
          end
      end
  | None => append_response None NotImplemented "Not Implemented" r
  end.

(** [self.optimizer_step()] runs outside the [try]: what it raises
    leaves the callback. *)
Definition default_backward_callback (table : SynapseTable)
    (inputs_x grads_dy : list (option Tensor)) (synapses : list Synapse)
    : result CallbackResult :=
  let r :=
    fold_enumerate (default_backward_step table inputs_x grads_dy) 0 synapses
      no_responses in
  match optimizer_step table with
  | Some (Raise e) => Raise e
  | _ => Ok (response_tensors r, response_codes r, response_messages r)
  end.

(** [attach_synapse_callback] *)
Definition attach_synapse_callback (callback : SynapseCallback)
    (ty : nat) (table : SynapseTable) : SynapseTable :=
  {| synapse_callbacks := <[ty := Some callback]> (synapse_callbacks table);
     synapse_checks := synapse_checks table;
     optimizer_step := optimizer_step table;
     autograd_backward := autograd_backward table |}.

(** Lines 82-83 of [__init__]: a callback that is not given is the
    default one. *)
Definition init_callbacks (table : SynapseTable)
    (forward :
       option (list (option Tensor) → list Synapse → string →
               result CallbackResult))
    (backward :
       option (list (option Tensor) → list (option Tensor) → list Synapse →
               result CallbackResult))
    (self : Axon) : Axon :=
  {| wallet_hotkey := wallet_hotkey self;
     forward_callback := default (default_forward_callback table) forward;
     backward_callback := default (default_backward_callback table) backward;
     priority := priority self;
     priority_threadpool_submit := priority_threadpool_submit self;
     forward_timeout := forward_timeout self;
     backward_timeout := backward_timeout self;
     prometheus := prometheus self |}.

(** What the forward default reports for one synapse, as far as the
    synapse check and the table decide it. *)
Definition forward_default_entry (table : SynapseTable) (hotkey : string)
    (synapse : Synapse) (tensor : option Tensor) (code : ReturnCode)
    (msg : string) : Prop :=
  match synapse_checks table synapse hotkey with
  | Raise e => tensor = None ∧ code = UnknownException ∧ msg = str e
  | Ok false =>
      tensor = None ∧ code = UnknownException ∧ msg = "Synapse Check Failed"
  | Ok true =>
      match attached table synapse with
      | None => tensor = None ∧ code = NotImplemented ∧ msg = "Not Implemented"
      | Some _ => code = Success ∨ (tensor = None ∧ code = UnknownException)
      end
  end.

(** The same for the backward default. *)
Definition backward_default_entry (table : SynapseTable)
    (synapse : Synapse) (tensor : option Tensor) (code : ReturnCode)
    (msg : string) : Prop :=
  tensor = None ∧
  match attached table synapse with
  | None => code = NotImplemented ∧ msg = "Not Implemented"
  | Some _ => (code = Success ∧ msg = "Success") ∨ code = UnknownException
  end.

(** The three lists have an entry for each synapse, and the entries
    satisfy [P]. *)
Definition entrywise (P : Synapse → option Tensor → ReturnCode → string → Prop)
    (synapses : list Synapse) (r : Responses) : Prop :=
  length (response_tensors r) = length synapses ∧
  length (response_codes r) = length synapses ∧
  length (response_messages r) = length synapses ∧
  ∀ i synapse, synapses !! i = Some synapse →
    ∃ tensor code msg,
      response_tensors r !! i = Some tensor ∧
      response_codes r !! i = Some code ∧
      response_messages r !! i = Some msg ∧
      P synapse tensor code msg.

(** * A small instance for the default callbacks *)

Module DemoDefaults.

(** A synapse function that hands its input back. *)
Definition echo_synapse : SynapseCallback :=
  {| call_with_model_output x _ model_output := Ok (None, model_output, x);
     call_without_model_output x _ := Ok (None, None, x) |}.

(** Synapse functions for no type; every synapse passes the check. *)
Definition no_functions (step : option (result ())) : SynapseTable :=
  {| synapse_callbacks := ∅;
     synapse_checks _ _ := Ok true;
     optimizer_step := step;
     autograd_backward _ _ := Ok tt |}.

(** A forward callback that answers for one synapse only. *)
Definition short_forward
    : list (option Tensor) → list Synapse → string → result CallbackResult :=
  λ inputs_x _ _, Ok (inputs_x, [Success], ["Success"]).

End DemoDefaults.

(** * Reasoning about one call *)

Section wp_rules.
Context {A : Type}.
Implicit Types (Q : A → Locals → Prop) (E : exn → Locals → Prop) (s : Locals).

Lemma wp_ret (a : A) Q E s : Q a s → wp (mret a) Q E s.
Proof. done. Qed.

Lemma wp_bind {B} (m : M B) (f : B → M A) Q E s :
  wp m (λ b, wp (f b) Q E) E s → wp (m ≫= f) Q E s.
Proof.
  unfold wp, mbind, M_bind. by destruct (m s) as [s' [b|e]].
Qed.

Lemma wp_gets (f : Locals → A) Q E s : Q (f s) s → wp (gets f) Q E s.
Proof. done. Qed.

Lemma wp_raise (e : exn) Q E s : E e s → wp (raise e) Q E s.
Proof. done. Qed.

Lemma wp_call (r : result A) Q E s :
  match r with Ok a => Q a s | Raise e => E e s end → wp (call r) Q E s.
Proof. done. Qed.

Lemma wp_try_except (body : M A) handler Q E s :
  wp body Q (λ e, wp (handler e) Q E) s → wp (try_except body handler) Q E s.
Proof.
  unfold wp, try_except. by destruct (body s) as [s' [a|e]].
Qed.

Lemma wp_getitem (l : list A) index Q E s :
  (∀ x, l !! index = Some x → Q x s) →
  (l !! index = None → E IndexError s) →
  wp (getitem l index) Q E s.
Proof.
  unfold getitem. destruct (l !! index) as [x|]; intros HQ HE.
  - by apply HQ.
  - by apply HE.
Qed.

Lemma wp_mono (m : M A) Q Q' E E' s :
  wp m Q E s →
  (∀ a s', Q a s' → Q' a s') →
  (∀ e s', E e s' → E' e s') →
  wp m Q' E' s.
Proof.
  unfold wp. destruct (m s) as [s' [a|e]]; eauto.
Qed.

Lemma wp_and (m : M A) Q1 Q2 E1 E2 s :
  wp m Q1 E1 s → wp m Q2 E2 s →
  wp m (λ a s', Q1 a s' ∧ Q2 a s') (λ e s', E1 e s' ∧ E2 e s') s.
Proof.
  unfold wp. by destruct (m s) as [s' [a|e]].
Qed.

Lemma wp_run (m : M A) Q E s :
  wp m Q E s → ∀ s' r, m s = (s', r) →
  match r with Ok a => Q a s' | Raise e => E e s' end.
Proof.
  unfold wp. intros H s' r Hrun. by rewrite Hrun in H.
Qed.

End wp_rules.

Lemma wp_modify (f : Locals → Locals) Q E s : Q tt (f s) → wp (modify f) Q E s.
Proof. done. Qed.

Lemma wp_emit ev Q E s : Q tt (set_trace (trace s ++ [ev]) s) → wp (emit ev) Q E s.
Proof. done. Qed.

Lemma wp_checkpoint stage Q E s :
  Q tt (set_history (history s ++ [(stage, snapshot s)]) s) →
  wp (checkpoint stage) Q E s.
Proof. done. Qed.

Lemma wp_setitem {A} (get : Locals → list A) set index v Q E s :
  (index < length (get s) → Q tt (set (<[index := v]> (get s)) s)) →
  (length (get s) ≤ index → E IndexError s) →
  wp (setitem get set index v) Q E s.
Proof.
  unfold wp, setitem. intros HQ HE.
  destruct (decide (index < length (get s))); [by apply HQ | apply HE; lia].
Qed.

Lemma wp_elapsed bt Q E s :
  Q (clock_time bt (clock_reads s) - start_time s)%Z
    (set_clock_reads (S (clock_reads s)) s) →
  wp (elapsed bt) Q E s.
Proof. done. Qed.

(** A loop keeps an invariant that each round keeps; the invariant may
    mention how many rounds are done. *)
Lemma wp_for_enumerate_from {A} (I : nat → Locals → Prop) E start (l : list A) body s :
  I start s →
  (∀ i x s', l !! i = Some x → I (start + i) s' →
     wp (body (start + i) x) (λ _, I (S (start + i))) E s') →
  wp (for_enumerate_from start l body) (λ _, I (start + length l)) E s.
Proof.
  revert start s. induction l as [|x l IH]; intros start s HI Hbody; simpl.
  - apply wp_ret. by rewrite Nat.add_0_r.
  - apply wp_bind.
    eapply wp_mono; [ | | done].
    { specialize (Hbody 0 x s eq_refl). rewrite Nat.add_0_r in Hbody.
      by apply Hbody. }
    intros [] s' HI'. cbv beta in *.
    replace (start + S (length l)) with (S start + length l) by lia.
    apply IH; [done|].
    intros i y s'' Hy. specialize (Hbody (S i) y s'' Hy).
    by replace (start + S i) with (S start + i) in Hbody by lia.
Qed.

Lemma wp_for_enumerate {A} (I : nat → Locals → Prop) E (l : list A) body s :
  I 0 s →
  (∀ i x s', l !! i = Some x → I i s' → wp (body i x) (λ _, I (S i)) E s') →
  wp (for_enumerate l body) (λ _, I (length l)) E s.
Proof.
  intros HI Hbody. by apply (wp_for_enumerate_from I E 0 l body s).
Qed.

(** The same with an invariant that does not count rounds, kept also
    when a round raises. *)
Lemma wp_for_enumerate_inv {A} (I : Locals → Prop) E (l : list A) body s :
  I s →
  (∀ i x s', l !! i = Some x → I s' → wp (body i x) (λ _, I) E s') →
  wp (for_enumerate l body) (λ _, I) E s.
Proof.
  intros HI Hbody. by apply (wp_for_enumerate (λ _, I) E l body s).
Qed.

(** One step of symbolic execution. *)
Ltac wp_step :=
  lazymatch goal with
  | |- wp (mret _) _ _ _ => apply wp_ret
  | |- wp (mbind _ _) _ _ _ => apply wp_bind
  | |- wp (gets _) _ _ _ => apply wp_gets
  | |- wp (modify _) _ _ _ => apply wp_modify
  | |- wp (emit _) _ _ _ => apply wp_emit
  | |- wp (checkpoint _) _ _ _ => apply wp_checkpoint
  | |- wp (raise _) _ _ _ => apply wp_raise
  | |- wp (elapsed _) _ _ _ => apply wp_elapsed
  | |- wp (try_except _ _) _ _ _ => apply wp_try_except
  | |- wp (call ?r) _ _ _ => apply wp_call; destruct r eqn:?
  | |- wp (getitem _ _) _ _ _ =>
      apply wp_getitem; [intros ? ? | intros ?]
  | |- wp (setitem _ _ _ _) _ _ _ =>
      apply wp_setitem; [intros ? | intros ?]
  | |- wp (if ?b then _ else _) _ _ _ => destruct b eqn:?
  | |- wp (match ?x with _ => _ end) _ _ _ => destruct x eqn:?
  end; cbv beta.

Ltac wp_steps := repeat wp_step.



Ltac wp_loop I :=
  eapply wp_mono;
  [ apply (wp_for_enumerate_inv I) | intros [] ? ? | intros ? ? ? ];
  cbv beta.

Ltac hyp := match goal with H : _ |- _ => exact H end.

Ltac wf_tac :=
  repeat match goal with
  | H : wf _ _ _ |- _ => destruct H as (? & ? & ? & ? & ? & ? & ? & ?)
  | H : _ !! _ = Some _ |- _ => apply lookup_lt_Some in H
  | H : _ !! _ = None |- _ => apply lookup_ge_None in H
  | H : never _ _ |- _ => destruct H
  | H : False |- _ => destruct H
  end;
  unfold wf, snap_ok, never in *; simpl in *;
  try match goal with k : RequestType |- _ => destruct k end;
  rewrite ?length_insert, ?length_fmap, ?Forall_app, ?Forall_singleton in *;
  simpl in *;
  repeat split; rewrite ?length_insert, ?length_fmap;
  try first [ assumption | lia | tauto | by constructor ].

Section init_and_logs.
Variable bt : Bittensor.
Variable self : Axon.
Variable request : Request.

Lemma deserialize_synapses_length wires syns :
  deserialize_synapses bt wires = Ok syns → length syns = length wires.
Proof.
  revert syns. induction wires as [|w wires IH]; intros syns; simpl.
  - by intros [= <-].
  - destruct (synapse_deserialize bt w) as [synapse|e]; [|done].
    destruct (deserialize_synapses bt wires) as [rest|e]; [|done].
    intros [= <-]. simpl. by rewrite (IH rest).
Qed.

Lemma init_locals_wf kind syns :
  deserialize_synapses bt (request_wire_synapses request) = Ok syns →
  wf kind (length (request_wire_synapses request))
    (init_locals bt request kind syns).
Proof. intros Hlen. apply deserialize_synapses_length in Hlen. wf_tac. Qed.

Lemma finalize_safe kind n s :
  wf kind n s →
  wp (finalize_codes_stats_and_logs bt self kind) (λ _, wf kind n) never s.
Proof.
  intros Hwf. unfold finalize_codes_stats_and_logs.
  wp_step. wp_step.
  - wp_steps. wp_loop (wf kind n); [wf_tac | | done | done].
    intros i x s' Hx Hs'. wp_steps; wf_tac.
  - wp_steps. wp_loop (wf kind n); [wf_tac | | done | done].
    intros i x s' Hx Hs'. wp_steps; wf_tac.
Qed.
End init_and_logs.


Lemma emitted_refl K s : emitted K s s.
Proof. exists []. split; [by rewrite app_nil_r | constructor]. Qed.

Lemma emitted_trans K s1 s2 s3 :
  emitted K s1 s2 → emitted K s2 s3 → emitted K s1 s3.
Proof.
  intros (e1 & H1 & F1) (e2 & H2 & F2). exists (e1 ++ e2). split.
  - by rewrite H2, H1, app_assoc.
  - by apply Forall_app.
Qed.

Lemma emitted_emit K s s' ev v :
  emitted K s s' → trace v = trace s' ++ [ev] → event_kind ev ∈ K →
  emitted K s v.
Proof.
  intros (evs & H & F) Hv Hk. exists (evs ++ [ev]). split.
  - by rewrite Hv, H, app_assoc.
  - apply Forall_app. split; [done | by constructor].
Qed.

Lemma emitted_same K s s' v : emitted K s s' → trace v = trace s' → emitted K s v.
Proof. intros (evs & H & F) Hv. exists evs. by rewrite Hv. Qed.

Lemma emitted_mono K K' s s' : K ⊆ K' → emitted K s s' → emitted K' s s'.
Proof.
  intros HK (evs & H & F). exists evs. split; [done|].
  eapply Forall_impl; [exact F | intros ev Hev; by apply HK].
Qed.

Lemma emitted_only K s s' : only K (trace s) → emitted K s s' → only K (trace s').
Proof. intros Hs (evs & -> & F). by apply Forall_app. Qed.

Ltac kind_tac := simpl; solve [ assumption | repeat constructor ].

Ltac emitted_tac :=
  repeat match goal with
  | H : emitted _ _ _ |- _ => destruct H as (? & ? & ?)
  end;
  unfold emitted, only in *; simpl in *;
  repeat match goal with
  | H : trace ?x = _ |- context [trace ?x] => rewrite H; clear H
  end;
  eexists; split;
  [ rewrite <- ?app_assoc; first [ reflexivity | symmetry; apply app_nil_r ] | ];
  repeat first
    [ assumption
    | apply Forall_nil_2
    | apply Forall_app_2
    | apply Forall_cons_2; [ kind_tac | ] ].

(** Close the side goals that symbolic execution leaves: lengths,
    unchanged fields, the trace. *)
Ltac frame_tac :=
  repeat match goal with
  | H : _ ∧ _ |- _ => destruct H
  | H : same_outcomes _ _ |- _ => destruct H as (? & ? & ? & ?)
  end;
  repeat match goal with
  | |- _ ∧ _ => split
  | |- same_outcomes _ _ => unfold same_outcomes; simpl
  end;
  try solve
  [ wf_tac
  | emitted_tac
  | simpl; congruence ].

Section logs.
Variable bt : Bittensor.
Variable self : Axon.
Variable request : Request.

Lemma finalize_spec kind n K s :
  wf kind n s → Log ∈ K →
  wp (finalize_codes_stats_and_logs bt self kind)
     (λ _ s', wf kind n s' ∧ same_outcomes s s' ∧ synapses s' = synapses s ∧
              history s' = history s ∧ future s' = future s ∧ emitted K s s')
     never s.
Proof.
  intros Hwf HK. unfold finalize_codes_stats_and_logs.
  set (I := λ s', wf kind n s' ∧ same_outcomes s s' ∧ synapses s' = synapses s ∧
              history s' = history s ∧ future s' = future s ∧ emitted K s s').
  wp_step. wp_step.
  - wp_steps. wp_loop I; [unfold I; frame_tac | | done | done].
    intros i x s' Hx Hs'. unfold I in *. wp_steps; frame_tac.
  - wp_steps. wp_loop I; [unfold I; frame_tac | | done | done].
    intros i x s' Hx Hs'. unfold I in *. wp_steps; frame_tac.
Qed.

(** The write-back and the log records leave the decoded inputs as
    they are. *)
Lemma finalize_inputs kind s :
  wp (finalize_codes_stats_and_logs bt self kind)
     (λ _ s', deserialized_forward_tensors s' = deserialized_forward_tensors s)
     (λ _ s', deserialized_forward_tensors s' = deserialized_forward_tensors s)
     s.
Proof.
  unfold finalize_codes_stats_and_logs.
  set (I := λ s', deserialized_forward_tensors s' =
                  deserialized_forward_tensors s).
  wp_step. wp_step.
  - wp_steps. wp_loop I; [done | | done | hyp].
    intros i x s' Hx Hs'. unfold I in *. wp_steps; simpl; congruence.
  - wp_steps. wp_loop I; [done | | done | hyp].
    intros i x s' Hx Hs'. unfold I in *. wp_steps; simpl; congruence.
Qed.
End logs.


Lemma success_msg_insert (codes : list ReturnCode) (messages : list string)
    i code msg :
  i < length codes → code ≠ Success →
  (∀ j, codes !! j = Some Success → messages !! j = Some "Success") →
  ∀ j, <[i := code]> codes !! j = Some Success →
       <[i := msg]> messages !! j = Some "Success".
Proof.
  intros Hi Hcode H j Hj. destruct (decide (i = j)) as [->|Hne].
  - rewrite list_lookup_insert_eq in Hj by done. congruence.
  - rewrite list_lookup_insert_ne in Hj by done.
    rewrite list_lookup_insert_ne by done. by apply H.
Qed.

Section decode.
Variable bt : Bittensor.
Variable self : Axon.
Variable request : Request.

Lemma decode_handler_spec kind n K s0 s i e :
  i < n → decode_post kind n K s0 s →
  wp (decode_handler bt i e) (λ _, decode_post kind n K s0) never s.
Proof.
  intros Hi (Hwf & Hh & Hf & Hr & Hem & Hsm).
  unfold decode_handler, decode_post.
  destruct e; wp_steps; frame_tac;
    try (unfold success_msg in *; simpl;
         apply success_msg_insert; [wf_tac | done | done]).
Qed.

Lemma forward_decode_spec n K s :
  wf FORWARD n s → DecodeCall ∈ K → success_msg s →
  wp (forward_decode bt request) (λ _, decode_post FORWARD n K s) never s.
Proof.
  intros Hwf HK Hsm. unfold forward_decode.
  wp_steps. wp_loop (decode_post FORWARD n K s); [ | | done | done].
  { unfold decode_post. frame_tac. }
  intros i x s' Hx Hs'.
  assert (i < n) by (apply lookup_lt_Some in Hx; simpl in Hx; wf_tac).
  wp_step.
  eapply wp_mono with (Q := λ _, decode_post FORWARD n K s)
                      (E := λ _, decode_post FORWARD n K s).
  - unfold decode_post in *. wp_steps; frame_tac.
  - done.
  - intros e s'' Hs''. by apply decode_handler_spec.
Qed.

Lemma backward_decode_spec n K s :
  wf BACKWARD n s → DecodeCall ∈ K → success_msg s →
  wp (backward_decode bt request) (λ _, decode_post BACKWARD n K s) never s.
Proof.
  intros Hwf HK Hsm. unfold backward_decode.
  wp_steps. wp_loop (decode_post BACKWARD n K s); [ | | done | done].
  { unfold decode_post. frame_tac. }
  intros i x s' Hx Hs'.
  assert (i < n) by (apply lookup_lt_Some in Hx; simpl in Hx; wf_tac).
  wp_step.
  eapply wp_mono with (Q := λ _, decode_post BACKWARD n K s)
                      (E := λ _, decode_post BACKWARD n K s).
  - unfold decode_post in *. wp_steps; frame_tac.
  - done.
  - intros e s'' Hs''. by apply decode_handler_spec.
Qed.
End decode.



Tactic Notation "wp_apply" uconstr(lem) "as" simple_intropattern(a)
    ident(s') simple_intropattern(H) :=
  eapply wp_mono; [ eapply lem | intros a s' H | intros ? ? ? ]; cbv beta.

Lemma same_outcomes_snapshot s s' : same_outcomes s s' → snapshot s' = snapshot s.
Proof. intros (Hc & Hm & Ht & Hr). unfold snapshot. by rewrite Hc, Hm, Ht, Hr. Qed.

Lemma same_outcomes_uniform code s s' :
  same_outcomes s s' → synapses s' = synapses s → uniform code s → uniform code s'.
Proof.
  intros (Hc & Hm & Ht & Hr) Hs (msg & t & ? & ? & ?). exists msg, t.
  rewrite Hc, Hm, Ht, Hs. done.
Qed.

Section failure.
Variable bt : Bittensor.
Variable self : Axon.
Variable request : Request.

Lemma fail_block {A} kind n K stage code msg (rest : M A) Q E s :
  wf kind n s → Log ∈ K →
  (∀ s', failed_with kind n K stage code s s' → wp rest Q E s') →
  wp (set_every_outcome bt code msg ;; checkpoint stage ;;
      finalize_codes_stats_and_logs bt self kind ;; rest) Q E s.
Proof.
  intros Hwf HK Hrest. unfold set_every_outcome.
  wp_steps.
  wp_apply (finalize_spec bt self kind n K)
    as [] s1 (Hwf' & Hso & Hsyn & Hh & Hf & Hem);
    [solve [wf_tac] | done | | done].
  apply Hrest. unfold failed_with.
  split; [done|]. split.
  { eapply same_outcomes_uniform; [done..|].
    by exists msg, (clock_time bt (clock_reads s) - start_time s)%Z. }
  split; [by rewrite Hsyn|]. split.
  { rewrite Hh. simpl. by rewrite (same_outcomes_snapshot _ _ Hso). }
  split; [by destruct Hso as (_ & _ & _ & ->)|].
  split; [by rewrite Hf|].
  eapply emitted_trans; [|exact Hem]. emitted_tac.
Qed.

(** What the handlers of the compute stage do with an exception [e]
    in state [s]: a call-wide failure, unless the timeout handler of
    [_forward] finds [future] unbound. *)
Lemma compute_handler_spec {A} kind n K e s :
  wf kind n s → Log ∈ K → ComputeCall ∈ K →
  wp (compute_handler (A := A) bt self kind e)
     (λ r s', ∃ code, r = inl ([], code, request_synapses s') ∧
        (code = Timeout ∧ e = FuturesTimeoutError ∨
         code = UnknownException ∧ e ≠ FuturesTimeoutError) ∧
        failed_with kind n K Compute code s s')
     (λ e' s', e' = UnboundLocalError "future" ∧ s' = s ∧ kind = FORWARD ∧
        priority self ≠ None ∧ future s = None ∧ e = FuturesTimeoutError)
     s.
Proof.
  intros Hwf HL HC.
  assert (∀ code msg s0, wf kind n s0 → emitted K s s0 →
            synapses s0 = synapses s → history s0 = history s →
            synapse_is_response s0 = synapse_is_response s →
            future s0 = future s →
            (code = Timeout ∧ e = FuturesTimeoutError ∨
             code = UnknownException ∧ e ≠ FuturesTimeoutError) →
            wp (set_every_outcome bt code msg ;; checkpoint Compute ;;
                finalize_codes_stats_and_logs bt self kind ;;
                r ← return_empty code; mret (inl r))
              (λ (r : Return + A) s', ∃ code, r = inl ([], code, request_synapses s') ∧
                (code = Timeout ∧ e = FuturesTimeoutError ∨
                 code = UnknownException ∧ e ≠ FuturesTimeoutError) ∧
                failed_with kind n K Compute code s s')
              (λ e' s', e' = UnboundLocalError "future" ∧ s' = s ∧ kind = FORWARD ∧
                priority self ≠ None ∧ future s = None ∧ e = FuturesTimeoutError)
              s0) as Hblock.
  { intros code msg s0 Hwf0 Hem0 Hsyn0 Hh0 Hr0 Hf0 Hcode.
    apply (fail_block kind n K Compute code msg); [done..|].
    intros s' (Hwf' & Hu & Hsyn & Hh & Hr & Hf & Hem).
    unfold return_empty. wp_steps. exists code.
    split; [done|]. split; [done|]. unfold failed_with.
    rewrite Hsyn, Hh, Hr, Hf, Hsyn0, Hh0, Hr0, Hf0.
    split_and!; try done. by eapply emitted_trans. }
  unfold compute_handler, timeout_handler, exception_handler.
  destruct e;
    try (apply Hblock; [done | apply emitted_refl | done.. | right; done]).
  wp_step. destruct kind.
  - wp_steps.
    + apply Hblock; [solve [wf_tac] | emitted_tac | done.. | left; done].
    + done.
    + apply Hblock; [done | apply emitted_refl | done.. | left; done].
  - wp_steps. apply Hblock; [done | apply emitted_refl | done.. | left; done].
Qed.

(** The handlers leave the decoded inputs as they are. *)
Lemma compute_handler_inputs {A} kind e s :
  wp (compute_handler (A := A) bt self kind e)
     (λ _ s', deserialized_forward_tensors s' = deserialized_forward_tensors s)
     (λ _ s', deserialized_forward_tensors s' = deserialized_forward_tensors s)
     s.
Proof.
  assert (∀ code msg s0,
            deserialized_forward_tensors s0 = deserialized_forward_tensors s →
            wp (set_every_outcome bt code msg ;; checkpoint Compute ;;
                finalize_codes_stats_and_logs bt self kind ;;
                r ← return_empty code; mret (inl r))
              (λ (_ : Return + A) s',
                 deserialized_forward_tensors s' =
                 deserialized_forward_tensors s)
              (λ _ s',
                 deserialized_forward_tensors s' =
                 deserialized_forward_tensors s)
              s0) as Hblock.
  { intros code msg s0 H0. unfold set_every_outcome. wp_steps.
    eapply wp_mono; [apply finalize_inputs | | ]; cbv beta.
    - intros [] s1 H1. unfold return_empty. wp_steps. simpl in *. congruence.
    - intros e' s1 H1. simpl in *. congruence. }
  unfold compute_handler, timeout_handler, exception_handler.
  destruct e; try (by apply Hblock).
  wp_step. destruct kind.
  - wp_steps; try done; by apply Hblock.
  - wp_steps. by apply Hblock.
Qed.
End failure.



Section forward_compute_stage.
Variable bt : Bittensor.
Variable self : Axon.
Variable request : Request.

Lemma kept_refl kind n K s : wf kind n s → kept kind n K s s.
Proof. intros. unfold kept. split_and!; try done. apply emitted_refl. Qed.

Lemma kept_trans kind n K s1 s2 s3 :
  kept kind n K s1 s2 → kept kind n K s2 s3 → kept kind n K s1 s3.
Proof.
  intros (_ & Hs & Hh & Hf & He) (Hwf & Hs' & Hh' & Hf' & He').
  unfold kept. rewrite Hs', Hh', Hf'. split_and!; try done.
  by eapply emitted_trans.
Qed.

Lemma fill_codes_spec kind n K codes messages s :
  wf kind n s →
  wp (fill_codes codes messages)
     (λ _ s', kept kind n K s s' ∧
              synapse_is_response s' = synapse_is_response s)
     (λ _ s', kept kind n K s s' ∧
              synapse_is_response s' = synapse_is_response s) s.
Proof.
  intros Hwf. unfold fill_codes. wp_steps.
  wp_loop (λ s', kept kind n K s s' ∧
                 synapse_is_response s' = synapse_is_response s);
    [ | | done | hyp].
  { split; [by apply kept_refl | done]. }
  intros i x s' Hx (Hk & Hr). unfold kept in *.
  wp_steps; frame_tac.
Qed.

Lemma forward_compute_spec n K s :
  wf FORWARD n s → Log ∈ K → ComputeCall ∈ K → future s = None →
  wp (forward_compute bt self request)
     (λ r s',
        computed FORWARD n K s s' ∧
        match r with
        | inl early =>
            ∃ code, early = ([], code, request_synapses s') ∧
                    (code = Timeout ∨ code = UnknownException) ∧ uniform code s'
        | inr _ => True
        end)
     (λ e s', e = UnboundLocalError "future" ∧ priority self ≠ None ∧
              kept FORWARD n K s s' ∧ same_outcomes s s')
     s.
Proof.
  intros Hwf HL HC Hfut. unfold forward_compute. wp_step.
  eapply wp_mono with
    (Q := λ r s', computed FORWARD n K s s' ∧ ∃ outs, r = inr outs)
    (E := λ _ s', wf FORWARD n s' ∧ synapses s' = synapses s ∧
                  history s' = history s ∧ emitted K s s' ∧
                  (priority self ≠ None → future s' = None →
                   same_outcomes s s')).
  - wp_step.
    wp_apply (finalize_spec bt self FORWARD n K)
      as [] s1 (Hwf1 & Hso & Hsyn & Hh & Hf & Hem); [done | done | | done].
    assert (∀ (outs : CallbackResult) s2,
      (wf FORWARD n s2 ∧ synapses s2 = synapses s1 ∧ history s2 = history s1 ∧
       emitted K s1 s2) →
      priority self = None ∨ future s2 ≠ None →
      wp (let '(forward_response_tensors, forward_codes, forward_messages) := outs in
          modify (set_synapse_is_response ((λ _, true) <$> synapses s1)) ;;
          fill_codes forward_codes forward_messages ;;
          checkpoint Compute ;;
          mret (inr forward_response_tensors))
         (λ (r : Return + list (option Tensor)) s',
            computed FORWARD n K s s' ∧ ∃ outs, r = inr outs)
         (λ _ s', wf FORWARD n s' ∧ synapses s' = synapses s ∧
                  history s' = history s ∧ emitted K s s' ∧
                  (priority self ≠ None → future s' = None →
                   same_outcomes s s')) s2) as Hrest.
    { intros [[ts cs] ms] s2 (Hwf2 & Hsyn2 & Hh2 & Hem2) Hcase.
      wp_steps.
      wp_apply (fill_codes_spec FORWARD n K cs ms)
        as [] s3 ((Hwf3 & Hsyn3 & Hh3 & Hf3 & Hem3) & Hr3); [solve [wf_tac] | | ].
      - wp_steps. split; [|by eexists].
        unfold computed. simpl in *. split_and!.
        + wf_tac.
        + congruence.
        + unfold snapshot. simpl. congruence.
        + emitted_tac.
      - destruct H as ((Hwf3 & Hsyn3 & Hh3 & Hf3 & Hem3) & Hr3). simpl in *.
        split_and!; try congruence.
        + emitted_tac.
        + intros Hp Hnone. destruct Hcase as [Hcase|Hcase]; [done|].
          congruence. }
    do 5 wp_step.
    eapply wp_mono with
      (Q := λ _ s2, (wf FORWARD n s2 ∧ synapses s2 = synapses s1 ∧
                     history s2 = history s1 ∧ emitted K s1 s2) ∧
                    (priority self = None ∨ future s2 ≠ None));
      [ | intros outs s2 [Hk Hc]; by apply Hrest | intros e s2 He; exact He ].
    wp_steps; unfold kept; frame_tac;
      try (by right); try (by left);
      try (intros Hp Hnone; simpl in Hnone; congruence).
  - intros r s' (Hc & outs & ->). done.
  - intros e s1 (Hwf1 & Hsyn1 & Hh1 & Hem1 & Hcase).
    wp_apply (compute_handler_spec bt self FORWARD n K e)
      as r s2 (code & -> & Hcode & Hwf2 & Hu & Hsyn2 & Hh2 & Hr2 & Hf2 & Hem2);
      [done..| | ].
    + split.
      * unfold computed. split_and!; try congruence. emitted_tac.
      * exists code. split_and!; try done. tauto.
    + destruct H as (-> & -> & _ & Hp & Hn & _).
      split_and!; try done.
      * unfold kept. split_and!; try done. congruence.
      * by apply Hcase.
Qed.
End forward_compute_stage.



Lemma all_codes_non_success_lookup codes i :
  all_codes_non_success codes = true → codes !! i = Some Success → False.
Proof.
  revert i. induction codes as [|c codes IH]; intros i Hall Hi; [done|].
  simpl in Hall. destruct (decide (c = Success)) as [->|Hc]; [done|].
  destruct i as [|i]; simpl in Hi; [congruence | by eapply IH].
Qed.

Lemma all_codes_non_success_Forall codes :
  all_codes_non_success codes = true ↔ Forall (λ c, c ≠ Success) codes.
Proof.
  induction codes as [|c codes IH]; simpl.
  - split; [constructor | done].
  - destruct (decide (c = Success)) as [->|Hc].
    + split; [done | by inversion 1].
    + rewrite IH. split; [by constructor | by inversion 1].
Qed.

Lemma all_codes_non_success_Exists codes :
  all_codes_non_success codes = false ↔ Exists (λ c, c = Success) codes.
Proof.
  induction codes as [|c codes IH]; simpl.
  - split; [done | by inversion 1].
  - destruct (decide (c = Success)) as [->|Hc].
    + split; [by left | done].
    + rewrite IH. split; [by right | by inversion 1].
Qed.

Ltac close_tac :=
  repeat match goal with
  | H : _ ∧ _ |- _ => destruct H
  end;
  split_and?; try done;
  first
  [ solve [wf_tac]
  | solve [emitted_tac]
  | unfold snapshot in *; simpl in *; congruence
  | idtac ].

Section backward_compute_stage.
Variable bt : Bittensor.
Variable self : Axon.
Variable request : Request.

Lemma backward_compute_spec n K s :
  wf BACKWARD n s → Log ∈ K → ComputeCall ∈ K →
  wp (backward_compute bt self request)
     (λ r s',
        computed BACKWARD n K s s' ∧
        match r with
        | inl early =>
            ∃ code, early = ([], code, request_synapses s') ∧
                    (code = Timeout ∨ code = UnknownException) ∧
                    uniform code s' ∧
                    priority_path_raised self request
                      (deserialized_forward_tensors s')
        | inr _ =>
            priority self ≠ None →
            synapse_codes s' = synapse_codes s ∧
            synapse_messages s' = synapse_messages s
        end)
     never s.
Proof.
  intros Hwf HL HC. unfold backward_compute. wp_step.
  eapply wp_mono with
    (Q := λ r s', computed BACKWARD n K s s' ∧ r = inr tt ∧
                  (priority self ≠ None →
                   synapse_codes s' = synapse_codes s ∧
                   synapse_messages s' = synapse_messages s))
    (E := λ _ s', wf BACKWARD n s' ∧ synapses s' = synapses s ∧
                  history s' = history s ∧ emitted K s s' ∧
                  priority_path_raised self request
                    (deserialized_forward_tensors s')).
  - wp_step.
    wp_apply (finalize_spec bt self BACKWARD n K)
      as [] s1 (Hwf1 & Hso & Hsyn & Hh & Hf & Hem); [done | done | | done].
    do 9 wp_step.
    eapply wp_mono with
      (Q := λ _ s2, wf BACKWARD n s2 ∧ synapses s2 = synapses s ∧
                    history s2 = history s ∧ emitted K s s2 ∧
                    (priority self ≠ None →
                     synapse_codes s2 = synapse_codes s ∧
                     synapse_messages s2 = synapse_messages s))
      (E := λ _ s', wf BACKWARD n s' ∧ synapses s' = synapses s ∧
                    history s' = history s ∧ emitted K s s' ∧
                    priority_path_raised self request
                      (deserialized_forward_tensors s')).
    + wp_step.
      * wp_steps; frame_tac;
          try (intros _; destruct Hso as (? & ? & ? & ?); simpl; done);
          try (intros pf Hpf; simplify_eq; eauto 6).
      * wp_steps; try (frame_tac; intros pf Hpf; congruence).
        wp_apply (fill_codes_spec BACKWARD n K)
          as [] s3 ((Hwf3 & Hsyn3 & Hh3 & Hf3 & Hem3) & Hr3);
          [solve [wf_tac] | | ].
        -- simpl in *. split_and!; try congruence; try solve [emitted_tac].
        -- destruct H as ((Hwf3 & Hsyn3 & Hh3 & Hf3 & Hem3) & Hr3). simpl in *.
           split_and!; try congruence; try solve [emitted_tac].
    + intros [] s2 (Hwf2 & Hsyn2 & Hh2 & Hem2 & Hsame). wp_steps.
      unfold computed. close_tac.
    + intros e s2 He; exact He.
  - intros r s' (Hc & -> & Hsame). done.
  - intros e s1 (Hwf1 & Hsyn1 & Hh1 & Hem1 & Hraised).
    eapply wp_mono;
      [ eapply wp_and;
          [ by eapply (compute_handler_spec bt self BACKWARD n K e)
          | eapply compute_handler_inputs ]
      | | ]; cbv beta.
    + intros r s2
        ((code & -> & Hcode & Hwf2 & Hu & Hsyn2 & Hh2 & Hr2 & Hf2 & Hem2) & Hin).
      split.
      * unfold computed. split_and!; try congruence. emitted_tac.
      * exists code. split_and!; try done; [tauto | by rewrite Hin].
    + intros e' s2 [H _]. by destruct H as (_ & _ & ? & _).
Qed.
End backward_compute_stage.



Section encode.
Variable bt : Bittensor.
Variable self : Axon.
Variable request : Request.

Lemma set_return_times_spec kind n K s :
  wf kind n s →
  wp (set_return_times bt)
     (λ _ s', kept kind n K s s' ∧
              synapse_codes s' = synapse_codes s ∧
              synapse_messages s' = synapse_messages s ∧
              synapse_is_response s' = synapse_is_response s)
     never s.
Proof.
  intros Hwf. unfold set_return_times. wp_steps.
  wp_loop (λ s', kept kind n K s s' ∧
                 synapse_codes s' = synapse_codes s ∧
                 synapse_messages s' = synapse_messages s ∧
                 synapse_is_response s' = synapse_is_response s);
    [ | | done | done ].
  { split; [by apply kept_refl | done]. }
  intros i x s' Hx (Hk & Hc & Hm & Hr). unfold kept in *.
  wp_steps; close_tac.
Qed.

Lemma encode_handler_spec n K s s1 i x e :
  i < n → SerializeCall ∈ K → WireCall ∈ K →
  kept FORWARD n K s s1 →
  synapse_is_response s1 = synapse_is_response s →
  all_codes_non_success (synapse_codes s) ≠ true →
  wp (encode_handler bt i x e) (λ _, encoded n K s) never s1.
Proof.
  intros Hi HS HW Hk Hr Hall. unfold encode_handler, encoded, kept in *.
  destruct e; wp_steps; close_tac.
Qed.

Lemma forward_encode_spec n K outs s :
  wf FORWARD n s → SerializeCall ∈ K → WireCall ∈ K →
  wp (forward_encode bt outs) (λ _, encoded n K s) never s.
Proof.
  intros Hwf HS HW. unfold forward_encode. wp_steps.
  wp_loop (encoded n K s); [ | | done | done ].
  { unfold encoded, kept. close_tac. intros _. split; [done | emitted_tac]. }
  intros i x s' Hx (Hk & Hr & Hcond).
  assert (i < n) by (apply lookup_lt_Some in Hx; simpl in Hx; wf_tac).
  wp_step.
  eapply wp_mono with (Q := λ _, encoded n K s) (E := never); [ | | done ].
  - wp_step.
    eapply wp_mono with
      (Q := λ _, encoded n K s)
      (E := λ _ s1, kept FORWARD n K s s1 ∧
                    synapse_is_response s1 = synapse_is_response s ∧
                    all_codes_non_success (synapse_codes s) ≠ true).
    + unfold encoded, kept in *.
      wp_steps; close_tac;
        try solve [ exfalso; wf_tac ];
        try (intros Hall; destruct (Hcond Hall) as [Hso Hem];
             first
             [ exfalso; destruct Hso as (Hc & _);
               eapply all_codes_non_success_lookup; [exact Hall|];
               rewrite <- Hc; subst; eassumption
             | split; [ by destruct Hso as (? & ? & ? & ?) | emitted_tac ] ]).
    + done.
    + intros e s1 (Hk1 & Hr1 & Hall). by apply encode_handler_spec.
  - intros [] s1 (Hk1 & Hr1 & Hcond1). unfold encoded, kept in *.
    wp_steps; close_tac; try solve [ exfalso; wf_tac ].
    intros Hall. destruct (Hcond1 Hall) as [Hso Hem].
    split; [ by destruct Hso as (? & ? & ? & ?) | emitted_tac ].
Qed.
End encode.



(** * The runs of [_forward] *)
Lemma uniform_codes code s :
  uniform code s → synapse_codes s = (λ _, code) <$> synapses s.
Proof. by intros (msg & t & ? & ? & ?). Qed.

Lemma const_all_codes_non_success {A} code (l : list A) :
  code ≠ Success → all_codes_non_success ((λ _, code) <$> l) = true.
Proof.
  intros Hcode. induction l as [|x l IH]; [done|]. simpl.
  by destruct (decide (code = Success)).
Qed.

Lemma only_mono K K' evs : K ⊆ K' → only K evs → only K' evs.
Proof.
  intros HK Hevs. eapply Forall_impl; [exact Hevs|].
  intros ev Hev. by apply HK.
Qed.

Ltac sub_tac := by apply (bool_decide_unpack _).

Lemma first_code_exists kind n s :
  wf kind n s → n ≠ 0 → ∃ code, synapse_codes s !! 0 = Some code.
Proof.
  intros (_ & Hc & _) Hn. destruct (synapse_codes s) as [|c l]; [simpl in *; lia|].
  by exists c.
Qed.

Section forward_runs.
Variable bt : Bittensor.
Variable self : Axon.
Variable request : Request.

Variable syns : list Synapse.

Let n := length (request_wire_synapses request).
Let s0 := init_locals bt request FORWARD syns.
Let p0 := snapshot s0.

Lemma forward_wp :
  deserialize_synapses bt (request_wire_synapses request) = Ok syns →
  wp (_forward bt self request)
     (λ r s, wf FORWARD n s ∧ forward_run self request p0 s (Ok r))
     (λ e s, wf FORWARD n s ∧ forward_run self request p0 s (Raise e))
     (no_locals request).
Proof.
  intros Hsyns.
  assert (wf FORWARD n s0) as Hwf0 by by apply init_locals_wf.
  assert (length (synapses s0) = n) as Hn by apply Hwf0.
  assert (history s0 = []) as Hh0 by done.
  assert (trace s0 = []) as Ht0 by done.
  assert (future s0 = None) as Hf0 by done.
  assert (success_msg s0) as Hsm0.
  { intros i. unfold s0. simpl. rewrite !list_lookup_fmap.
    by destruct (_ !! i). }
  unfold _forward. apply wp_bind, wp_call. rewrite Hsyns.
  apply wp_bind, wp_modify. cbv beta. fold s0.
  clearbody s0.
  wp_step. wp_step. wp_step.
  { (* no payload *)
    apply (fail_block bt self FORWARD n [Log] Validate);
      [solve [wf_tac] | by left |].
    intros s' (Hwf & Hu & Hsyn & Hh & Hr & Hf & Hem).
    unfold return_empty. wp_steps. split; [done|].
    eapply forward_empty; [done | by rewrite Hh; simpl; rewrite Hh0 | done | done |].
    eapply emitted_only; [|exact Hem]. simpl. rewrite Ht0. constructor. }
  wp_step. wp_step. wp_step.
  { (* payload count differs from synapse count *)
    apply (fail_block bt self FORWARD n [Log] Validate);
      [solve [wf_tac] | by left |].
    intros s' (Hwf & Hu & Hsyn & Hh & Hr & Hf & Hem).
    unfold return_empty. wp_steps. split; [done|].
    eapply forward_shape; [done | | by rewrite Hh; simpl; rewrite Hh0 | done | done |].
    - simpl in *. lia.
    - eapply emitted_only; [|exact Hem]. simpl. rewrite Ht0. constructor. }
  assert (length (tensors request) = n) as Hlen.
  { simpl in *. lia. }
  wp_step. wp_step.
  match goal with |- wp _ _ _ ?st => set (s1 := st) end.
  assert (wf FORWARD n s1) as Hwf1 by (subst s1; wf_tac).
  assert (history s1 = [(Init, p0); (Validate, p0)]) as Hh1
    by (subst s1; simpl; by rewrite Hh0).
  assert (trace s1 = []) as Ht1 by done.
  assert (future s1 = None) as Hf1 by done.
  assert (success_msg s1) as Hsm1 by done.
  clearbody s1. clear Hwf0 Hn Hh0 Ht0 Hf0 Hsm0.
  wp_step.
  wp_apply (forward_decode_spec bt request n [Log; DecodeCall])
    as [] s2 (Hwf2 & Hh2 & Hf2 & Hr2 & Hem2 & Hsm2);
    [done | kind_tac | done | | done].
  assert (only [Log; DecodeCall] (trace s2)) as Ht2.
  { eapply emitted_only; [|exact Hem2]. rewrite Ht1. constructor. }
  clear Hem2.
  wp_step. wp_step. wp_step. unfold check_if_should_return. wp_step.
  match goal with |- context [all_codes_non_success ?c] =>
    destruct (all_codes_non_success c) eqn:Hstop2 end.
  { (* every synapse failed to decode *)
    wp_step.
    wp_apply (finalize_spec bt self FORWARD n [Log; DecodeCall])
      as [] s3 (Hwf3 & Hso3 & Hsyn3 & Hh3 & Hf3 & Hem3);
      [solve [wf_tac] | kind_tac | | done].
    unfold return_first_code, return_empty.
    destruct (first_code_exists FORWARD n s3 Hwf3) as [code Hcode]; [lia|].
    wp_steps; [|congruence].
    split; [done|].
    assert (x = code) as -> by congruence.
    eapply forward_decode_failed; [done | done | | reflexivity | | | ].
    - rewrite Hh3. simpl. rewrite Hh2, Hh1.
      by rewrite (same_outcomes_snapshot _ _ Hso3).
    - simpl. destruct Hso3 as (-> & _). done.
    - done.
    - eapply emitted_only; [|exact Hem3]. done. }
  match goal with |- wp _ _ _ ?st => set (s3 := st) in * end.
  set (pd := snapshot s2).
  assert (wf FORWARD n s3) as Hwf3 by (subst s3; wf_tac).
  assert (history s3 = [(Init, p0); (Validate, p0); (Decode, pd)]) as Hh3
    by (subst s3; simpl; by rewrite Hh2, Hh1).
  assert (snapshot s3 = pd) as Hp3 by done.
  assert (future s3 = None) as Hf3 by (subst s3; simpl; congruence).
  assert (only [Log; DecodeCall; ComputeCall] (trace s3)) as Ht3
    by (eapply only_mono; [|exact Ht2]; sub_tac).
  assert (all_codes_non_success (snap_codes pd) = false) as Hpd by done.
  clearbody s3 pd. clear dependent s2. clear dependent s1.
  wp_step.
  wp_apply (forward_compute_spec bt self request n [Log; DecodeCall; ComputeCall])
    as r s4 ((Hwf4 & Hsyn4 & Hh4 & Hem4) & Hr4);
    [done | kind_tac | kind_tac | done | | ].
  2: { (* the timeout handler found no future *)
    destruct H as (-> & Hprio & (Hwf4 & Hsyn4 & Hh4 & Hf4 & Hem4) & Hso4).
    split; [done|].
    eapply forward_escaped; [done | done | by rewrite Hh4, Hh3 | | done..| ].
    - by rewrite (same_outcomes_snapshot _ _ Hso4).
    - by eapply emitted_only. }
  assert (only [Log; DecodeCall; ComputeCall] (trace s4)) as Ht4
    by (by eapply emitted_only).
  destruct r as [early|outs].
  { (* a handler of the compute stage returned *)
    destruct Hr4 as (code & -> & Hcode & Hu).
    wp_step. split; [done|].
    eapply forward_compute_failed; [done | done | by rewrite Hh4, Hh3 | done..]. }
  wp_step.
  wp_apply (forward_encode_spec bt n
              [Log; DecodeCall; ComputeCall; SerializeCall; WireCall])
    as [] s5 ((Hwf5 & Hsyn5 & Hh5 & Hf5 & Hem5) & Hr5 & Hcond5);
    [done | kind_tac | kind_tac | | done].
  set (pc := snapshot s4) in *.
  assert (all_codes_non_success (snap_codes pc) = true →
          snapshot s5 = pc ∧
          only [Log; DecodeCall; ComputeCall; WireCall] (trace s5)) as Hcond.
  { intros Hall. destruct (Hcond5 Hall) as [Hso Hem].
    split; [by apply same_outcomes_snapshot|].
    eapply emitted_only.
    - eapply only_mono; [|exact Ht4]. sub_tac.
    - eapply emitted_mono; [|exact Hem]. sub_tac. }
  clear Hcond5 Hem5 Hem4.
  wp_step. wp_step. wp_step. wp_step.
  match goal with |- context [all_codes_non_success ?c] =>
    destruct (all_codes_non_success c) eqn:Hstop5 end.
  { (* no synapse is left with Success after Encode *)
    wp_step.
    wp_apply (finalize_spec bt self FORWARD n [Log])
      as [] s6 (Hwf6 & Hso6 & Hsyn6 & Hh6 & Hf6 & Hem6);
      [solve [wf_tac] | kind_tac | | done].
    unfold return_first_code, return_empty.
    destruct (first_code_exists FORWARD n s6 Hwf6) as [code Hcode]; [lia|].
    wp_steps; [|congruence].
    split; [done|].
    assert (x = code) as -> by congruence.
    pose proof (same_outcomes_snapshot _ _ Hso6) as Hp6. simpl in Hp6.
    eapply (forward_encode_failed self request p0 _ pd pc (snapshot s5));
      [done | done | | | done | | | ].
    - rewrite Hh6. simpl. by rewrite Hh5, Hh4, Hh3.
    - by rewrite Hp6.
    - intros Hall. destruct (Hcond Hall) as [Hp Ht]. split; [done|].
      eapply emitted_only.
      + simpl. exact Ht.
      + eapply emitted_mono; [|exact Hem6]. sub_tac.
    - done.
    - destruct Hso6 as (Hc6 & _). simpl in *. congruence. }
  (* at least one synapse has Success *)
  wp_step.
  wp_apply (set_return_times_spec bt FORWARD n [Log])
    as [] s6 ((Hwf6 & Hsyn6 & Hh6 & Hf6 & Hem6) & Hc6 & Hm6 & Hr6);
    [solve [wf_tac] | | done].
  wp_step. wp_step. wp_step.
  wp_apply (finalize_spec bt self FORWARD n [Log])
    as [] s7 (Hwf7 & Hso7 & Hsyn7 & Hh7 & Hf7 & Hem7);
    [solve [wf_tac] | kind_tac | | done].
  wp_steps. split; [done|].
  pose proof (same_outcomes_snapshot _ _ Hso7) as Hp7. simpl in Hp7.
  eapply (forward_success self request p0 _ pd pc (snapshot s5) (snapshot s6));
    [done | done | | done | done | | done | | ].
  - rewrite Hh7. simpl. by rewrite Hh6, Hh5, Hh4, Hh3.
  - destruct (all_codes_non_success (snap_codes pc)) eqn:Hpc; [|done].
    destruct (Hcond eq_refl) as [Hp _]. rewrite <- Hp in Hpc.
    simpl in *. congruence.
  - simpl in *. congruence.
  - simpl in *. congruence.
Qed.
End forward_runs.



(** * The runs of [_backward] *)
Section backward_runs.
Variable bt : Bittensor.
Variable self : Axon.
Variable request : Request.

Variable syns : list Synapse.

Let n := length (request_wire_synapses request).
Let s0 := init_locals bt request BACKWARD syns.
Let p0 := snapshot s0.

Lemma backward_wp :
  deserialize_synapses bt (request_wire_synapses request) = Ok syns →
  wp (_backward bt self request)
     (λ r s, wf BACKWARD n s ∧
             ∃ code, r = ([], code, request_synapses s) ∧ backward_run self request p0 s code)
     never (no_locals request).
Proof.
  intros Hsyns.
  assert (wf BACKWARD n s0) as Hwf0 by by apply init_locals_wf.
  assert (length (synapses s0) = n) as Hn by apply Hwf0.
  assert (history s0 = []) as Hh0 by done.
  assert (trace s0 = []) as Ht0 by done.
  assert (success_msg s0) as Hsm0.
  { intros i. unfold s0. simpl. rewrite !list_lookup_fmap.
    by destruct (_ !! i). }
  unfold _backward. apply wp_bind, wp_call. rewrite Hsyns.
  apply wp_bind, wp_modify. cbv beta. fold s0.
  clearbody s0.
  wp_step. wp_step. wp_step.
  { apply (fail_block bt self BACKWARD n [Log] Validate);
      [solve [wf_tac] | by left |].
    intros s' (Hwf & Hu & Hsyn & Hh & Hr & Hf & Hem).
    unfold return_empty. wp_steps. split; [done|]. eexists. split; [done|].
    eapply backward_empty; [done | by rewrite Hh; simpl; rewrite Hh0 | done | done |].
    eapply emitted_only; [|exact Hem]. simpl. rewrite Ht0. constructor. }
  wp_step.
  { apply (fail_block bt self BACKWARD n [Log] Validate);
      [solve [wf_tac] | by left |].
    intros s' (Hwf & Hu & Hsyn & Hh & Hr & Hf & Hem).
    unfold return_empty. wp_steps. split; [done|]. eexists. split; [done|].
    eapply backward_invalid;
      [done | done | by rewrite Hh; simpl; rewrite Hh0 | done | done |].
    eapply emitted_only; [|exact Hem]. simpl. rewrite Ht0. constructor. }
  wp_step. wp_step. wp_step.
  { apply (fail_block bt self BACKWARD n [Log] Validate);
      [solve [wf_tac] | by left |].
    intros s' (Hwf & Hu & Hsyn & Hh & Hr & Hf & Hem).
    unfold return_empty. wp_steps. split; [done|]. eexists. split; [done|].
    eapply backward_shape;
      [lia | | by rewrite Hh; simpl; rewrite Hh0 | done | done |].
    - simpl in *. lia.
    - eapply emitted_only; [|exact Hem]. simpl. rewrite Ht0. constructor. }
  assert (2 ≤ length (tensors request)) as Hge by lia.
  assert (length (tensors request) = 2 * n) as Hlen by (simpl in *; lia).
  wp_step. wp_step.
  match goal with |- wp _ _ _ ?st => set (s1 := st) end.
  assert (wf BACKWARD n s1) as Hwf1 by (subst s1; wf_tac).
  assert (history s1 = [(Init, p0); (Validate, p0)]) as Hh1
    by (subst s1; simpl; by rewrite Hh0).
  assert (trace s1 = []) as Ht1 by done.
  assert (success_msg s1) as Hsm1 by done.
  clearbody s1. clear Hwf0 Hn Hh0 Ht0 Hsm0.
  wp_step.
  wp_apply (backward_decode_spec bt request n [Log; DecodeCall])
    as [] s2 (Hwf2 & Hh2 & Hf2 & Hr2 & Hem2 & Hsm2);
    [done | kind_tac | done | | done].
  assert (only [Log; DecodeCall] (trace s2)) as Ht2.
  { eapply emitted_only; [|exact Hem2]. rewrite Ht1. constructor. }
  clear Hem2.
  wp_step. wp_step. wp_step. unfold check_if_should_return. wp_step.
  match goal with |- context [all_codes_non_success ?c] =>
    destruct (all_codes_non_success c) eqn:Hstop2 end.
  { wp_step.
    wp_apply (finalize_spec bt self BACKWARD n [Log; DecodeCall])
      as [] s3 (Hwf3 & Hso3 & Hsyn3 & Hh3 & Hf3 & Hem3);
      [solve [wf_tac] | kind_tac | | done].
    unfold return_first_code, return_empty.
    destruct (first_code_exists BACKWARD n s3 Hwf3) as [code Hcode]; [lia|].
    wp_steps; [|congruence].
    split; [done|]. eexists. split; [done|].
    assert (x = code) as -> by congruence.
    eapply backward_decode_failed; [done | done | | reflexivity | | | ].
    - rewrite Hh3. simpl. rewrite Hh2, Hh1.
      by rewrite (same_outcomes_snapshot _ _ Hso3).
    - simpl. destruct Hso3 as (-> & _). done.
    - done.
    - eapply emitted_only; [|exact Hem3]. done. }
  match goal with |- wp _ _ _ ?st => set (s3 := st) in * end.
  set (pd := snapshot s2).
  assert (wf BACKWARD n s3) as Hwf3 by (subst s3; wf_tac).
  assert (history s3 = [(Init, p0); (Validate, p0); (Decode, pd)]) as Hh3
    by (subst s3; simpl; by rewrite Hh2, Hh1).
  assert (snapshot s3 = pd) as Hp3 by done.
  assert (only [Log; DecodeCall; ComputeCall] (trace s3)) as Ht3
    by (eapply only_mono; [|exact Ht2]; sub_tac).
  assert (all_codes_non_success (snap_codes pd) = false) as Hpd by done.
  assert (∀ i, snap_codes pd !! i = Some Success →
               snap_messages pd !! i = Some "Success") as Hsmd by done.
  clearbody s3 pd. clear dependent s2. clear dependent s1.
  wp_step.
  wp_apply (backward_compute_spec bt self request n [Log; DecodeCall; ComputeCall])
    as r s4 ((Hwf4 & Hsyn4 & Hh4 & Hem4) & Hr4);
    [done | kind_tac | kind_tac | | done].
  assert (only [Log; DecodeCall; ComputeCall] (trace s4)) as Ht4
    by (by eapply emitted_only).
  destruct r as [early|[]].
  { destruct Hr4 as (code & -> & Hcode & Hu & Hraised).
    wp_step. split; [done|]. eexists. split; [done|].
    eapply backward_compute_raised;
      [done | done | by rewrite Hh4, Hh3 | done..]. }
  set (pc := snapshot s4) in *.
  wp_step. wp_step.
  match goal with |- context [all_codes_non_success ?c] =>
    destruct (all_codes_non_success c) eqn:Hstop4 end.
  { wp_step.
    wp_apply (finalize_spec bt self BACKWARD n [Log; DecodeCall; ComputeCall])
      as [] s5 (Hwf5 & Hso5 & Hsyn5 & Hh5 & Hf5 & Hem5);
      [solve [wf_tac] | kind_tac | | done].
    unfold return_first_code, return_empty.
    destruct (first_code_exists BACKWARD n s5 Hwf5) as [code Hcode]; [lia|].
    wp_steps; [|congruence].
    split; [done|]. eexists. split; [done|].
    assert (x = code) as -> by congruence.
    pose proof (same_outcomes_snapshot _ _ Hso5) as Hp5.
    eapply (backward_compute_failed self request p0 _ pd pc);
      [done | done | by rewrite Hh5, Hh4, Hh3 | done | done | | done | | ].
    - destruct (priority self) eqn:Hprio; [|done].
      destruct Hr4 as [Hc _]; [done|].
      rewrite <- Hp3 in Hpd. simpl in *. congruence.
    - destruct Hso5 as (Hc5 & _). simpl in *. congruence.
    - by eapply emitted_only. }
  wp_step.
  wp_apply (set_return_times_spec bt BACKWARD n [Log])
    as [] s5 ((Hwf5 & Hsyn5 & Hh5 & Hf5 & Hem5) & Hc5 & Hm5 & Hr5);
    [solve [wf_tac] | | done].
  wp_step. wp_step. wp_step.
  wp_apply (finalize_spec bt self BACKWARD n [Log; DecodeCall; ComputeCall])
    as [] s6 (Hwf6 & Hso6 & Hsyn6 & Hh6 & Hf6 & Hem6);
    [solve [wf_tac] | kind_tac | | done].
  unfold return_empty. wp_steps. split; [done|]. eexists. split; [done|].
  pose proof (same_outcomes_snapshot _ _ Hso6) as Hp6. simpl in Hp6.
  eapply (backward_success self request p0 _ pd pc (snapshot s5));
    [done | done | | done | done | done | done | | | | ].
  - rewrite Hh6. simpl. by rewrite Hh5, Hh4, Hh3.
  - intros Hprio. rewrite <- Hp3. simpl. by apply Hr4.
  - simpl in *. congruence.
  - simpl in *. congruence.
  - eapply emitted_only; [|exact Hem6]. simpl.
    eapply emitted_only; [exact Ht4|].
    eapply emitted_mono; [|exact Hem5]. sub_tac.
Qed.
End backward_runs.

(** * The claims *)

Section claims.
Variable bt : Bittensor.
Variable self : Axon.
Variable request : Request.

Let n := length (request_wire_synapses request).

(** A call on a request whose descriptors decode. *)
Lemma forward_runs syns :
  deserialize_synapses bt (request_wire_synapses request) = Ok syns →
  wf FORWARD n (run bt self request FORWARD).1 ∧
  forward_run self request (snapshot (init_locals bt request FORWARD syns))
    (run bt self request FORWARD).1 (run bt self request FORWARD).2.
Proof.
  intros Hsyns.
  pose proof (forward_wp bt self request syns Hsyns) as H. unfold wp in H.
  unfold run. by destruct (_forward _ _ _ _) as [s [r|e]].
Qed.

Lemma backward_runs syns :
  deserialize_synapses bt (request_wire_synapses request) = Ok syns →
  wf BACKWARD n (run bt self request BACKWARD).1 ∧
  ∃ code,
    (run bt self request BACKWARD).2 =
      Ok ([], code, request_synapses (run bt self request BACKWARD).1) ∧
    backward_run self request (snapshot (init_locals bt request BACKWARD syns))
      (run bt self request BACKWARD).1 code.
Proof.
  intros Hsyns.
  pose proof (backward_wp bt self request syns Hsyns) as H. unfold wp in H.
  unfold run. destruct (_backward _ _ _ _) as [s [r|e]]; [|done].
  destruct H as (Hwf & code & -> & Hrun). split; [done|]. by exists code.
Qed.

(** A call on a request with a descriptor that does not decode: the
    exception of [bittensor.synapse.deserialize] leaves the method
    before any local is bound. *)
Lemma run_undecodable kind e :
  deserialize_synapses bt (request_wire_synapses request) = Raise e →
  run bt self request kind = (no_locals request, Raise e).
Proof.
  intros Hsyns. unfold run, _forward, _backward, mbind, M_bind, call.
  rewrite Hsyns. by destruct kind.
Qed.

End claims.

(** The descriptors of the request decode, or the call ends at once. *)
Ltac decoded_tac syns Hsyns :=
  match goal with
  | |- context [run ?bt ?self ?request ?kind] =>
      destruct (deserialize_synapses bt (request_wire_synapses request))
        as [syns|?] eqn:Hsyns;
      [ | repeat match goal with
          | H : context [run bt self request kind] |- _ =>
              rewrite (run_undecodable bt self request kind _ Hsyns) in H;
              simpl in H
          end;
          first [ discriminate
                | match goal with H : _ ∈ [] |- _ =>
                    by apply elem_of_nil in H end ] ]
  end.

Lemma aggregate_uniform kind n code s :
  wf kind n s → uniform code s → code ≠ Success →
  aggregate_rule (synapse_codes s) code.
Proof.
  intros Hwf Hu Hcode. rewrite (uniform_codes _ _ Hu). split.
  - split; [done|]. intros Hex. apply Exists_exists in Hex as (c & Hc & ->).
    apply list_elem_of_fmap in Hc as (? & ? & ?). done.
  - intros _ first Hfirst. rewrite list_lookup_fmap in Hfirst.
    destruct (synapses s !! 0); simpl in Hfirst; congruence.
Qed.

Lemma aggregate_first codes code :
  all_codes_non_success codes = true → codes !! 0 = Some code →
  aggregate_rule codes code.
Proof.
  intros Hall Hcode. split.
  - split.
    + intros ->. by destruct (all_codes_non_success_lookup codes 0).
    + intros Hex. apply all_codes_non_success_Exists in Hex. congruence.
  - intros _ first Hfirst. congruence.
Qed.

Lemma aggregate_success codes :
  all_codes_non_success codes = false → aggregate_rule codes Success.
Proof.
  intros Hex. apply all_codes_non_success_Exists in Hex. split; [done|].
  intros Hall. exfalso. apply Exists_exists in Hex as (c & Hc & ->).
  rewrite Forall_forall in Hall. by apply (Hall Success).
Qed.

(** C1. For a call of either method that reaches a [return], the
    overall code is [Success] exactly when some synapse outcome has
    [Success]; when none has, the overall code is the code of the first
    synapse. *)
Theorem C1_aggregate_code bt self request kind payloads code wires :
  (run bt self request kind).2 = Ok (payloads, code, wires) →
  aggregate_rule (synapse_codes (run bt self request kind).1) code.
Proof.
  intros Hret. decoded_tac syns Hsyns. destruct kind.
  - destruct (forward_runs bt self request syns Hsyns) as [Hwf Hrun].
    rewrite Hret in Hrun. inversion Hrun; subst; simpl in *;
      first
      [ eapply aggregate_uniform; [eassumption | eassumption | naive_solver]
      | by apply aggregate_first
      | apply aggregate_success; congruence ].
  - destruct (backward_runs bt self request syns Hsyns)
      as (Hwf & c & Hres & Hrun).
    rewrite Hret in Hres. injection Hres as -> -> ->.
    inversion Hrun; subst; simpl in *;
      first
      [ eapply aggregate_uniform; [eassumption | eassumption | naive_solver]
      | by apply aggregate_first
      | apply aggregate_success; congruence ].
Qed.

(** The stages a call went through. *)
Ltac history_tac :=
  repeat match goal with
  | Hh : history ?s = _, Hin : _ ∈ history ?s |- _ => rewrite Hh in Hin
  | Hin : _ ∈ _ :: _ |- _ => apply elem_of_cons in Hin as [Hin|Hin]
  | Hin : _ ∈ [] |- _ => by apply elem_of_nil in Hin
  | Heq : (_, _) = (_, _) |- _ => injection Heq as ? ?
  end.

(** C3. Let [syns] be the synapses decoded from the descriptors of the
    request.  Before any stage has run every outcome is [Success] with
    the not-yet-a-response marker, and after every stage the lists of
    codes, messages, call times and response markers are as long as
    [syns]. *)
Theorem C3_outcome_lengths bt self request kind syns :
  let s := (run bt self request kind).1 in
  deserialize_synapses bt (request_wire_synapses request) = Ok syns →
  length (synapses s) = length syns ∧
  Forall (λ p, snap_ok (length syns) p.2) (history s) ∧
  snap_ok (length syns) (snapshot s) ∧
  history s !! 0 =
    Some (Init, {| snap_codes := (λ _, Success) <$> syns;
                   snap_messages := (λ _, "Success") <$> syns;
                   snap_call_times := (λ _, 0%Z) <$> syns;
                   snap_is_response := (λ _, false) <$> syns |}).
Proof.
  intros s Hsyns.
  rewrite (deserialize_synapses_length _ _ _ Hsyns).
  assert (wf kind (length (request_wire_synapses request)) s ∧
          ∃ rest, history s =
            (Init, snapshot (init_locals bt request kind syns)) :: rest)
    as [Hwf [rest Hh]].
  { subst s. destruct kind.
    - destruct (forward_runs bt self request syns Hsyns) as [Hwf Hrun].
      split; [done|]. inversion Hrun; eauto.
    - destruct (backward_runs bt self request syns Hsyns)
        as (Hwf & c & _ & Hrun).
      split; [done|]. inversion Hrun; eauto. }
  split; [apply Hwf|]. split; [apply Hwf|]. split.
  - unfold snap_ok. simpl. destruct Hwf as (? & ? & ? & ? & ? & _). done.
  - rewrite Hh. by destruct kind.
Qed.

(** C5. When the Decode stage leaves no synapse with [Success], the
    call returns at once with the first synapse's code: it went through
    no further stage and called neither the priority function, nor the
    pool, nor the callback. *)
Theorem C5_decode_short_circuit bt self request kind pd :
  let s := (run bt self request kind).1 in
  (Decode, pd) ∈ history s →
  all_codes_non_success (snap_codes pd) = true →
  ∃ code,
    (run bt self request kind).2 = Ok ([], code, request_synapses s) ∧
    snap_codes pd !! 0 = Some code ∧
    (history s).*1 = [Init; Validate; Decode] ∧
    only [Log; DecodeCall] (trace s).
Proof.
  intros s Hin Hall. subst s. decoded_tac syns Hsyns. destruct kind.
  - destruct (forward_runs bt self request syns Hsyns) as [Hwf Hrun].
    inversion Hrun; history_tac; simplify_eq; try congruence.
    eexists. split; [done|].
    match goal with Hh : history _ = _ |- _ => rewrite Hh end. done.
  - destruct (backward_runs bt self request syns Hsyns)
      as (Hwf & c & Hres & Hrun).
    inversion Hrun; history_tac; simplify_eq; try congruence.
    eexists. split; [done|].
    match goal with Hh : history _ = _ |- _ => rewrite Hh end. done.
Qed.

(** C6, as the code has it. A call of either method without payloads,
    on a request whose synapse descriptors all decode, returns
    [EmptyRequest] and an empty payload list; every synapse gets that
    code with one message and one elapsed time; no payload is decoded
    and nothing computed. *)
Theorem C6_empty_request bt self request kind syns :
  let s := (run bt self request kind).1 in
  deserialize_synapses bt (request_wire_synapses request) = Ok syns →
  length (tensors request) = 0 →
  (run bt self request kind).2 = Ok ([], EmptyRequest, request_synapses s) ∧
  uniform EmptyRequest s ∧
  (history s).*1 = [Init; Validate] ∧
  only [Log] (trace s).
Proof.
  intros s Hsyns Hlen. subst s. destruct kind.
  - destruct (forward_runs bt self request syns Hsyns) as [Hwf Hrun].
    inversion Hrun; try lia.
    match goal with Hh : history _ = _ |- _ => rewrite Hh end. done.
  - destruct (backward_runs bt self request syns Hsyns)
      as (Hwf & c & Hres & Hrun).
    inversion Hrun; try lia. subst.
    match goal with Hh : history _ = _ |- _ => rewrite Hh end. done.
Qed.

(** C7, as the code has it. A forward call with at least one payload
    whose payload count differs from its synapse count, on a request
    whose synapse descriptors all decode, returns
    [RequestShapeException]; every synapse gets that code; no payload
    is decoded. *)
Theorem C7_forward_shape_mismatch bt self request syns :
  let s := (run bt self request FORWARD).1 in
  deserialize_synapses bt (request_wire_synapses request) = Ok syns →
  length (tensors request) ≠ 0 →
  length (tensors request) ≠ length (request_wire_synapses request) →
  (run bt self request FORWARD).2 =
    Ok ([], RequestShapeException, request_synapses s) ∧
  uniform RequestShapeException s ∧
  (history s).*1 = [Init; Validate] ∧
  only [Log] (trace s).
Proof.
  intros s Hsyns Hne Hlen. subst s.
  destruct (forward_runs bt self request syns Hsyns) as [Hwf Hrun].
  inversion Hrun; try lia; try congruence.
  match goal with Hh : history _ = _ |- _ => rewrite Hh end. done.
Qed.

(** C8, as the code has it. On a request whose synapse descriptors
    all decode, a backward call with exactly one payload returns
    [InvalidRequest]; one with at least two payloads, but not two per
    synapse, returns [RequestShapeException]; in both cases every
    synapse gets the code and no payload is decoded. *)
Theorem C8_backward_validation bt self request syns :
  let s := (run bt self request BACKWARD).1 in
  let code := backward_validation_code (length (tensors request)) in
  deserialize_synapses bt (request_wire_synapses request) = Ok syns →
  length (tensors request) ≠ 0 →
  length (tensors request) < 2 ∨
    length (tensors request) ≠ 2 * length (request_wire_synapses request) →
  (run bt self request BACKWARD).2 = Ok ([], code, request_synapses s) ∧
  uniform code s ∧
  (history s).*1 = [Init; Validate] ∧
  only [Log] (trace s).
Proof.
  intros s code Hsyns Hne Hlen. subst s code.
  unfold backward_validation_code.
  destruct (backward_runs bt self request syns Hsyns)
    as (Hwf & c & Hres & Hrun).
  inversion Hrun; try lia; subst;
    destruct (decide _); try lia;
    match goal with Hh : history _ = _ |- _ => rewrite Hh end; done.
Qed.

(** C9. Whatever the request, the callback, the executor mode and the
    exceptions raised on the way, every [return] of [_backward] has an
    empty payload list, and so has every response of [Backward].
    [_backward] and [Backward] do return whenever the synapse
    descriptors of the request decode; when one does not, its
    exception leaves both and there is no response. *)
Theorem C9_backward_payloads_empty bt self request :
  (∀ payloads code wires,
     (run bt self request BACKWARD).2 = Ok (payloads, code, wires) →
     payloads = []) ∧
  (∀ response,
     Backward bt self request = Ok response → tm_tensors response = []) ∧
  (∀ syns,
     deserialize_synapses bt (request_wire_synapses request) = Ok syns →
     ∃ code wires response,
       (run bt self request BACKWARD).2 = Ok ([], code, wires) ∧
       Backward bt self request = Ok response) ∧
  (∀ e,
     deserialize_synapses bt (request_wire_synapses request) = Raise e →
     (run bt self request BACKWARD).2 = Raise e ∧
     Backward bt self request = Raise e).
Proof.
  assert (Backward bt self request =
            match (run bt self request BACKWARD).2 with
            | Ok r => Ok (response_of bt self request r)
            | Raise e => Raise e
            end) as HB.
  { unfold Backward, run. by destruct (_backward _ _ _ _) as [s [r|e]]. }
  destruct (deserialize_synapses bt (request_wire_synapses request))
    as [syns|e] eqn:Hsyns.
  - destruct (backward_runs bt self request syns Hsyns)
      as (Hwf & c & Hres & Hrun).
    rewrite HB, Hres. split_and!.
    + by intros ? ? ? [= <- _ _].
    + by intros ? [= <-].
    + intros ? _. by eexists _, _, _.
    + by intros ? [=].
  - rewrite HB, (run_undecodable bt self request BACKWARD e Hsyns). simpl.
    split_and!; try done. by intros ? [= <-].
Qed.

Lemma uniform_first kind n code s :
  wf kind n s → n ≠ 0 → uniform code s → synapse_codes s !! 0 = Some code.
Proof.
  intros (Hn & _) Hne Hu. rewrite (uniform_codes _ _ Hu), list_lookup_fmap.
  destruct (synapses s); [simpl in *; lia | done].
Qed.

(** C2, as the code has it. When the Compute stage of a forward call
    leaves no synapse with [Success], the call returns an empty payload
    list and the first synapse's code, the outcomes are those the
    Compute stage left, and [serialize_forward_response_tensor] is not
    called; the only calls after the Compute stage are the status
    descriptors of the Encode loop and the logs. *)
Theorem C2_all_failed_after_compute bt self request pc :
  let s := (run bt self request FORWARD).1 in
  (Compute, pc) ∈ history s →
  all_codes_non_success (snap_codes pc) = true →
  ∃ code,
    (run bt self request FORWARD).2 = Ok ([], code, request_synapses s) ∧
    snap_codes pc !! 0 = Some code ∧
    snapshot s = pc ∧
    only [Log; DecodeCall; ComputeCall; WireCall] (trace s).
Proof.
  intros s Hin Hall. subst s. decoded_tac syns Hsyns.
  destruct (forward_runs bt self request syns Hsyns) as [Hwf Hrun].
  inversion Hrun; history_tac; simplify_eq; try congruence.
  - eexists. split; [done|]. split_and!; [|done|].
    + simpl. eapply uniform_first; [done| |done]. lia.
    + eapply only_mono; [|done]. sub_tac.
  - match goal with H : _ → _ ∧ _ |- _ => destruct (H Hall) as [Hp ?] end.
    eexists. split; [done|]. rewrite <- Hp. by split_and!.
Qed.

(** C10, as the code has it. In priority mode, take a backward call
    that passed validation and decoded at least one synapse.  When the
    priority function, applied to the caller's hotkey, the decoded
    inputs of this call ([deserialized_forward_tensors]) and the call
    kind, returns a priority [p], and the pool takes the submission of
    [p], the call returns [Success]; every synapse that came out of
    Decode with [Success] keeps that code and the message
    ["Success"]; and the call is the same for every backward
    callback. *)
Theorem C10_backward_priority_mode bt self request priority_fn pd p fut :
  let s := (run bt self request BACKWARD).1 in
  priority self = Some priority_fn →
  (Decode, pd) ∈ history s →
  all_codes_non_success (snap_codes pd) = false →
  priority_fn (hotkey request) (deserialized_forward_tensors s) BACKWARD =
    Ok p →
  priority_threadpool_submit self p = Ok fut →
  (run bt self request BACKWARD).2 = Ok ([], Success, request_synapses s) ∧
  (∀ i, snap_codes pd !! i = Some Success →
        synapse_codes s !! i = Some Success ∧
        synapse_messages s !! i = Some "Success") ∧
  (∀ callback,
     run bt (with_backward_callback callback self) request BACKWARD =
     run bt self request BACKWARD).
Proof.
  intros s Hprio Hin Hsome Hfn Hsubmit. subst s.
  decoded_tac syns Hsyns. split_and!.
  - destruct (backward_runs bt self request syns Hsyns)
      as (Hwf & c & Hres & Hrun).
    inversion Hrun; history_tac; simplify_eq; try congruence.
    match goal with H : priority_path_raised _ _ _ |- _ =>
      destruct (H _ Hprio) as [(e & He) | (p' & e & Hp' & He)] end;
      congruence.
  - destruct (backward_runs bt self request syns Hsyns)
      as (Hwf & c & Hres & Hrun).
    inversion Hrun; history_tac; simplify_eq; try congruence.
    + match goal with H : priority_path_raised _ _ _ |- _ =>
        destruct (H _ Hprio) as [(e & He) | (p' & e & Hp' & He)] end;
        congruence.
    + intros i Hi.
      match goal with H : priority self ≠ None → _ |- _ =>
        destruct H as [Hc Hm]; [congruence|] end.
      simpl in *. split; [congruence|].
      match goal with H : ∀ i, _ → _ |- _ => specialize (H i Hi) end.
      congruence.
  - intros callback. unfold run, _backward, backward_compute,
      finalize_codes_stats_and_logs, compute_handler, timeout_handler,
      exception_handler. simpl. by rewrite Hprio.
Qed.

(** C4 at the input where the code departs from it: in priority mode
    the priority function raises a timeout error.  The timeout handler
    reads [future] before any future was bound, so [Forward] ends in an
    [UnboundLocalError] and the outcome lists are left as Decode made
    them. *)
Theorem C4_timeout_before_submit_escapes :
  let self := Demo.priority_axon (Raise FuturesTimeoutError) (Ok WillComplete) in
  let request := Demo.req [Demo.good] [Demo.wire 1] in
  Forward Demo.bt self request = Raise (UnboundLocalError "future") ∧
  (run Demo.bt self request FORWARD).2 = Raise (UnboundLocalError "future") ∧
  synapse_codes (run Demo.bt self request FORWARD).1 = [Success].
Proof. vm_compute. done. Qed.

(** ** Instances *)

Lemma C1_witness :
  aggregate_rule
    (synapse_codes
       (run Demo.bt (Demo.direct_axon Demo.echo_forward)
          (Demo.req [Demo.good; Demo.bad] [Demo.wire 1; Demo.wire 2]) FORWARD).1)
    Success.
Proof.
  eapply (C1_aggregate_code Demo.bt (Demo.direct_axon Demo.echo_forward)
            (Demo.req [Demo.good; Demo.bad] [Demo.wire 1; Demo.wire 2]) FORWARD).
  vm_compute. reflexivity.
Defined.

Lemma C2_witness :
  let self := Demo.direct_axon (Demo.failing_forward NotImplemented) in
  let request := Demo.req [Demo.good] [Demo.wire 1] in
  let s := (run Demo.bt self request FORWARD).1 in
  ∃ code,
    (run Demo.bt self request FORWARD).2 = Ok ([], code, request_synapses s) ∧
    [NotImplemented] !! 0 = Some code ∧
    snapshot s =
      {| snap_codes := [NotImplemented]; snap_messages := ["no"];
         snap_call_times := [0%Z]; snap_is_response := [true] |} ∧
    only [Log; DecodeCall; ComputeCall; WireCall] (trace s).
Proof.
  apply (C2_all_failed_after_compute Demo.bt
           (Demo.direct_axon (Demo.failing_forward NotImplemented))
           (Demo.req [Demo.good] [Demo.wire 1])
           {| snap_codes := [NotImplemented]; snap_messages := ["no"];
              snap_call_times := [0%Z]; snap_is_response := [true] |}).
  - vm_compute. do 3 apply list_elem_of_further. apply list_elem_of_here.
  - reflexivity.
Defined.

(** C2 as stated fails: here the callback reports [NotImplemented] for
    the only synapse, and the call still goes through the Encode stage
    and builds the status descriptor of that synapse. *)
Lemma C2_encode_stage_still_runs :
  let self := Demo.direct_axon (Demo.failing_forward NotImplemented) in
  let request := Demo.req [Demo.good] [Demo.wire 1] in
  let s := (run Demo.bt self request FORWARD).1 in
  ∃ pc, (Compute, pc) ∈ history s ∧
        all_codes_non_success (snap_codes pc) = true ∧
        (history s).*1 = [Init; Validate; Decode; Compute; Encode] ∧
        EvToWire 0 ∈ trace s.
Proof.
  exists {| snap_codes := [NotImplemented]; snap_messages := ["no"];
            snap_call_times := [0%Z]; snap_is_response := [true] |}.
  split_and!.
  - vm_compute. do 3 apply list_elem_of_further. apply list_elem_of_here.
  - reflexivity.
  - reflexivity.
  - vm_compute. do 3 apply list_elem_of_further. apply list_elem_of_here.
Qed.

Lemma C3_witness :
  let request := Demo.req [Demo.good; Demo.bad] [Demo.wire 1; Demo.wire 2] in
  let syns := [ {| synapse_type := 1; synapse_args := [] |};
                {| synapse_type := 2; synapse_args := [] |} ] in
  let s := (run Demo.bt (Demo.direct_axon Demo.echo_forward) request FORWARD).1 in
  length (synapses s) = 2 ∧
  Forall (λ p, snap_ok 2 p.2) (history s) ∧
  snap_ok 2 (snapshot s) ∧
  history s !! 0 =
    Some (Init, {| snap_codes := [Success; Success];
                   snap_messages := ["Success"; "Success"];
                   snap_call_times := [0%Z; 0%Z];
                   snap_is_response := [false; false] |}).
Proof.
  apply (C3_outcome_lengths Demo.bt (Demo.direct_axon Demo.echo_forward)
           (Demo.req [Demo.good; Demo.bad] [Demo.wire 1; Demo.wire 2]) FORWARD
           [ {| synapse_type := 1; synapse_args := [] |};
             {| synapse_type := 2; synapse_args := [] |} ]).
  reflexivity.
Defined.

Lemma C5_witness :
  let request := Demo.req [Demo.bad] [Demo.wire 1] in
  let s := (run Demo.bt (Demo.direct_axon Demo.echo_forward) request FORWARD).1 in
  ∃ code,
    (run Demo.bt (Demo.direct_axon Demo.echo_forward) request FORWARD).2 =
      Ok ([], code, request_synapses s) ∧
    [RequestShapeException] !! 0 = Some code ∧
    (history s).*1 = [Init; Validate; Decode] ∧
    only [Log; DecodeCall] (trace s).
Proof.
  apply (C5_decode_short_circuit Demo.bt (Demo.direct_axon Demo.echo_forward)
           (Demo.req [Demo.bad] [Demo.wire 1]) FORWARD
           {| snap_codes := [RequestShapeException];
              snap_messages := ["Input shape exception with error:bad shape"];
              snap_call_times := [1%Z]; snap_is_response := [false] |}).
  - vm_compute. do 2 apply list_elem_of_further. apply list_elem_of_here.
  - reflexivity.
Defined.

Lemma C6_witness :
  let request := Demo.req [] [Demo.wire 1; Demo.wire 2] in
  let s := (run Demo.bt (Demo.direct_axon Demo.echo_forward) request BACKWARD).1 in
  (run Demo.bt (Demo.direct_axon Demo.echo_forward) request BACKWARD).2 =
    Ok ([], EmptyRequest, request_synapses s) ∧
  uniform EmptyRequest s ∧
  (history s).*1 = [Init; Validate] ∧
  only [Log] (trace s).
Proof.
  apply (C6_empty_request Demo.bt (Demo.direct_axon Demo.echo_forward)
           (Demo.req [] [Demo.wire 1; Demo.wire 2]) BACKWARD
           [ {| synapse_type := 1; synapse_args := [] |};
             {| synapse_type := 2; synapse_args := [] |} ]).
  - reflexivity.
  - reflexivity.
Defined.

(** C6 as stated fails: the request has no payload, but its descriptor
    does not decode; [bittensor.synapse.deserialize] is called before
    the payloads are counted and outside every [try], so its exception
    leaves both methods and no code is returned. *)
Lemma C6_undecodable_descriptor_raises :
  let self := Demo.direct_axon Demo.echo_forward in
  let request := Demo.req [] [Demo.wire 0] in
  let e := OtherException "unknown synapse type" in
  length (tensors request) = 0 ∧
  (run Demo.bt self request FORWARD).2 = Raise e ∧
  (run Demo.bt self request BACKWARD).2 = Raise e ∧
  Forward Demo.bt self request = Raise e ∧
  Backward Demo.bt self request = Raise e ∧
  history (run Demo.bt self request FORWARD).1 = [] ∧
  history (run Demo.bt self request BACKWARD).1 = [].
Proof. vm_compute. done. Qed.

Lemma C7_witness :
  let request := Demo.req [Demo.good; Demo.good] [Demo.wire 1; Demo.wire 2; Demo.wire 3] in
  let s := (run Demo.bt (Demo.direct_axon Demo.echo_forward) request FORWARD).1 in
  (run Demo.bt (Demo.direct_axon Demo.echo_forward) request FORWARD).2 =
    Ok ([], RequestShapeException, request_synapses s) ∧
  uniform RequestShapeException s ∧
  (history s).*1 = [Init; Validate] ∧
  only [Log] (trace s).
Proof.
  apply (C7_forward_shape_mismatch Demo.bt (Demo.direct_axon Demo.echo_forward)
           (Demo.req [Demo.good; Demo.good]
              [Demo.wire 1; Demo.wire 2; Demo.wire 3])
           [ {| synapse_type := 1; synapse_args := [] |};
             {| synapse_type := 2; synapse_args := [] |};
             {| synapse_type := 3; synapse_args := [] |} ]).
  - reflexivity.
  - simpl. lia.
  - simpl. lia.
Defined.

(** C7 as stated fails twice.  No payload and one synapse is a payload
    count that differs from the synapse count, and the code is
    [EmptyRequest].  Two payloads and one descriptor that does not
    decode is another such count, and the exception of
    [bittensor.synapse.deserialize] leaves [_forward]: no code is
    returned. *)
Lemma C7_empty_request_comes_first :
  let self := Demo.direct_axon Demo.echo_forward in
  let request := Demo.req [] [Demo.wire 1] in
  let undecodable := Demo.req [Demo.good; Demo.good] [Demo.wire 0] in
  (length (tensors request) ≠ length (request_wire_synapses request) ∧
   ∃ wires,
     (run Demo.bt self request FORWARD).2 = Ok ([], EmptyRequest, wires) ∧
     EmptyRequest ≠ RequestShapeException) ∧
  (length (tensors undecodable) ≠ 0 ∧
   length (tensors undecodable) ≠
     length (request_wire_synapses undecodable) ∧
   (run Demo.bt self undecodable FORWARD).2 =
     Raise (OtherException "unknown synapse type") ∧
   Forward Demo.bt self undecodable =
     Raise (OtherException "unknown synapse type")).
Proof.
  split.
  - split; [simpl; lia|]. eexists. split; [vm_compute; reflexivity | done].
  - split_and!; [simpl; lia | simpl; lia | vm_compute; reflexivity
                | vm_compute; reflexivity].
Qed.

Lemma C8_witness :
  let request := Demo.req [Demo.good] [Demo.wire 1] in
  let s := (run Demo.bt (Demo.direct_axon Demo.echo_forward) request BACKWARD).1 in
  (run Demo.bt (Demo.direct_axon Demo.echo_forward) request BACKWARD).2 =
    Ok ([], InvalidRequest, request_synapses s) ∧
  uniform InvalidRequest s ∧
  (history s).*1 = [Init; Validate] ∧
  only [Log] (trace s).
Proof.
  apply (C8_backward_validation Demo.bt (Demo.direct_axon Demo.echo_forward)
           (Demo.req [Demo.good] [Demo.wire 1])
           [ {| synapse_type := 1; synapse_args := [] |} ]).
  - reflexivity.
  - simpl. lia.
  - left. simpl. lia.
Defined.

Lemma C9_witness :
  let self := Demo.direct_axon Demo.echo_forward in
  let request := Demo.req [Demo.good; Demo.good] [Demo.wire 1] in
  ∃ code wires response,
    (run Demo.bt self request BACKWARD).2 = Ok ([], code, wires) ∧
    Backward Demo.bt self request = Ok response.
Proof.
  apply (proj1 (proj2 (proj2
           (C9_backward_payloads_empty Demo.bt
              (Demo.direct_axon Demo.echo_forward)
              (Demo.req [Demo.good; Demo.good] [Demo.wire 1]))))
           [ {| synapse_type := 1; synapse_args := [] |} ]).
  reflexivity.
Defined.

(** C8 as stated fails twice.  No payload is fewer than two payloads,
    and the code is [EmptyRequest].  One payload and a descriptor that
    does not decode is fewer than two payloads as well, and the
    exception of [bittensor.synapse.deserialize] leaves [_backward]: no
    code is returned. *)
Lemma C8_empty_request_comes_first :
  let self := Demo.direct_axon Demo.echo_forward in
  let request := Demo.req [] [Demo.wire 1] in
  let undecodable := Demo.req [Demo.good] [Demo.wire 0] in
  (length (tensors request) < 2 ∧
   ∃ wires,
     (run Demo.bt self request BACKWARD).2 = Ok ([], EmptyRequest, wires) ∧
     EmptyRequest ≠ InvalidRequest) ∧
  (length (tensors undecodable) ≠ 0 ∧
   length (tensors undecodable) < 2 ∧
   (run Demo.bt self undecodable BACKWARD).2 =
     Raise (OtherException "unknown synapse type") ∧
   Backward Demo.bt self undecodable =
     Raise (OtherException "unknown synapse type")).
Proof.
  split.
  - split; [simpl; lia|]. eexists. split; [vm_compute; reflexivity | done].
  - split_and!; [simpl; lia | simpl; lia | vm_compute; reflexivity
                | vm_compute; reflexivity].
Qed.

Lemma C10_witness :
  let self := Demo.priority_axon (Ok 3%Z) (Ok WillTimeOut) in
  let request := Demo.req [Demo.good; Demo.good] [Demo.wire 1] in
  let s := (run Demo.bt self request BACKWARD).1 in
  (run Demo.bt self request BACKWARD).2 = Ok ([], Success, request_synapses s) ∧
  (∀ i, [Success] !! i = Some Success →
        synapse_codes s !! i = Some Success ∧
        synapse_messages s !! i = Some "Success") ∧
  (∀ callback,
     run Demo.bt (with_backward_callback callback self) request BACKWARD =
     run Demo.bt self request BACKWARD).
Proof.
  eapply (C10_backward_priority_mode Demo.bt
            (Demo.priority_axon (Ok 3%Z) (Ok WillTimeOut))
            (Demo.req [Demo.good; Demo.good] [Demo.wire 1]) _
            {| snap_codes := [Success]; snap_messages := ["Success"];
               snap_call_times := [0%Z]; snap_is_response := [false] |}
            3%Z WillTimeOut).
  - reflexivity.
  - vm_compute. do 2 apply list_elem_of_further. apply list_elem_of_here.
  - reflexivity.
  - reflexivity.
  - reflexivity.
Defined.

(** C10 as stated fails: the request passes validation and its synapse
    decodes, but the priority function raises on the decoded inputs,
    and the handler gives [UnknownException] to the call.  The same
    happens when the priority function returns and the submission to
    the pool raises. *)
Lemma C10_priority_function_raises :
  let self := Demo.priority_axon (Raise (OtherException "boom")) (Ok WillComplete) in
  let full := Demo.priority_axon (Ok 3%Z) (Raise (OtherException "full")) in
  let request := Demo.req [Demo.good; Demo.good] [Demo.wire 1] in
  let pd := {| snap_codes := [Success]; snap_messages := ["Success"];
               snap_call_times := [0%Z]; snap_is_response := [false] |} in
  (priority self ≠ None ∧
   (Decode, pd) ∈ history (run Demo.bt self request BACKWARD).1 ∧
   ∃ wires,
     (run Demo.bt self request BACKWARD).2 = Ok ([], UnknownException, wires) ∧
     UnknownException ≠ Success) ∧
  (priority full ≠ None ∧
   (Decode, pd) ∈ history (run Demo.bt full request BACKWARD).1 ∧
   ∃ wires,
     (run Demo.bt full request BACKWARD).2 = Ok ([], UnknownException, wires) ∧
     UnknownException ≠ Success).
Proof.
  split; split_and!; try done;
    try (vm_compute; do 2 apply list_elem_of_further; apply list_elem_of_here);
    eexists; (split; [vm_compute; reflexivity | done]).
Qed.

Section logs_detail.
Variable bt : Bittensor.
Variable self : Axon.

(** [finalize_codes_stats_and_logs] writes the code and message of
    every synapse into [request.synapses] and leaves the inputs of the
    callbacks alone. *)
Lemma finalize_writes_back kind n s :
  wf kind n s →
  wp (finalize_codes_stats_and_logs bt self kind)
     (λ _ s', written_back s' ∧ same_inputs s s') never s.
Proof.
  intros Hwf. unfold finalize_codes_stats_and_logs.
  set (J := λ (k : nat) (s' : Locals),
    wf kind n s' ∧ synapse_codes s' = synapse_codes s ∧
    synapse_messages s' = synapse_messages s ∧ same_inputs s s' ∧
    ∀ i w, i < k → request_synapses s' !! i = Some w →
      synapse_codes s !! i = Some (return_code w) ∧
      synapse_messages s !! i = Some (message w)).
  assert (∀ s1, J 0 s1 → synapses s1 = synapses s →
            wp (for_enumerate (synapses s1) (λ index synapse,
                  (if prometheus self
                   then codes ← gets synapse_codes; code ← getitem codes index;
                        emit (EvSynapseMetrics kind index code)
                   else mret tt) ;;
                  codes ← gets synapse_codes; code ← getitem codes index;
                  wires ← gets request_synapses; w ← getitem wires index;
                  setitem request_synapses set_request_synapses index
                    (with_return_code code w) ;;
                  messages ← gets synapse_messages; msg ← getitem messages index;
                  wires ← gets request_synapses; w ← getitem wires index;
                  setitem request_synapses set_request_synapses index
                    (with_message msg w) ;;
                  flags ← gets synapse_is_response; is_response ← getitem flags index;
                  codes ← gets synapse_codes; code ← getitem codes index;
                  times ← gets synapse_call_times; call_time ← getitem times index;
                  match kind with
                  | FORWARD =>
                      responses ← gets synapse_responses;
                      _ ← getitem responses index; mret tt
                  | BACKWARD =>
                      grads ← gets deserialized_forward_gradients;
                      _ ← getitem grads index; mret tt
                  end ;;
                  messages ← gets synapse_messages; msg ← getitem messages index;
                  emit (EvRpcLog kind index is_response code call_time msg)))
              (λ _ s', written_back s' ∧ same_inputs s s') never s1) as Hloop.
  { intros s1 HJ Hsyn.
    eapply wp_mono; [apply (wp_for_enumerate J never) | | done].
    - done.
    - intros i x s' Hx (Hwf' & Hc & Hm & Hin & Hdone).
      assert (i < n) by (apply lookup_lt_Some in Hx; rewrite Hsyn in Hx; wf_tac).
      unfold J, same_inputs in *.
      wp_steps; try solve [exfalso; wf_tac]; simpl in *;
        (split; [solve [wf_tac]|]); split_and!; try tauto; try congruence;
        intros j w' Hj Hw';
        (destruct (decide (j = i)) as [->|Hne];
         [ rewrite list_lookup_insert_eq in Hw'
             by (rewrite length_insert; wf_tac);
           injection Hw' as <-; simpl;
           rewrite list_lookup_insert_eq in *
             by (first [wf_tac | rewrite length_insert; wf_tac]);
           simplify_eq; simpl; split; congruence
         | rewrite !list_lookup_insert_ne in Hw' by done;
           apply Hdone; [lia | done] ]).
    - intros [] s' (Hwf' & Hc & Hm & Hin & Hdone). cbv beta.
      split; [|done]. intros i w Hw. rewrite Hc, Hm.
      apply Hdone; [|done]. apply lookup_lt_Some in Hw. rewrite Hsyn.
      destruct Hwf as (? & _), Hwf' as (_ & _ & _ & _ & _ & ? & _). lia. }
  wp_step. wp_step.
  - wp_steps. apply Hloop; [|done].
    unfold J, same_inputs. simpl.
    split_and!; try done; try solve [wf_tac]; intros; lia.
  - wp_steps. apply Hloop; [|done].
    unfold J, same_inputs. simpl.
    split_and!; try done; try solve [wf_tac]; intros; lia.
Qed.

End logs_detail.

Section decode_detail.
Variable bt : Bittensor.
Variable request : Request.

Ltac decode_rw :=
  repeat match goal with
  | Hq : tensors _ !! ?j = _ |- context [tensors _ !! ?j] => rewrite Hq
  | Hq : deserialize_forward_request_tensor ?b ?y ?p = _
    |- context [deserialize_forward_request_tensor ?b ?y ?p] => rewrite Hq
  | Hq : deserialize_backward_request_gradient ?b ?y ?x ?p = _
    |- context [deserialize_backward_request_gradient ?b ?y ?x ?p] => rewrite Hq
  end.

Ltac lookup_tac :=
  repeat first
  [ rewrite list_lookup_insert_eq by (rewrite ?length_insert; lia)
  | rewrite list_lookup_insert_ne by done ].

Lemma forward_decode_detail n s :
  wf FORWARD n s →
  synapse_codes s = (λ _, Success) <$> synapses s →
  synapse_messages s = (λ _, "Success") <$> synapses s →
  wp (forward_decode bt request) (λ _, forward_decoding bt request n s n) never s.
Proof.
  intros Hwf Hc Hm. unfold forward_decode. wp_steps.
  assert (length (synapses s) = n) as Hn by apply Hwf.
  eapply wp_mono;
    [apply (wp_for_enumerate (forward_decoding bt request n s) never) | | done].
  - unfold forward_decoding. simpl. rewrite length_fmap.
    split_and!; try done; try solve [wf_tac]; try (intros; lia).
    intros i _ Hi. rewrite Hc, Hm, !list_lookup_fmap.
    destruct (synapses s !! i) eqn:Hsi; [done|].
    apply lookup_ge_None in Hsi. lia.
  - intros k syn s' Hk (Hwf' & Hsyn & Hlen & Hdone & Htodo). simpl in Hk.
    assert (k < n) as Hkn by (apply lookup_lt_Some in Hk; lia).
    destruct (Htodo k) as (Hck & Hmk & Hik); [lia | done |].
    assert (length (synapse_codes s') = n ∧ length (synapse_messages s') = n ∧
            length (synapse_call_times s') = n) as (Hlc & Hlm & Hlt)
      by (destruct Hwf' as (? & ? & ? & ? & _); done).
    assert (∀ (s'' : Locals) r,
      forward_decoded bt request k syn = r →
      wf FORWARD n s'' → synapses s'' = synapses s →
      length (deserialized_forward_tensors s'') = n →
      (∀ i, i ≠ k →
         synapse_codes s'' !! i = synapse_codes s' !! i ∧
         synapse_messages s'' !! i = synapse_messages s' !! i ∧
         deserialized_forward_tensors s'' !! i =
           deserialized_forward_tensors s' !! i) →
      synapse_codes s'' !! k = Some (decode_code r) →
      synapse_messages s'' !! k = Some (decode_message r) →
      deserialized_forward_tensors s'' !! k = Some (decoded_or_none r) →
      forward_decoding bt request n s (S k) s'') as Hstep.
    { intros s'' r Hr Hwf'' Hsyn'' Hlen'' Hsame Hc'' Hm'' Hi''.
      unfold forward_decoding. split_and!; try done.
      - intros i synapse Hi Hsi. destruct (decide (i = k)) as [->|Hne].
        + assert (synapse = syn) as -> by congruence. by rewrite Hr.
        + destruct (Hsame i Hne) as (-> & -> & ->). apply Hdone; [lia|done].
      - intros i Hi Hin. destruct (Hsame i) as (-> & -> & ->); [lia|].
        apply Htodo; lia. }
    unfold forward_decoded in Hstep.
    wp_step. unfold decode_handler.
    wp_steps; try solve [exfalso; simpl in *; lia];
      (eapply Hstep;
       [ repeat match goal with
         | Hq : tensors request !! k = _ |- _ => rewrite Hq; clear Hq
         | Hq : deserialize_forward_request_tensor _ _ _ = _ |- _ =>
             rewrite Hq; clear Hq
         end; reflexivity
       | solve [wf_tac]
       | simpl; done
       | simpl; rewrite ?length_insert; done
       | intros i Hi; simpl; lookup_tac; done
       | simpl; lookup_tac; simpl; congruence
       | simpl; lookup_tac; simpl; congruence
       | simpl; lookup_tac; simpl; congruence ]).
  - intros [] s' HJ. simpl in HJ. by rewrite Hn in HJ.
Qed.

Lemma backward_decode_detail n s :
  wf BACKWARD n s →
  synapse_codes s = (λ _, Success) <$> synapses s →
  synapse_messages s = (λ _, "Success") <$> synapses s →
  deserialized_forward_tensors s = (λ _, None) <$> synapses s →
  deserialized_forward_gradients s = (λ _, None) <$> synapses s →
  wp (backward_decode bt request) (λ _, backward_decoding bt request n s n) never s.
Proof.
  intros Hwf Hc Hm Hx Hg. unfold backward_decode. wp_steps.
  assert (length (synapses s) = n) as Hn by apply Hwf.
  eapply wp_mono;
    [apply (wp_for_enumerate (backward_decoding bt request n s) never) | | done].
  - unfold backward_decoding. rewrite Hx, length_fmap.
    split_and!; try done; try (intros; lia).
    intros i _ Hi. rewrite Hc, Hm, Hg, !list_lookup_fmap.
    destruct (synapses s !! i) eqn:Hsi; [done|].
    apply lookup_ge_None in Hsi. lia.
  - intros k syn s' Hk (Hwf' & Hsyn & Hlen & Hdone & Htodo).
    assert (k < n) as Hkn by (apply lookup_lt_Some in Hk; lia).
    destruct (Htodo k) as (Hck & Hmk & Hik & Hgk); [lia | done |].
    assert (length (synapse_codes s') = n ∧ length (synapse_messages s') = n ∧
            length (synapse_call_times s') = n ∧
            length (deserialized_forward_gradients s') = n)
      as (Hlc & Hlm & Hlt & Hlg)
      by (destruct Hwf' as (? & ? & ? & ? & ? & ? & ? & _); done).
    assert (∀ (s'' : Locals) r,
      backward_decoded bt request n k syn = r →
      wf BACKWARD n s'' → synapses s'' = synapses s →
      length (deserialized_forward_tensors s'') = n →
      (∀ i, i ≠ k →
         synapse_codes s'' !! i = synapse_codes s' !! i ∧
         synapse_messages s'' !! i = synapse_messages s' !! i ∧
         deserialized_forward_tensors s'' !! i =
           deserialized_forward_tensors s' !! i ∧
         deserialized_forward_gradients s'' !! i =
           deserialized_forward_gradients s' !! i) →
      synapse_codes s'' !! k = Some (decode_code r) →
      synapse_messages s'' !! k = Some (decode_message r) →
      deserialized_forward_tensors s'' !! k =
        Some (decoded_or_none (forward_decoded bt request k syn)) →
      deserialized_forward_gradients s'' !! k = Some (snd <$> decoded_or_none r) →
      backward_decoding bt request n s (S k) s'') as Hstep.
    { intros s'' r Hr Hwf'' Hsyn'' Hlen'' Hsame Hc'' Hm'' Hi'' Hg''.
      unfold backward_decoding. split_and!; try done.
      - intros i synapse Hi Hsi. destruct (decide (i = k)) as [->|Hne].
        + assert (synapse = syn) as -> by congruence. by rewrite Hr.
        + destruct (Hsame i Hne) as (-> & -> & -> & ->).
          apply Hdone; [lia|done].
      - intros i Hi Hin. destruct (Hsame i) as (-> & -> & -> & ->); [lia|].
        apply Htodo; lia. }
    unfold backward_decoded, forward_decoded in Hstep.
    rewrite Hn in *.
    wp_step. unfold decode_handler.
    wp_steps; try solve [exfalso; simpl in *; rewrite ?length_insert in *; lia];
      simpl in *;
      try solve [exfalso;
        match goal with
        | Hq : <[k:=_]> _ !! k = None |- _ =>
            rewrite list_lookup_insert_eq in Hq by lia; discriminate
        end];
      repeat match goal with
      | Hq : <[k:=_]> _ !! k = Some _ |- _ =>
          rewrite list_lookup_insert_eq in Hq by lia; injection Hq as <-
      end;
      (eapply Hstep;
       [ decode_rw; reflexivity
       | solve [wf_tac]
       | simpl; done
       | simpl; rewrite ?length_insert; done
       | intros i Hi; simpl; lookup_tac; done
       | decode_rw; simpl; lookup_tac; simpl; congruence
       | decode_rw; simpl; lookup_tac; simpl; congruence
       | decode_rw; simpl; lookup_tac; simpl; congruence
       | decode_rw; simpl; lookup_tac; simpl; congruence ]).
  - intros [] s' HJ. simpl in HJ. by rewrite Hn in HJ.
Qed.

End decode_detail.

Lemma const_replicate {A B} (l : list A) (y : B) :
  (λ _, y) <$> l = replicate (length l) y.
Proof. by apply const_fmap. Qed.

Ltac inputs_tac :=
  unfold same_inputs in *; simpl in *;
  repeat match goal with H : _ ∧ _ |- _ => destruct H end.

Section compute_detail.
Variable bt : Bittensor.
Variable self : Axon.
Variable request : Request.

(** [finalize_codes_stats_and_logs] with everything it keeps. *)
Lemma finalize_detail kind n s :
  wf kind n s →
  wp (finalize_codes_stats_and_logs bt self kind)
     (λ _ s', wf kind n s' ∧ same_outcomes s s' ∧ synapses s' = synapses s ∧
              history s' = history s ∧ future s' = future s ∧
              written_back s' ∧ same_inputs s s')
     never s.
Proof.
  intros Hwf.
  eapply wp_mono;
    [apply (wp_and _ _ _ _ _ _
              (finalize_spec bt self kind n [Log] s Hwf ltac:(kind_tac))
              (finalize_writes_back bt self kind n s Hwf)) | | ].
  - intros [] s'. cbv beta. tauto.
  - intros e s' [[] _].
Qed.

(** The loop that copies the codes and messages of the callback: it
    ends when the callback gave at least one of each per synapse, and
    raises [IndexError] otherwise. *)
Lemma fill_codes_detail kind n codes messages s :
  wf kind n s →
  wp (fill_codes codes messages)
     (λ _ s', wf kind n s' ∧ same_inputs s s' ∧ synapses s' = synapses s ∧
              history s' = history s ∧ future s' = future s ∧
              n ≤ length codes ∧ n ≤ length messages ∧
              synapse_codes s' = take n codes ∧
              synapse_messages s' = take n messages)
     (λ e s', e = IndexError ∧ wf kind n s' ∧ same_inputs s s' ∧
              synapses s' = synapses s ∧ history s' = history s ∧
              future s' = future s ∧
              ¬ (n ≤ length codes ∧ n ≤ length messages))
     s.
Proof.
  intros Hwf. unfold fill_codes. wp_steps.
  assert (length (synapses s) = n) as Hn by apply Hwf.
  set (J := λ (k : nat) (s' : Locals),
    wf kind n s' ∧ same_inputs s s' ∧ synapses s' = synapses s ∧
    history s' = history s ∧ future s' = future s ∧
    k ≤ length codes ∧ k ≤ length messages ∧
    take k (synapse_codes s') = take k codes ∧
    take k (synapse_messages s') = take k messages).
  eapply wp_mono; [apply (wp_for_enumerate J) | | intros e s' He; exact He].
  - unfold J, same_inputs. split_and!; try done; lia.
  - intros k x s' Hx (Hwf' & Hin & Hsyn & Hh & Hf & Hkc & Hkm & Hc & Hm).
    assert (k < n) as Hkn by (apply lookup_lt_Some in Hx; lia).
    assert (length (synapse_codes s') = n ∧ length (synapse_messages s') = n)
      as [Hlc Hlm] by (destruct Hwf' as (? & ? & ? & _); done).
    unfold J, same_inputs in *.
    wp_steps; try solve [exfalso; simpl in *; lia]; simpl in *;
      repeat match goal with
      | Hq : _ !! _ = None |- _ => apply lookup_ge_None in Hq
      | Hq : _ !! k = Some _ |- _ =>
          pose proof (lookup_lt_Some _ _ _ Hq); apply take_S_r in Hq
      end;
      split_and!; try done; try solve [wf_tac]; try lia;
      try (intros [? ?]; lia).
    + rewrite (take_S_r _ _ x0) by (by rewrite list_lookup_insert_eq by lia).
      rewrite take_insert_ge by lia. congruence.
    + rewrite (take_S_r _ _ x1) by (by rewrite list_lookup_insert_eq by lia).
      rewrite take_insert_ge by lia. congruence.
  - intros [] s' (Hwf' & Hin & Hsyn & Hh & Hf & Hkc & Hkm & Hc & Hm).
    cbv beta. rewrite Hn in *.
    assert (length (synapse_codes s') = n ∧ length (synapse_messages s') = n)
      as [Hlc Hlm] by (destruct Hwf' as (? & ? & ? & _); done).
    rewrite take_ge in Hc by lia. rewrite take_ge in Hm by lia.
    split_and!; done.
Qed.

(** The handlers of the compute stage give every synapse the code and
    the message of the exception and write them back; the only way out
    by an exception is the timeout handler of [_forward] reading
    [future] unbound. *)
Lemma compute_handler_detail {A} kind n e s :
  wf kind n s →
  wp (compute_handler (A := A) bt self kind e)
     (λ r s', (∃ early, r = inl early) ∧ wf kind n s' ∧
              synapses s' = synapses s ∧ written_back s' ∧ same_inputs s s' ∧
              synapse_codes s' = replicate n (handler_code e) ∧
              synapse_messages s' = replicate n (handler_message e) ∧
              ¬ (kind = FORWARD ∧ e = FuturesTimeoutError ∧
                 priority self ≠ None ∧ future s = None))
     (λ _ _, kind = FORWARD ∧ e = FuturesTimeoutError ∧
             priority self ≠ None ∧ future s = None) s.
Proof.
  intros Hwf.
  assert (length (synapses s) = n) as Hn by apply Hwf.
  set (escape := kind = FORWARD ∧ e = FuturesTimeoutError ∧
                 priority self ≠ None ∧ future s = None).
  assert (∀ s0, wf kind n s0 → synapses s0 = synapses s → same_inputs s s0 →
            ¬ escape →
            wp (set_every_outcome bt (handler_code e) (handler_message e) ;;
                checkpoint Compute ;;
                finalize_codes_stats_and_logs bt self kind ;;
                r ← return_empty (handler_code e); mret (inl r))
              (λ (r : Return + A) s',
                 (∃ early, r = inl early) ∧ wf kind n s' ∧
                 synapses s' = synapses s ∧ written_back s' ∧
                 same_inputs s s' ∧
                 synapse_codes s' = replicate n (handler_code e) ∧
                 synapse_messages s' = replicate n (handler_message e) ∧
                 ¬ escape)
              (λ _ _, escape) s0) as Hblock.
  { intros s0 Hwf0 Hsyn0 Hin0 Hne. unfold set_every_outcome. wp_steps.
    wp_apply (finalize_detail kind n)
      as [] s1 (Hwf1 & Hso & Hsyn & Hh & Hf & Hwb & Hin1);
      [solve [wf_tac] | | done].
    unfold return_empty. wp_steps.
    destruct Hso as (Hc & Hm & _). inputs_tac.
    rewrite Hc, Hm, Hsyn0, !const_replicate, Hn.
    split_and!; try done; try congruence. by eexists. }
  unfold compute_handler, timeout_handler, exception_handler.
  destruct e;
    try (apply Hblock; [done | done | done | intros (_ & ? & _); discriminate]).
  wp_step. destruct kind.
  - wp_steps.
    + apply Hblock; [solve [wf_tac] | done | done |].
      intros (_ & _ & _ & ?). congruence.
    + done.
    + apply Hblock; [done | done | done |].
      intros (_ & _ & ? & _). done.
  - wp_steps. apply Hblock; [done | done | done |].
    intros (? & _). discriminate.
Qed.

Ltac call_rw :=
  repeat match goal with
  | Hq : priority _ = _ |- context [priority _] => rewrite Hq
  | Hq : ?f (hotkey ?r) ?i ?k = _ |- context [?f (hotkey ?r) ?i ?k] =>
      rewrite Hq
  | Hq : priority_threadpool_submit ?a ?p = _
    |- context [priority_threadpool_submit ?a ?p] => rewrite Hq
  | Hq : forward_callback ?a ?i ?y ?h = _
    |- context [forward_callback ?a ?i ?y ?h] => rewrite Hq
  | Hq : backward_callback ?a ?i ?g ?y = _
    |- context [backward_callback ?a ?i ?g ?y] => rewrite Hq
  end.

Ltac early_tac :=
  first
  [ intros (? & ? & [? | (? & ? & ?)]); simplify_eq; congruence
  | split;
    [ intros (? & ? & [? | (? & ? & ?)]); simplify_eq;
      first [ congruence | split_and!; congruence ]
    | intros (? & ? & ?); simplify_eq;
      eexists; (split; [reflexivity|]);
      first [ left; congruence
            | right; eexists; split; [eassumption | congruence] ] ] ].

(** The compute stage of [_forward]: the codes and messages it leaves
    are the ones [filled] gives for the result of the callback on the
    decoded inputs; an exception leaves it exactly when the timeout
    error came before [future] was bound. *)
Lemma forward_compute_detail n s :
  wf FORWARD n s → future s = None →
  wp (forward_compute bt self request)
     (λ r s',
        same_inputs s s' ∧
        (synapse_codes s', synapse_messages s') =
          filled n (forward_call self request
                      (deserialized_forward_tensors s) (synapses s)) ∧
        ¬ timeout_before_future self request (deserialized_forward_tensors s) ∧
        match r with
        | inl _ => written_back s'
        | inr outs =>
            ∃ codes messages,
              forward_call self request
                (deserialized_forward_tensors s) (synapses s) =
                Ok (outs, codes, messages)
        end)
     (λ _ _, timeout_before_future self request
               (deserialized_forward_tensors s))
     s.
Proof.
  intros Hwf Hfut. unfold forward_compute. wp_step.
  set (call := forward_call self request
                 (deserialized_forward_tensors s) (synapses s)).
  set (early := timeout_before_future self request
                  (deserialized_forward_tensors s)).
  eapply wp_mono with
    (Q := λ r s', same_inputs s s' ∧
            (synapse_codes s', synapse_messages s') = filled n call ∧
            ¬ early ∧
            ∃ outs codes messages, r = inr outs ∧ call = Ok (outs, codes, messages))
    (E := λ e s', wf FORWARD n s' ∧ same_inputs s s' ∧
            filled n call =
              (replicate n (handler_code e), replicate n (handler_message e)) ∧
            (early ↔ e = FuturesTimeoutError ∧ priority self ≠ None ∧
                     future s' = None)).
  - wp_step.
    wp_apply (finalize_detail FORWARD n)
      as [] s1 (Hwf1 & Hso & Hsyn & Hh & Hf & Hwb & Hin1); [done | | done].
    destruct Hin1 as [Hx1 Hg1]. rewrite Hfut in Hf.
    assert (∀ (outs : CallbackResult) s2,
      wf FORWARD n s2 → same_inputs s s2 → synapses s2 = synapses s →
      call = Ok outs → ¬ early →
      wp (let '(forward_response_tensors, forward_codes, forward_messages) := outs in
          modify (set_synapse_is_response ((λ _, true) <$> synapses s1)) ;;
          fill_codes forward_codes forward_messages ;;
          checkpoint Compute ;;
          mret (inr forward_response_tensors))
         (λ (r : Return + list (option Tensor)) s',
            same_inputs s s' ∧
            (synapse_codes s', synapse_messages s') = filled n call ∧
            ¬ early ∧
            ∃ outs codes messages,
              r = inr outs ∧ call = Ok (outs, codes, messages))
         (λ e s', wf FORWARD n s' ∧ same_inputs s s' ∧
            filled n call =
              (replicate n (handler_code e), replicate n (handler_message e)) ∧
            (early ↔ e = FuturesTimeoutError ∧ priority self ≠ None ∧
                     future s' = None))
         s2) as Hrest.
    { intros [[ts cs] ms] s2 Hwf2 Hin2 Hsyn2 Hcall Hne. wp_steps.
      wp_apply (fill_codes_detail FORWARD n cs ms)
        as [] s3 (Hwf3 & Hin3 & Hsyn3 & Hh3 & Hf3 & Hlc & Hlm & Hc3 & Hm3);
        [solve [wf_tac] | | ].
      - wp_steps. inputs_tac.
        split_and!; try congruence.
        + rewrite Hcall. simpl. rewrite decide_True by done. congruence.
        + by eexists _, _, _.
      - destruct H as (-> & Hwf3 & Hin3 & Hsyn3 & Hh3 & Hf3 & Hshort).
        inputs_tac.
        split_and!; try done; try congruence.
        + rewrite Hcall. simpl. by rewrite decide_False by done.
        + split; [done | intros (? & _); discriminate]. }
    do 5 wp_step.
    eapply wp_mono with
      (Q := λ outs s2, wf FORWARD n s2 ∧ same_inputs s s2 ∧
                       synapses s2 = synapses s ∧ call = Ok outs ∧ ¬ early);
      [ | intros outs s2 (? & ? & ? & ? & ?); by apply Hrest
        | intros e s2 He; exact He ].
    unfold same_inputs. subst call early.
    unfold forward_call, timeout_before_future.
    wp_steps; simpl in *; rewrite ?Hx1, ?Hsyn in *; call_rw;
      split_and!; try done; try solve [wf_tac]; early_tac.
  - intros r s' (Hin & Hfill & Hne & outs & cs & ms & -> & Hcall).
    split_and!; try done. by eexists _, _.
  - intros e s1 (Hwf1 & Hin1 & Hfill & Hearly).
    wp_apply (compute_handler_detail FORWARD n e)
      as r s2 ((? & ->) & Hwf2 & Hsyn2 & Hwb & Hin2 & Hc & Hm & Hne);
      [done | | ].
    + inputs_tac. split_and!; try done; try congruence. tauto.
    + cbv beta in H. tauto.
Qed.

(** The compute stage of [_backward]; without a priority function the
    codes and messages are the ones of the callback. *)
Lemma backward_compute_detail n s :
  wf BACKWARD n s →
  wp (backward_compute bt self request)
     (λ r s',
        same_inputs s s' ∧
        (priority self = None →
         (synapse_codes s', synapse_messages s') =
           filled n (backward_callback self
                       (deserialized_forward_tensors s)
                       (deserialized_forward_gradients s) (synapses s))) ∧
        match r with
        | inl _ => written_back s'
        | inr _ => True
        end)
     never s.
Proof.
  intros Hwf. unfold backward_compute. wp_step.
  set (call := backward_callback self (deserialized_forward_tensors s)
                 (deserialized_forward_gradients s) (synapses s)).
  eapply wp_mono with
    (Q := λ r s', same_inputs s s' ∧
            (priority self = None →
             (synapse_codes s', synapse_messages s') = filled n call) ∧
            r = inr tt)
    (E := λ e s', wf BACKWARD n s' ∧ same_inputs s s' ∧
            (priority self = None →
             filled n call =
               (replicate n (handler_code e), replicate n (handler_message e)))).
  - wp_step.
    wp_apply (finalize_detail BACKWARD n)
      as [] s1 (Hwf1 & Hso & Hsyn & Hh & Hf & Hwb & Hin1); [done | | done].
    destruct Hin1 as [Hx1 Hg1].
    subst call. unfold same_inputs.
    wp_steps; simpl in *; rewrite ?Hx1, ?Hg1, ?Hsyn in *;
      try (split_and!; try done; try solve [wf_tac]; try congruence;
           intros _; by call_rw).
    wp_apply (fill_codes_detail BACKWARD n)
      as [] s3 (Hwf3 & Hin3 & Hsyn3 & Hh3 & Hf3 & Hlc & Hlm & Hc3 & Hm3);
      [solve [wf_tac] | | ].
    + wp_steps. inputs_tac.
      split_and!; try congruence.
      intros _. call_rw. simpl. rewrite decide_True by done. congruence.
    + destruct H as (-> & Hwf3 & Hin3 & Hsyn3 & Hh3 & Hf3 & Hshort).
      inputs_tac.
      split_and!; try done; try congruence.
      intros _. call_rw. simpl. by rewrite decide_False by done.
  - intros r s' (Hin & Hfill & ->). done.
  - intros e s1 (Hwf1 & Hin1 & Hfill).
    eapply wp_mono; [apply (compute_handler_detail BACKWARD n e); done | | ].
    + intros r s2 ((early & ->) & Hwf2 & Hsyn2 & Hwb & Hin2 & Hc & Hm).
      inputs_tac. split_and!; try done; try congruence.
      intros Hprio. rewrite Hfill by done. congruence.
    + intros ? ? [? _]. discriminate.
Qed.

End compute_detail.

(** * The default callbacks, proved *)

Lemma entrywise_append P synapses synapse r tensor code msg :
  entrywise P synapses r → P synapse tensor code msg →
  entrywise P (synapses ++ [synapse]) (append_response tensor code msg r).
Proof.
  intros (Ht & Hc & Hm & Hall) HP. unfold entrywise. simpl.
  rewrite !length_app. simpl. split_and!; try lia.
  intros i syn Hi. destruct (decide (i < length synapses)) as [Hlt|Hge].
  - rewrite lookup_app_l in Hi by done.
    destruct (Hall i syn Hi) as (t & c & m & ? & ? & ? & ?).
    exists t, c, m. rewrite !lookup_app_l by lia. done.
  - assert (i = length synapses) as ->.
    { apply lookup_lt_Some in Hi. rewrite length_app in Hi. simpl in Hi. lia. }
    rewrite lookup_app_r in Hi by lia. rewrite Nat.sub_diag in Hi.
    simpl in Hi. injection Hi as <-.
    exists tensor, code, msg.
    rewrite !lookup_app_r by lia. rewrite Ht, Hc, Hm, !Nat.sub_diag. done.
Qed.

Lemma entrywise_nil P : entrywise P [] no_responses.
Proof. unfold entrywise. simpl. split_and!; try done. Qed.

Lemma fold_enumerate_entrywise {State}
    (P : Synapse → option Tensor → ReturnCode → string → Prop)
    (body : nat → Synapse → State → State) (proj : State → Responses)
    done_ todo s :
  (∀ i synapse st, ∃ tensor code msg,
      proj (body i synapse st) = append_response tensor code msg (proj st) ∧
      P synapse tensor code msg) →
  entrywise P done_ (proj s) →
  entrywise P (done_ ++ todo)
    (proj (fold_enumerate body (length done_) todo s)).
Proof.
  intros Hbody. revert done_ s.
  induction todo as [|x todo IH]; intros done_ s Hs; simpl.
  - by rewrite app_nil_r.
  - replace (done_ ++ x :: todo) with ((done_ ++ [x]) ++ todo)
      by by rewrite <- app_assoc.
    replace (S (length done_)) with (length (done_ ++ [x]))
      by (rewrite length_app; simpl; lia).
    apply IH.
    destruct (Hbody (length done_) x s) as (t & c & m & -> & HP).
    by apply entrywise_append.
Qed.

Lemma default_forward_entries table inputs_x synapses hotkey :
  ∃ r,
    default_forward_callback table inputs_x synapses hotkey =
      Ok (response_tensors r, response_codes r, response_messages r) ∧
    entrywise (forward_default_entry table hotkey) synapses r.
Proof.
  unfold default_forward_callback.
  pose proof (fold_enumerate_entrywise (forward_default_entry table hotkey)
                (default_forward_step table inputs_x hotkey) fst [] synapses
                (no_responses, None)) as H.
  simpl in H.
  destruct (fold_enumerate _ 0 synapses _) as [r mo]. exists r.
  split; [done|]. apply H; [|apply entrywise_nil].
  intros i synapse [r0 mo0]. unfold default_forward_step, forward_default_entry.
  destruct (synapse_checks table synapse hotkey) as [[|]|e]; simpl;
    destruct (attached table synapse) as [cb|]; simpl;
    try (eexists _, _, _; split; [reflexivity|]; by eauto).
  destruct (inputs_x !! i) as [x|]; simpl;
    [destruct (call_with_model_output cb x synapse mo0) as [[[m mo'] t]|e]|];
    simpl; eexists _, _, _; (split; [reflexivity|]); eauto.
Qed.

Lemma default_backward_entries table inputs_x grads_dy synapses :
  match optimizer_step table with
  | Some (Raise e) =>
      default_backward_callback table inputs_x grads_dy synapses = Raise e
  | _ =>
      ∃ r,
        default_backward_callback table inputs_x grads_dy synapses =
          Ok (response_tensors r, response_codes r, response_messages r) ∧
        entrywise (backward_default_entry table) synapses r
  end.
Proof.
  unfold default_backward_callback.
  pose proof (fold_enumerate_entrywise (backward_default_entry table)
                (default_backward_step table inputs_x grads_dy) id [] synapses
                no_responses) as H.
  simpl in H.
  assert (entrywise (backward_default_entry table) synapses
            (fold_enumerate (default_backward_step table inputs_x grads_dy) 0
               synapses no_responses)) as Hent.
  { apply H; [|apply entrywise_nil].
    intros i synapse r0. unfold default_backward_step, backward_default_entry.
    destruct (attached table synapse) as [cb|]; simpl;
      [|eexists _, _, _; split; [reflexivity|]; by eauto].
    destruct (inputs_x !! i) as [x|]; simpl;
      [|eexists _, _, _; split; [reflexivity|]; by eauto].
    destruct (call_without_model_output cb x synapse) as [[[m mo'] t]|e]; simpl;
      [|eexists _, _, _; split; [reflexivity|]; by eauto].
    destruct (grads_dy !! i) as [dy|]; simpl;
      [|eexists _, _, _; split; [reflexivity|]; by eauto].
    destruct (autograd_backward table t dy) as [[]|e]; simpl;
      eexists _, _, _; (split; [reflexivity|]); eauto. }
  destruct (optimizer_step table) as [[[]|e]|]; [|done|]; by eexists.
Qed.

Lemma attached_attach callback ty table synapse :
  attached (attach_synapse_callback callback ty table) synapse =
    if decide (synapse_type synapse = ty) then Some callback
    else attached table synapse.
Proof.
  unfold attached, attach_synapse_callback. simpl.
  destruct (decide (synapse_type synapse = ty)) as [->|Hne].
  - by rewrite lookup_insert_eq.
  - by rewrite lookup_insert_ne.
Qed.

Lemma fold_enumerate_ext {A State} (f g : nat → A → State → State) start l s :
  (∀ i x st, x ∈ l → f i x st = g i x st) →
  fold_enumerate f start l s = fold_enumerate g start l s.
Proof.
  revert start s. induction l as [|x l IH]; intros start s H; simpl; [done|].
  rewrite H by apply list_elem_of_here.
  apply IH. intros i y st Hy. apply H. by apply list_elem_of_further.
Qed.

Section decode_lists.
Variable bt : Bittensor.
Variable request : Request.

Lemma forward_decoding_lists n s s' :
  length (synapses s) = n → forward_decoding bt request n s n s' →
  synapse_codes s' = forward_decode_codes bt request (synapses s) ∧
  synapse_messages s' = forward_decode_messages bt request (synapses s) ∧
  deserialized_forward_tensors s' = forward_inputs bt request (synapses s).
Proof.
  intros Hn (Hwf & Hsyn & Hlen & Hdone & _).
  assert (length (synapse_codes s') = n ∧ length (synapse_messages s') = n)
    as [Hlc Hlm] by (destruct Hwf as (? & ? & ? & _); done).
  unfold forward_decode_codes, forward_decode_messages, forward_inputs.
  split_and!; apply list_eq; intros i; rewrite list_lookup_imap;
    (destruct (synapses s !! i) as [synapse|] eqn:Hi; simpl;
     [ apply lookup_lt_Some in Hi as Hlt;
       destruct (Hdone i synapse) as (? & ? & ?); [lia | done | done]
     | apply lookup_ge_None in Hi; apply lookup_ge_None; lia ]).
Qed.

Lemma backward_decoding_lists n s s' :
  length (synapses s) = n → backward_decoding bt request n s n s' →
  synapse_codes s' = backward_decode_codes bt request (synapses s) ∧
  synapse_messages s' = backward_decode_messages bt request (synapses s) ∧
  deserialized_forward_tensors s' = forward_inputs bt request (synapses s) ∧
  deserialized_forward_gradients s' =
    backward_gradients bt request (synapses s).
Proof.
  intros Hn (Hwf & Hsyn & Hlen & Hdone & _).
  assert (length (synapse_codes s') = n ∧ length (synapse_messages s') = n ∧
          length (deserialized_forward_gradients s') = n)
    as (Hlc & Hlm & Hlg)
    by (destruct Hwf as (? & ? & ? & ? & ? & ? & ? & _); done).
  unfold backward_decode_codes, backward_decode_messages, forward_inputs,
    backward_gradients.
  rewrite Hn.
  split_and!; apply list_eq; intros i; rewrite list_lookup_imap;
    (destruct (synapses s !! i) as [synapse|] eqn:Hi; simpl;
     [ apply lookup_lt_Some in Hi as Hlt;
       destruct (Hdone i synapse) as (? & ? & ? & ?); [lia | done | done]
     | apply lookup_ge_None in Hi; apply lookup_ge_None; lia ]).
Qed.

End decode_lists.

Section details.
Variable bt : Bittensor.
Variable self : Axon.
Variable request : Request.

Variable syns : list Synapse.

Let n := length (request_wire_synapses request).

(** A call-wide failure ends with the write-back. *)
Lemma fail_block_detail {A} kind stage code msg (rest : M A) Q E s :
  wf kind n s →
  (∀ s', wf kind n s' → written_back s' → synapses s' = synapses s →
         history s' = history s ++ [(stage, snapshot s')] → wp rest Q E s') →
  wp (set_every_outcome bt code msg ;; checkpoint stage ;;
      finalize_codes_stats_and_logs bt self kind ;; rest) Q E s.
Proof.
  intros Hwf Hrest. unfold set_every_outcome. wp_steps.
  wp_apply (finalize_detail bt self kind n)
    as [] s1 (Hwf' & Hso & Hsyn & Hh & Hf & Hwb & Hin);
    [solve [wf_tac] | | done].
  apply Hrest; try done.
  rewrite Hh. simpl. by rewrite (same_outcomes_snapshot _ _ Hso).
Qed.

Ltac stage_tac :=
  intros ? ?; history_tac; simpl in *; history_tac;
  try discriminate; simplify_eq.

Lemma forward_detail_wp :
  deserialize_synapses bt (request_wire_synapses request) = Ok syns →
  wp (_forward bt self request)
     (λ _ s, written_back s ∧ forward_detail bt self request syns s ∧
             ¬ forward_escapes bt self request syns)
     (λ _ s, forward_detail bt self request syns s ∧
             forward_escapes bt self request syns)
     (no_locals request).
Proof.
  intros Hsyns.
  set (s0 := init_locals bt request FORWARD syns).
  assert (wf FORWARD n s0) as Hwf0 by by apply init_locals_wf.
  assert (synapses s0 = syns) as Hsyn0 by done.
  assert (history s0 = []) as Hh0 by done.
  assert (future s0 = None) as Hf0 by done.
  assert (synapse_codes s0 = (λ _, Success) <$> synapses s0) as Hc0 by done.
  assert (synapse_messages s0 = (λ _, "Success") <$> synapses s0) as Hm0
    by done.
  assert (success_msg s0) as Hsm0.
  { intros i. unfold s0. simpl. rewrite !list_lookup_fmap.
    by destruct (_ !! i). }
  assert (length syns = n) as Hn
    by by apply (deserialize_synapses_length bt).
  assert (length (synapses s0) = n) as Hn' by apply Hwf0.
  unfold forward_detail, forward_escapes. rewrite Hn.
  unfold _forward. apply wp_bind, wp_call. rewrite Hsyns.
  apply wp_bind, wp_modify. cbv beta. fold s0.
  clearbody s0. wp_step. wp_step. wp_step.
  { apply (fail_block_detail FORWARD Validate); [solve [wf_tac]|].
    intros s' Hwf Hwb Hsyn Hh. simpl in Hh. rewrite Hh0 in Hh.
    unfold return_empty. wp_steps.
    split; [done|]. split; [split; stage_tac|]. lia. }
  wp_step. wp_step. wp_step.
  { apply (fail_block_detail FORWARD Validate); [solve [wf_tac]|].
    intros s' Hwf Hwb Hsyn Hh. simpl in Hh. rewrite Hh0 in Hh.
    unfold return_empty. wp_steps.
    split; [done|]. split; [split; stage_tac|]. simpl in *. lia. }
  assert (length (tensors request) = n ∧ n ≠ 0) as [Hlen Hn0].
  { simpl in *. lia. }
  wp_step. wp_step.
  match goal with |- wp _ _ _ ?st => set (s1 := st) end.
  assert (wf FORWARD n s1) as Hwf1 by (subst s1; wf_tac).
  assert (synapses s1 = syns) as Hsyn1 by done.
  assert (history s1 = [(Init, snapshot s0); (Validate, snapshot s0)]) as Hh1
    by (subst s1; simpl; by rewrite Hh0).
  assert (future s1 = None) as Hf1 by done.
  assert (synapse_codes s1 = (λ _, Success) <$> synapses s1) as Hc1 by done.
  assert (synapse_messages s1 = (λ _, "Success") <$> synapses s1) as Hm1
    by done.
  assert (success_msg s1) as Hsm1 by done.
  clearbody s1. clear Hwf0 Hh0 Hf0 Hc0 Hm0 Hsm0 Hsyn0 Hn'.
  wp_step.
  eapply wp_mono;
    [ apply (wp_and _ _ _ _ _ _
               (forward_decode_spec bt request n [Log; DecodeCall] s1 Hwf1
                  ltac:(kind_tac) Hsm1)
               (forward_decode_detail bt request n s1 Hwf1 Hc1 Hm1))
    | | intros ? ? [[] _] ].
  intros [] s2 ((Hwf2 & Hh2 & Hf2 & Hr2 & Hem2 & Hsm2) & Hdec). cbv beta.
  assert (synapses s2 = syns) as Hsyn2
    by (destruct Hdec as (_ & -> & _); done).
  apply forward_decoding_lists in Hdec; [|by apply Hwf1].
  rewrite Hsyn1 in Hdec. destruct Hdec as (Hc2 & Hm2 & Hx2).
  clear Hem2 Hsm2 Hc1 Hm1 Hsm1.
  wp_step. wp_step. wp_step. unfold check_if_should_return. wp_step.
  match goal with |- context [all_codes_non_success ?c] =>
    destruct (all_codes_non_success c) eqn:Hstop2 end;
    simpl in Hstop2; rewrite Hc2 in Hstop2.
  { wp_step.
    wp_apply (finalize_detail bt self FORWARD n)
      as [] s3 (Hwf3 & Hso3 & Hsyn3 & Hh3 & Hf3 & Hwb3 & Hin3);
      [solve [wf_tac] | | done].
    simpl in Hh3. rewrite Hh2, Hh1 in Hh3. simpl in Hh3.
    unfold return_first_code, return_empty.
    destruct (first_code_exists FORWARD n s3 Hwf3) as [code Hcode]; [lia|].
    wp_steps; [|congruence].
    split; [done|]. split; [split; stage_tac; done|].
    intros (_ & _ & ? & _). congruence. }
  match goal with |- wp _ _ _ ?st => set (s3 := st) in * end.
  assert (wf FORWARD n s3) as Hwf3 by (subst s3; wf_tac).
  assert (synapses s3 = syns) as Hsyn3 by done.
  assert (history s3 = [(Init, snapshot s0); (Validate, snapshot s0);
                        (Decode, snapshot s2)]) as Hh3
    by (subst s3; simpl; by rewrite Hh2, Hh1).
  assert (future s3 = None) as Hf3 by (subst s3; simpl; congruence).
  assert (deserialized_forward_tensors s3 = forward_inputs bt request syns)
    as Hx3 by done.
  assert (snap_codes (snapshot s2) = forward_decode_codes bt request syns ∧
          snap_messages (snapshot s2) =
            forward_decode_messages bt request syns) as Hpd by done.
  set (pd := snapshot s2) in *.
  clearbody s3 pd. clear dependent s2. clear dependent s1.
  wp_step.
  eapply wp_mono;
    [ apply (wp_and _ _ _ _ _ _
               (forward_compute_spec bt self request n
                  [Log; DecodeCall; ComputeCall] s3 Hwf3
                  ltac:(kind_tac) ltac:(kind_tac) Hf3)
               (forward_compute_detail bt self request n s3 Hwf3 Hf3))
    | | ].
  2: { intros e s4
         ((-> & Hprio & (Hwf4 & Hsyn4 & Hh4 & Hf4 & Hem4) & Hso4) & Hearly).
       rewrite Hh3 in Hh4. rewrite Hx3 in Hearly.
       split; [split; stage_tac; done|]. done. }
  intros r s4
    (((Hwf4 & Hsyn4 & Hh4 & Hem4) & Hr4) & Hin4 & Hfill & Hearly & Hr4').
  cbv beta. rewrite Hx3, Hsyn3 in Hfill. rewrite Hx3 in Hearly.
  rewrite Hh3 in Hh4. simpl in Hh4.
  assert ((snap_codes (snapshot s4), snap_messages (snapshot s4)) =
            filled n (forward_call self request
                        (forward_inputs bt request syns) syns)) as Hpc
    by done.
  set (pc := snapshot s4) in *. clearbody pc.
  destruct r as [early|outs].
  { wp_step. split; [done|]. split; [split; stage_tac; done|]. tauto. }
  wp_step.
  wp_apply (forward_encode_spec bt n
              [Log; DecodeCall; ComputeCall; SerializeCall; WireCall])
    as [] s5 ((Hwf5 & Hsyn5 & Hh5 & Hf5 & Hem5) & Hr5 & Hcond5);
    [done | kind_tac | kind_tac | | done].
  rewrite Hh4 in Hh5.
  wp_step. wp_step. wp_step. wp_step.
  match goal with |- context [all_codes_non_success ?c] =>
    destruct (all_codes_non_success c) eqn:Hstop5 end.
  { wp_step.
    wp_apply (finalize_detail bt self FORWARD n)
      as [] s6 (Hwf6 & Hso6 & Hsyn6 & Hh6 & Hf6 & Hwb6 & Hin6);
      [solve [wf_tac] | | done].
    simpl in Hh6. rewrite Hh5 in Hh6. simpl in Hh6.
    unfold return_first_code, return_empty.
    destruct (first_code_exists FORWARD n s6 Hwf6) as [code Hcode]; [lia|].
    wp_steps; [|congruence].
    split; [done|]. split; [split; stage_tac; done|]. tauto. }
  wp_step.
  wp_apply (set_return_times_spec bt FORWARD n [Log])
    as [] s6 ((Hwf6 & Hsyn6 & Hh6 & Hf6 & Hem6) & Hc6 & Hm6 & Hr6);
    [solve [wf_tac] | | done].
  simpl in Hh6. rewrite Hh5 in Hh6. simpl in Hh6.
  wp_step. wp_step. wp_step.
  wp_apply (finalize_detail bt self FORWARD n)
    as [] s7 (Hwf7 & Hso7 & Hsyn7 & Hh7 & Hf7 & Hwb7 & Hin7);
    [solve [wf_tac] | | done].
  simpl in Hh7. rewrite Hh6 in Hh7. simpl in Hh7.
  wp_steps. split; [done|]. split; [split; stage_tac; done|]. tauto.
Qed.

Lemma backward_detail_wp :
  deserialize_synapses bt (request_wire_synapses request) = Ok syns →
  wp (_backward bt self request)
     (λ _ s, written_back s ∧ backward_detail bt self request syns s)
     never
     (no_locals request).
Proof.
  intros Hsyns.
  set (s0 := init_locals bt request BACKWARD syns).
  assert (wf BACKWARD n s0) as Hwf0 by by apply init_locals_wf.
  assert (synapses s0 = syns) as Hsyn0 by done.
  assert (history s0 = []) as Hh0 by done.
  assert (synapse_codes s0 = (λ _, Success) <$> synapses s0) as Hc0 by done.
  assert (synapse_messages s0 = (λ _, "Success") <$> synapses s0) as Hm0
    by done.
  assert (deserialized_forward_tensors s0 = (λ _, None) <$> synapses s0)
    as Hx0 by done.
  assert (deserialized_forward_gradients s0 = (λ _, None) <$> synapses s0)
    as Hg0 by done.
  assert (success_msg s0) as Hsm0.
  { intros i. unfold s0. simpl. rewrite !list_lookup_fmap.
    by destruct (_ !! i). }
  assert (length syns = n) as Hn
    by by apply (deserialize_synapses_length bt).
  unfold backward_detail. rewrite Hn.
  unfold _backward. apply wp_bind, wp_call. rewrite Hsyns.
  apply wp_bind, wp_modify. cbv beta. fold s0.
  clearbody s0. wp_step. wp_step. wp_step.
  { apply (fail_block_detail BACKWARD Validate); [solve [wf_tac]|].
    intros s' Hwf Hwb Hsyn Hh. simpl in Hh. rewrite Hh0 in Hh.
    unfold return_empty. wp_steps.
    split; [done|]. split; [stage_tac | intros _; stage_tac]. }
  wp_step.
  { apply (fail_block_detail BACKWARD Validate); [solve [wf_tac]|].
    intros s' Hwf Hwb Hsyn Hh. simpl in Hh. rewrite Hh0 in Hh.
    unfold return_empty. wp_steps.
    split; [done|]. split; [stage_tac | intros _; stage_tac]. }
  wp_step. wp_step. wp_step.
  { apply (fail_block_detail BACKWARD Validate); [solve [wf_tac]|].
    intros s' Hwf Hwb Hsyn Hh. simpl in Hh. rewrite Hh0 in Hh.
    unfold return_empty. wp_steps.
    split; [done|]. split; [stage_tac | intros _; stage_tac]. }
  assert (n ≠ 0) as Hn0.
  { assert (length (synapses s0) = n) by apply Hwf0. simpl in *. lia. }
  wp_step. wp_step.
  match goal with |- wp _ _ _ ?st => set (s1 := st) end.
  assert (wf BACKWARD n s1) as Hwf1 by (subst s1; wf_tac).
  assert (synapses s1 = syns) as Hsyn1 by done.
  assert (history s1 = [(Init, snapshot s0); (Validate, snapshot s0)]) as Hh1
    by (subst s1; simpl; by rewrite Hh0).
  assert (synapse_codes s1 = (λ _, Success) <$> synapses s1) as Hc1 by done.
  assert (synapse_messages s1 = (λ _, "Success") <$> synapses s1) as Hm1
    by done.
  assert (deserialized_forward_tensors s1 = (λ _, None) <$> synapses s1)
    as Hx1 by done.
  assert (deserialized_forward_gradients s1 = (λ _, None) <$> synapses s1)
    as Hg1 by done.
  assert (success_msg s1) as Hsm1 by done.
  clearbody s1. clear Hwf0 Hh0 Hc0 Hm0 Hx0 Hg0 Hsm0 Hsyn0.
  wp_step.
  eapply wp_mono;
    [ apply (wp_and _ _ _ _ _ _
               (backward_decode_spec bt request n [Log; DecodeCall] s1 Hwf1
                  ltac:(kind_tac) Hsm1)
               (backward_decode_detail bt request n s1 Hwf1 Hc1 Hm1 Hx1 Hg1))
    | | intros ? ? [[] _] ].
  intros [] s2 ((Hwf2 & Hh2 & Hf2 & Hr2 & Hem2 & Hsm2) & Hdec). cbv beta.
  assert (synapses s2 = syns) as Hsyn2
    by (destruct Hdec as (_ & -> & _); done).
  apply backward_decoding_lists in Hdec; [|by apply Hwf1].
  rewrite Hsyn1 in Hdec. destruct Hdec as (Hc2 & Hm2 & Hx2 & Hg2).
  clear Hem2 Hsm2 Hc1 Hm1 Hx1 Hg1 Hsm1.
  wp_step. wp_step. wp_step. unfold check_if_should_return. wp_step.
  match goal with |- context [all_codes_non_success ?c] =>
    destruct (all_codes_non_success c) eqn:Hstop2 end.
  { wp_step.
    wp_apply (finalize_detail bt self BACKWARD n)
      as [] s3 (Hwf3 & Hso3 & Hsyn3 & Hh3 & Hf3 & Hwb3 & Hin3);
      [solve [wf_tac] | | done].
    simpl in Hh3. rewrite Hh2, Hh1 in Hh3. simpl in Hh3.
    unfold return_first_code, return_empty.
    destruct (first_code_exists BACKWARD n s3 Hwf3) as [code Hcode]; [lia|].
    wp_steps; [|congruence].
    split; [done|]. split; [stage_tac | intros _; stage_tac]. done. }
  match goal with |- wp _ _ _ ?st => set (s3 := st) in * end.
  assert (wf BACKWARD n s3) as Hwf3 by (subst s3; wf_tac).
  assert (synapses s3 = syns) as Hsyn3 by done.
  assert (history s3 = [(Init, snapshot s0); (Validate, snapshot s0);
                        (Decode, snapshot s2)]) as Hh3
    by (subst s3; simpl; by rewrite Hh2, Hh1).
  assert (deserialized_forward_tensors s3 = forward_inputs bt request syns)
    as Hx3 by done.
  assert (deserialized_forward_gradients s3 =
            backward_gradients bt request syns) as Hg3 by done.
  assert (snap_codes (snapshot s2) = backward_decode_codes bt request syns ∧
          snap_messages (snapshot s2) =
            backward_decode_messages bt request syns) as Hpd by done.
  set (pd := snapshot s2) in *.
  clearbody s3 pd. clear dependent s2. clear dependent s1.
  wp_step.
  eapply wp_mono;
    [ apply (wp_and _ _ _ _ _ _
               (backward_compute_spec bt self request n
                  [Log; DecodeCall; ComputeCall] s3 Hwf3
                  ltac:(kind_tac) ltac:(kind_tac))
               (backward_compute_detail bt self request n s3 Hwf3))
    | | intros ? ? [[] _] ].
  intros r s4 (((Hwf4 & Hsyn4 & Hh4 & Hem4) & Hr4) & Hin4 & Hfill & Hr4').
  cbv beta. rewrite Hx3, Hg3, Hsyn3 in Hfill. rewrite Hh3 in Hh4.
  simpl in Hh4.
  assert (priority self = None →
          (snap_codes (snapshot s4), snap_messages (snapshot s4)) =
            filled n (backward_callback self (forward_inputs bt request syns)
                        (backward_gradients bt request syns) syns)) as Hpc
    by done.
  set (pc := snapshot s4) in *. clearbody pc.
  destruct r as [early|[]].
  { wp_step. split; [done|]. split; [|intros Hprio]; stage_tac; auto. }
  wp_step. wp_step.
  match goal with |- context [all_codes_non_success ?c] =>
    destruct (all_codes_non_success c) eqn:Hstop4 end.
  { wp_step.
    wp_apply (finalize_detail bt self BACKWARD n)
      as [] s5 (Hwf5 & Hso5 & Hsyn5 & Hh5 & Hf5 & Hwb5 & Hin5);
      [solve [wf_tac] | | done].
    simpl in Hh5. rewrite Hh4 in Hh5. simpl in Hh5.
    unfold return_first_code, return_empty.
    destruct (first_code_exists BACKWARD n s5 Hwf5) as [code Hcode]; [lia|].
    wp_steps; [|congruence].
    split; [done|]. split; [|intros Hprio]; stage_tac; auto. }
  wp_step.
  wp_apply (set_return_times_spec bt BACKWARD n [Log])
    as [] s5 ((Hwf5 & Hsyn5 & Hh5 & Hf5 & Hem5) & Hc5 & Hm5 & Hr5);
    [solve [wf_tac] | | done].
  simpl in Hh5. rewrite Hh4 in Hh5. simpl in Hh5.
  wp_step. wp_step. wp_step.
  wp_apply (finalize_detail bt self BACKWARD n)
    as [] s6 (Hwf6 & Hso6 & Hsyn6 & Hh6 & Hf6 & Hwb6 & Hin6);
    [solve [wf_tac] | | done].
  simpl in Hh6. rewrite Hh5 in Hh6. simpl in Hh6.
  unfold return_empty. wp_steps.
  split; [done|]. split; [|intros Hprio]; stage_tac; auto.
Qed.

End details.

Section run_details.
Variable bt : Bittensor.
Variable self : Axon.
Variable request : Request.
Variable syns : list Synapse.

Lemma forward_details :
  deserialize_synapses bt (request_wire_synapses request) = Ok syns →
  forward_detail bt self request syns (run bt self request FORWARD).1 ∧
  match (run bt self request FORWARD).2 with
  | Ok _ => written_back (run bt self request FORWARD).1 ∧
            ¬ forward_escapes bt self request syns
  | Raise _ => forward_escapes bt self request syns
  end.
Proof.
  intros Hsyns.
  pose proof (forward_detail_wp bt self request syns Hsyns) as H.
  unfold wp in H.
  unfold run. destruct (_forward _ _ _ _) as [s [r|e]]; simpl in *;
    [destruct H as (? & ? & ?) | destruct H as (? & ?)]; done.
Qed.

Lemma backward_details :
  deserialize_synapses bt (request_wire_synapses request) = Ok syns →
  backward_detail bt self request syns (run bt self request BACKWARD).1 ∧
  written_back (run bt self request BACKWARD).1.
Proof.
  intros Hsyns.
  pose proof (backward_detail_wp bt self request syns Hsyns) as H.
  unfold wp in H.
  unfold run. destruct (_backward _ _ _ _) as [s [r|e]]; simpl in *;
    [by destruct H as (? & ?) | done].
Qed.

Lemma timeout_before_future_call inputs_x :
  timeout_before_future self request inputs_x →
  forward_call self request inputs_x syns = Raise FuturesTimeoutError.
Proof.
  intros (pf & Hp & [Hr | (p & Hr & Hs)]); unfold forward_call;
    rewrite Hp, Hr; [done|]. by rewrite Hs.
Qed.

End run_details.

Ltac in_history :=
  match goal with
  | Hh : history ?s = _ |- _ ∈ history ?s =>
      rewrite Hh;
      repeat first [ apply list_elem_of_here | apply list_elem_of_further ]
  end.

Lemma replicate_all_codes_non_success n code :
  code ≠ Success → all_codes_non_success (replicate n code) = true.
Proof.
  intros Hne. induction n as [|n IH]; simpl; [done|].
  by rewrite decide_False.
Qed.

(** * The stages, outcome by outcome *)

(** The Decode stage of [_forward] gives each synapse the code and the
    message of what decoding its payload did: [Success] when it
    decoded, [RequestShapeException] on a [ValueError],
    [RequestDeserializationException] on any other exception, also on
    the [IndexError] of a missing payload. *)
Theorem forward_decode_outcomes bt self request syns pd index synapse :
  deserialize_synapses bt (request_wire_synapses request) = Ok syns →
  (Decode, pd) ∈ history (run bt self request FORWARD).1 →
  syns !! index = Some synapse →
  snap_codes pd !! index =
    Some (decode_code (forward_decoded bt request index synapse)) ∧
  snap_messages pd !! index =
    Some (decode_message (forward_decoded bt request index synapse)).
Proof.
  intros Hsyns Hpd Hw.
  destruct (forward_details bt self request syns Hsyns) as [[Hdec _] _].
  destruct (Hdec pd Hpd) as [-> ->].
  unfold forward_decode_codes, forward_decode_messages.
  by rewrite !list_lookup_imap, Hw.
Qed.

(** The Decode stage of [_backward] decodes for each synapse the input
    payload and, when that one decoded, the gradient payload found one
    synapse count further; the code and message are the ones of the
    first of the two that failed. *)
Theorem backward_decode_outcomes bt self request syns pd index synapse :
  deserialize_synapses bt (request_wire_synapses request) = Ok syns →
  (Decode, pd) ∈ history (run bt self request BACKWARD).1 →
  syns !! index = Some synapse →
  snap_codes pd !! index =
    Some (decode_code
            (backward_decoded bt request (length syns) index synapse)) ∧
  snap_messages pd !! index =
    Some (decode_message
            (backward_decoded bt request (length syns) index synapse)).
Proof.
  intros Hsyns Hpd Hw.
  destruct (backward_details bt self request syns Hsyns) as [[Hdec _] _].
  destruct (Hdec pd Hpd) as [-> ->].
  unfold backward_decode_codes, backward_decode_messages.
  by rewrite !list_lookup_imap, Hw.
Qed.

(** The compute stage of [_forward] leaves the codes and messages the
    callback gave for the decoded inputs, also on the synapses whose
    payload did not decode; when the callback gave fewer than one per
    synapse, or raised, every synapse gets the code and the message of
    the exception. *)
Theorem forward_compute_outcomes bt self request syns pc :
  deserialize_synapses bt (request_wire_synapses request) = Ok syns →
  (Compute, pc) ∈ history (run bt self request FORWARD).1 →
  (snap_codes pc, snap_messages pc) =
    filled (length syns)
      (forward_call self request (forward_inputs bt request syns) syns).
Proof.
  intros Hsyns Hpc.
  destruct (forward_details bt self request syns Hsyns) as [[_ Hcomp] _].
  by apply Hcomp.
Qed.

(** The same for [_backward] without a priority function: the callback
    gets the decoded inputs and the decoded gradients. *)
Theorem backward_compute_outcomes bt self request syns pc :
  deserialize_synapses bt (request_wire_synapses request) = Ok syns →
  priority self = None →
  (Compute, pc) ∈ history (run bt self request BACKWARD).1 →
  (snap_codes pc, snap_messages pc) =
    filled (length syns)
      (backward_callback self (forward_inputs bt request syns)
         (backward_gradients bt request syns) syns).
Proof.
  intros Hsyns Hprio Hpc.
  destruct (backward_details bt self request syns Hsyns) as [[_ Hcomp] _].
  by apply Hcomp.
Qed.


(** When a call returns, each descriptor of [request.synapses] carries
    the code and the message of its synapse; [_backward], and
    [_forward] with a code other than [Success], hand these
    descriptors back. *)
Theorem returned_synapses_carry_outcomes bt self request kind payloads code wires :
  let s := (run bt self request kind).1 in
  (run bt self request kind).2 = Ok (payloads, code, wires) →
  (kind = BACKWARD ∨ code ≠ Success → wires = request_synapses s) ∧
  ∀ index w, request_synapses s !! index = Some w →
    synapse_codes s !! index = Some (return_code w) ∧
    synapse_messages s !! index = Some (message w).
Proof.
  intros s Hres. subst s. decoded_tac syns Hsyns. destruct kind.
  - destruct (forward_details bt self request syns Hsyns) as [_ Hret].
    destruct (forward_runs bt self request syns Hsyns) as [_ Hrun].
    rewrite Hres in Hret, Hrun. destruct Hret as [Hwb _].
    split; [|exact Hwb].
    intros [?|Hcode]; [done|].
    inversion Hrun; subst; done.
  - destruct (backward_details bt self request syns Hsyns) as [_ Hwb].
    destruct (backward_runs bt self request syns Hsyns)
      as (_ & c & Hret & _).
    split; [|exact Hwb]. intros _. congruence.
Qed.

(** A callback that hands back fewer codes or fewer messages than the
    request has synapses fails the whole call: the copy loop runs out
    of range, and every synapse gets [UnknownException] with the
    message of the [IndexError]. *)
Theorem forward_short_callback bt self request syns outs codes messages :
  let s := (run bt self request FORWARD).1 in
  deserialize_synapses bt (request_wire_synapses request) = Ok syns →
  length (tensors request) = length syns → length syns ≠ 0 →
  all_codes_non_success (forward_decode_codes bt request syns) = false →
  forward_call self request (forward_inputs bt request syns) syns =
    Ok (outs, codes, messages) →
  length codes < length syns ∨ length messages < length syns →
  (run bt self request FORWARD).2 =
    Ok ([], UnknownException, request_synapses s) ∧
  synapse_codes s = replicate (length syns) UnknownException ∧
  synapse_messages s = replicate (length syns) "list index out of range".
Proof.
  intros s Hsyns Hlen Hn0 Hdec Hcall Hshort. subst s.
  destruct (forward_details bt self request syns Hsyns) as [[Hd Hc] Hret].
  destruct (forward_runs bt self request syns Hsyns) as [Hwf Hrun].
  assert (length syns = length (request_wire_synapses request)) as Hn
    by by apply (deserialize_synapses_length bt).
  assert (∀ pd, (Decode, pd) ∈ history (run bt self request FORWARD).1 →
                all_codes_non_success (snap_codes pd) = false) as HA.
  { intros pd Hpd. destruct (Hd pd Hpd) as [-> _]. done. }
  assert (∀ pc, (Compute, pc) ∈ history (run bt self request FORWARD).1 →
                snap_codes pc = replicate (length syns) UnknownException ∧
                snap_messages pc =
                  replicate (length syns) "list index out of range") as HB.
  { intros pc Hpc. specialize (Hc pc Hpc). rewrite Hcall in Hc. simpl in Hc.
    rewrite decide_False in Hc by lia. by injection Hc as -> ->. }
  clear Hd Hc.
  destruct (run bt self request FORWARD) as [s r]. simpl in *.
  inversion Hrun; subst; try lia.
  - exfalso.
    assert (all_codes_non_success (snap_codes (snapshot s)) = false)
      by (apply HA; in_history). congruence.
  - destruct (HB (snapshot s)) as [Hcs Hms]; [in_history|]. simpl in *.
    assert (code = UnknownException) as ->; [|done].
    match goal with Hu : uniform _ s |- _ =>
      destruct Hu as (msg & t & Hcs' & _) end.
    rewrite Hcs in Hcs'.
    destruct (length syns) eqn:Hl; [done|].
    destruct (synapses s); simpl in *; congruence.
  - exfalso. destruct Hret as (_ & _ & _ & Hearly).
    apply (timeout_before_future_call _ _ syns) in Hearly. congruence.
  - destruct (HB pc) as [Hcs Hms]; [in_history|].
    match goal with H : all_codes_non_success (snap_codes pc) = true → _ |- _ =>
      destruct H as [<- _];
        [rewrite Hcs; by apply replicate_all_codes_non_success|] end.
    simpl in *. split_and!; try done.
    match goal with H : synapse_codes s !! 0 = Some _ |- _ =>
      rewrite Hcs in H; destruct (length syns); [done|];
      simpl in H; by injection H as <- end.
  - exfalso. destruct (HB pc) as [Hcs Hms]; [in_history|].
    match goal with H : all_codes_non_success (snap_codes pc) = false |- _ =>
      rewrite Hcs, replicate_all_codes_non_success in H by done end.
    done.
Qed.


(** A forward call hands back payloads exactly when its overall code
    is [Success], and then one payload per synapse of the request. *)
Theorem forward_payloads_iff_success bt self request payloads code wires :
  (run bt self request FORWARD).2 = Ok (payloads, code, wires) →
  (payloads = [] ↔ code ≠ Success) ∧
  (code = Success →
   length payloads = length (request_wire_synapses request)).
Proof.
  intros Hres.
  destruct (deserialize_synapses bt (request_wire_synapses request))
    as [syns|e] eqn:Hsyns;
    [|by rewrite (run_undecodable bt self request FORWARD e Hsyns) in Hres].
  destruct (forward_runs bt self request syns Hsyns) as [Hwf Hrun].
  rewrite Hres in Hrun.
  assert (∀ c, all_codes_non_success (synapse_codes (run bt self request FORWARD).1) = true →
               synapse_codes (run bt self request FORWARD).1 !! 0 = Some c →
               c ≠ Success) as Hfirst.
  { intros c Hall Hc ->. by eapply all_codes_non_success_lookup. }
  inversion Hrun; simplify_eq; simpl in *;
    try match goal with
    | |- ([] = [] ↔ ?c ≠ Success) ∧ _ =>
        assert (c ≠ Success) as Hne
          by (first [ done | naive_solver | by eapply Hfirst ]);
        split; [split; done | intros ?; congruence]
    end.
  destruct Hwf as (_ & _ & _ & _ & _ & _ & Hlen & _).
  split; [|done]. split; [|done]. intros Hnil.
  apply (f_equal length) in Hnil. simpl in *. lia.
Qed.

(** On a request whose descriptors decode, the stages of a call run in
    the order Init, Validate, Decode, Compute, Encode, CallTimes, each
    at most once; [_backward] has no Encode stage. *)
Theorem stages_run_in_order bt self request kind syns :
  let stages := (history (run bt self request kind).1).*1 in
  deserialize_synapses bt (request_wire_synapses request) = Ok syns →
  match kind with
  | FORWARD => stages `prefix_of` [Init; Validate; Decode; Compute; Encode; CallTimes]
  | BACKWARD =>
      stages `prefix_of` [Init; Validate; Decode; Compute] ∨
      stages = [Init; Validate; Decode; Compute; CallTimes]
  end ∧
  [Init; Validate] `prefix_of` stages.
Proof.
  intros stages Hsyns. subst stages. destruct kind.
  - destruct (forward_runs bt self request syns Hsyns) as [Hwf Hrun].
    inversion Hrun;
      match goal with Hh : history _ = _ |- _ => rewrite Hh end; simpl;
      (split; [ | by eexists ]).
    + by exists [Decode; Compute; Encode; CallTimes].
    + by exists [Decode; Compute; Encode; CallTimes].
    + by exists [Compute; Encode; CallTimes].
    + by exists [Encode; CallTimes].
    + by exists [Compute; Encode; CallTimes].
    + by exists [CallTimes].
    + by exists [].
  - destruct (backward_runs bt self request syns Hsyns)
      as (Hwf & c & Hres & Hrun).
    inversion Hrun;
      match goal with Hh : history _ = _ |- _ => rewrite Hh end; simpl;
      (split; [ | by eexists ]).
    + left. by exists [Decode; Compute].
    + left. by exists [Decode; Compute].
    + left. by exists [Decode; Compute].
    + left. by exists [Compute].
    + left. by exists [].
    + left. by exists [].
    + by right.
Qed.

(** * The default callbacks *)

(** The forward default never raises; it hands back one tensor, one
    code and one message per synapse, and for each synapse: a failed
    or raising synapse check gives [UnknownException] (also when no
    function is attached), a synapse that passes it without a function
    [NotImplemented], and one that passes it with a function either
    [Success] or [UnknownException] with no tensor. *)
Theorem default_forward_callback_entries table inputs_x synapses hotkey :
  ∃ r,
    default_forward_callback table inputs_x synapses hotkey =
      Ok (response_tensors r, response_codes r, response_messages r) ∧
    entrywise (forward_default_entry table hotkey) synapses r.
Proof. apply default_forward_entries. Qed.

(** The backward default hands back no tensor at all, and per synapse
    [NotImplemented] when no function is attached, else [Success] or
    [UnknownException]; the only exception that leaves it is one
    raised by [optimizer_step]. *)
Theorem default_backward_callback_entries table inputs_x grads_dy synapses :
  match optimizer_step table with
  | Some (Raise e) =>
      default_backward_callback table inputs_x grads_dy synapses = Raise e
  | _ =>
      ∃ r,
        default_backward_callback table inputs_x grads_dy synapses =
          Ok (response_tensors r, response_codes r, response_messages r) ∧
        entrywise (backward_default_entry table) synapses r
  end.
Proof. apply default_backward_entries. Qed.

(** [attach_synapse_callback] changes what the defaults answer only
    for the synapses of the type it is given. *)
Theorem attach_synapse_callback_other_types callback ty table inputs_x grads_dy
    synapses hotkey :
  Forall (λ synapse, synapse_type synapse ≠ ty) synapses →
  default_forward_callback (attach_synapse_callback callback ty table)
    inputs_x synapses hotkey =
    default_forward_callback table inputs_x synapses hotkey ∧
  default_backward_callback (attach_synapse_callback callback ty table)
    inputs_x grads_dy synapses =
    default_backward_callback table inputs_x grads_dy synapses.
Proof.
  intros Hty. rewrite Forall_forall in Hty.
  unfold default_forward_callback, default_backward_callback. split.
  - rewrite (fold_enumerate_ext
               (default_forward_step (attach_synapse_callback callback ty table)
                  inputs_x hotkey)
               (default_forward_step table inputs_x hotkey)); [done|].
    intros i x [r mo] Hx. unfold default_forward_step.
    rewrite attached_attach. by rewrite decide_False by by apply Hty.
  - rewrite (fold_enumerate_ext
               (default_backward_step (attach_synapse_callback callback ty table)
                  inputs_x grads_dy)
               (default_backward_step table inputs_x grads_dy)); [done|].
    intros i x r Hx. unfold default_backward_step.
    rewrite attached_attach. by rewrite decide_False by by apply Hty.
Qed.


(** An axon made with no backward callback and no priority function,
    whose [optimizer_step] raises: the exception is raised after the
    gradients of every synapse were applied, and the compute stage of
    [_backward] gives every synapse the code and the message of that
    exception. *)
Theorem default_backward_optimizer_raises bt table forward self0 request syns
    pc e :
  let self := init_callbacks table forward None self0 in
  deserialize_synapses bt (request_wire_synapses request) = Ok syns →
  priority self0 = None →
  optimizer_step table = Some (Raise e) →
  (Compute, pc) ∈ history (run bt self request BACKWARD).1 →
  snap_codes pc = replicate (length syns) (handler_code e) ∧
  snap_messages pc = replicate (length syns) (handler_message e).
Proof.
  intros self Hsyns Hprio Hopt Hpc.
  destruct (backward_details bt self request syns Hsyns) as [[_ Hcomp] _].
  specialize (Hcomp Hprio pc Hpc). simpl in Hcomp.
  pose proof (default_backward_entries table (forward_inputs bt request syns)
                (backward_gradients bt request syns) syns) as Hr.
  rewrite Hopt in Hr. rewrite Hr in Hcomp. simpl in Hcomp.
  by injection Hcomp as -> ->.
Qed.

(** ** Instances of the properties above *)

Ltac stage_found :=
  vm_compute;
  repeat first [ apply list_elem_of_here | apply list_elem_of_further ].

Lemma forward_decode_outcomes_witness :
  let request := Demo.req [Demo.good; Demo.bad] [Demo.wire 1; Demo.wire 2] in
  let synapse := {| synapse_type := 2; synapse_args := [] |} in
  [Success; RequestShapeException] !! 1 =
    Some (decode_code (forward_decoded Demo.bt request 1 synapse)) ∧
  ["Success"; "Input shape exception with error:bad shape"] !! 1 =
    Some (decode_message (forward_decoded Demo.bt request 1 synapse)).
Proof.
  apply (forward_decode_outcomes Demo.bt (Demo.direct_axon Demo.echo_forward)
           (Demo.req [Demo.good; Demo.bad] [Demo.wire 1; Demo.wire 2])
           [ {| synapse_type := 1; synapse_args := [] |};
             {| synapse_type := 2; synapse_args := [] |} ]
           {| snap_codes := [Success; RequestShapeException];
              snap_messages :=
                ["Success"; "Input shape exception with error:bad shape"];
              snap_call_times := [0%Z; 1%Z];
              snap_is_response := [false; false] |}
           1 {| synapse_type := 2; synapse_args := [] |}).
  - reflexivity.
  - stage_found.
  - reflexivity.
Defined.

Lemma backward_decode_outcomes_witness :
  let request :=
    Demo.req [Demo.good; Demo.good; Demo.good; Demo.bad]
      [Demo.wire 1; Demo.wire 2] in
  let synapse := {| synapse_type := 2; synapse_args := [] |} in
  [Success; RequestShapeException] !! 1 =
    Some (decode_code (backward_decoded Demo.bt request 2 1 synapse)) ∧
  ["Success"; "Input shape exception with error:bad gradient shape"] !! 1 =
    Some (decode_message (backward_decoded Demo.bt request 2 1 synapse)).
Proof.
  apply (backward_decode_outcomes Demo.bt (Demo.direct_axon Demo.echo_forward)
           (Demo.req [Demo.good; Demo.good; Demo.good; Demo.bad]
              [Demo.wire 1; Demo.wire 2])
           [ {| synapse_type := 1; synapse_args := [] |};
             {| synapse_type := 2; synapse_args := [] |} ]
           {| snap_codes := [Success; RequestShapeException];
              snap_messages :=
                ["Success";
                 "Input shape exception with error:bad gradient shape"];
              snap_call_times := [0%Z; 1%Z];
              snap_is_response := [false; false] |}
           1 {| synapse_type := 2; synapse_args := [] |}).
  - reflexivity.
  - stage_found.
  - reflexivity.
Defined.

Lemma forward_compute_outcomes_witness :
  let self := Demo.direct_axon Demo.echo_forward in
  let request := Demo.req [Demo.good; Demo.bad] [Demo.wire 1; Demo.wire 2] in
  let syns := [ {| synapse_type := 1; synapse_args := [] |};
                {| synapse_type := 2; synapse_args := [] |} ] in
  ([Success; Success], ["Success"; "Success"]) =
    filled 2
      (forward_call self request (forward_inputs Demo.bt request syns) syns).
Proof.
  apply (forward_compute_outcomes Demo.bt (Demo.direct_axon Demo.echo_forward)
           (Demo.req [Demo.good; Demo.bad] [Demo.wire 1; Demo.wire 2])
           [ {| synapse_type := 1; synapse_args := [] |};
             {| synapse_type := 2; synapse_args := [] |} ]
           {| snap_codes := [Success; Success];
              snap_messages := ["Success"; "Success"];
              snap_call_times := [0%Z; 1%Z];
              snap_is_response := [true; true] |}).
  - reflexivity.
  - stage_found.
Defined.

Lemma backward_compute_outcomes_witness :
  let self := Demo.direct_axon Demo.echo_forward in
  let request :=
    Demo.req [Demo.good; Demo.good; Demo.good; Demo.bad]
      [Demo.wire 1; Demo.wire 2] in
  let syns := [ {| synapse_type := 1; synapse_args := [] |};
                {| synapse_type := 2; synapse_args := [] |} ] in
  ([Success; Success], ["Success"; "Success"]) =
    filled 2
      (backward_callback self (forward_inputs Demo.bt request syns)
         (backward_gradients Demo.bt request syns) syns).
Proof.
  apply (backward_compute_outcomes Demo.bt
           (Demo.direct_axon Demo.echo_forward)
           (Demo.req [Demo.good; Demo.good; Demo.good; Demo.bad]
              [Demo.wire 1; Demo.wire 2])
           [ {| synapse_type := 1; synapse_args := [] |};
             {| synapse_type := 2; synapse_args := [] |} ]
           {| snap_codes := [Success; Success];
              snap_messages := ["Success"; "Success"];
              snap_call_times := [0%Z; 1%Z];
              snap_is_response := [true; true] |}).
  - reflexivity.
  - reflexivity.
  - stage_found.
Defined.

Lemma forward_short_callback_witness :
  let self := Demo.direct_axon DemoDefaults.short_forward in
  let request := Demo.req [Demo.good; Demo.bad] [Demo.wire 1; Demo.wire 2] in
  let s := (run Demo.bt self request FORWARD).1 in
  (run Demo.bt self request FORWARD).2 =
    Ok ([], UnknownException, request_synapses s) ∧
  synapse_codes s = replicate 2 UnknownException ∧
  synapse_messages s = replicate 2 "list index out of range".
Proof.
  eapply (forward_short_callback Demo.bt (Demo.direct_axon DemoDefaults.short_forward)
            (Demo.req [Demo.good; Demo.bad] [Demo.wire 1; Demo.wire 2])
            [ {| synapse_type := 1; synapse_args := [] |};
              {| synapse_type := 2; synapse_args := [] |} ]).
  - reflexivity.
  - reflexivity.
  - simpl. lia.
  - reflexivity.
  - reflexivity.
  - left. simpl. lia.
Defined.

Lemma returned_synapses_carry_outcomes_witness :
  let self := Demo.direct_axon DemoDefaults.short_forward in
  let request := Demo.req [Demo.good; Demo.bad] [Demo.wire 1; Demo.wire 2] in
  let s := (run Demo.bt self request FORWARD).1 in
  let wires :=
    [ {| wire_synapse_type := 1; wire_args := [];
         return_code := UnknownException;
         message := "list index out of range" |};
      {| wire_synapse_type := 2; wire_args := [];
         return_code := UnknownException;
         message := "list index out of range" |} ] in
  (FORWARD = BACKWARD ∨ UnknownException ≠ Success →
   wires = request_synapses s) ∧
  ∀ index w, request_synapses s !! index = Some w →
    synapse_codes s !! index = Some (return_code w) ∧
    synapse_messages s !! index = Some (message w).
Proof.
  apply (returned_synapses_carry_outcomes Demo.bt
           (Demo.direct_axon DemoDefaults.short_forward)
           (Demo.req [Demo.good; Demo.bad] [Demo.wire 1; Demo.wire 2])
           FORWARD []).
  reflexivity.
Defined.

Lemma attach_synapse_callback_other_types_witness :
  let table := DemoDefaults.no_functions None in
  let attached_ := attach_synapse_callback DemoDefaults.echo_synapse 5 table in
  let syns := [ {| synapse_type := 1; synapse_args := [] |};
                {| synapse_type := 2; synapse_args := [] |} ] in
  default_forward_callback attached_ [None; None] syns "caller" =
    default_forward_callback table [None; None] syns "caller" ∧
  default_backward_callback attached_ [None; None] [None; None] syns =
    default_backward_callback table [None; None] [None; None] syns.
Proof.
  apply (attach_synapse_callback_other_types DemoDefaults.echo_synapse 5
           (DemoDefaults.no_functions None) [None; None] [None; None]
           [ {| synapse_type := 1; synapse_args := [] |};
             {| synapse_type := 2; synapse_args := [] |} ] "caller").
  repeat constructor; simpl; lia.
Defined.


Lemma default_backward_optimizer_raises_witness :
  [UnknownException] = replicate 1 (handler_code (OtherException "step")) ∧
  ["step"] = replicate 1 (handler_message (OtherException "step")).
Proof.
  apply (default_backward_optimizer_raises Demo.bt
           (DemoDefaults.no_functions (Some (Raise (OtherException "step"))))
           None (Demo.direct_axon Demo.echo_forward)
           (Demo.req [Demo.good; Demo.good] [Demo.wire 1])
           [ {| synapse_type := 1; synapse_args := [] |} ]
           {| snap_codes := [UnknownException]; snap_messages := ["step"];
              snap_call_times := [1%Z]; snap_is_response := [true] |}
           (OtherException "step")).
  - reflexivity.
  - reflexivity.
  - reflexivity.
  - stage_found.
Defined.


Lemma forward_payloads_iff_success_witness :
  let wires :=
    [ {| wire_synapse_type := 1; wire_args := [];
         return_code := UnknownException;
         message := "list index out of range" |};
      {| wire_synapse_type := 2; wire_args := [];
         return_code := UnknownException;
         message := "list index out of range" |} ] in
  (@nil Response = [] ↔ UnknownException ≠ Success) ∧
  (UnknownException = Success → length (@nil Response) = 2).
Proof.
  apply (forward_payloads_iff_success Demo.bt (Demo.direct_axon DemoDefaults.short_forward)
           (Demo.req [Demo.good; Demo.bad] [Demo.wire 1; Demo.wire 2])
           [] UnknownException
           [ {| wire_synapse_type := 1; wire_args := [];
                return_code := UnknownException;
                message := "list index out of range" |};
             {| wire_synapse_type := 2; wire_args := [];
                return_code := UnknownException;
                message := "list index out of range" |} ]).
  reflexivity.
Defined.

Lemma stages_run_in_order_witness :
  let self := Demo.direct_axon Demo.echo_forward in
  let request :=
    Demo.req [Demo.good; Demo.good; Demo.good; Demo.bad]
      [Demo.wire 1; Demo.wire 2] in
  let stages := (history (run Demo.bt self request BACKWARD).1).*1 in
  (stages `prefix_of` [Init; Validate; Decode; Compute] ∨
   stages = [Init; Validate; Decode; Compute; CallTimes]) ∧
  [Init; Validate] `prefix_of` stages.
Proof.
  apply (stages_run_in_order Demo.bt (Demo.direct_axon Demo.echo_forward)
           (Demo.req [Demo.good; Demo.good; Demo.good; Demo.bad]
              [Demo.wire 1; Demo.wire 2])
           BACKWARD
           [ {| synapse_type := 1; synapse_args := [] |};
             {| synapse_type := 2; synapse_args := [] |} ]).
  reflexivity.
Defined.
